(** * Grocery scheduler: the slot generator, the Mongo converters and the
      approval route of [server.py], embedded in Rocq.

    Conventions of the embedding.
    - A naive Python [datetime] is the number of microseconds since
      0001-01-01T00:00:00 (day number 0 is proleptic ordinal 1, a Monday),
      a [timedelta] is a number of microseconds.  Both are range checked
      where Python range checks them, and raise [OverflowError] outside.
    - Code that can raise returns an [outcome]; the [while] loop of the
      generator is run with a fuel, and [OutOfFuel] marks a run cut short.
    - A [float] that is only ever one of the literals of the source is the
      rational its literal denotes.
    - The global [MOCK_CALENDAR_EVENTS], computed from the clock at import
      time, is the [calendar] argument of the functions that read it. *)

From Stdlib Require Import ZArith List Bool String Ascii Lia.
From Stdlib Require Import QArith Permutation Sorted.
Import ListNotations.

Local Open Scope string_scope.
Local Open Scope list_scope.
Local Open Scope Z_scope.

(** ** Exceptions and outcomes *)

Inductive exn : Type :=
| ValueError
| OverflowError
| HTTPException (status_code : Z) (detail : string).

Inductive outcome (A : Type) : Type :=
| Done (a : A)
| Raised (e : exn)
| OutOfFuel.

Arguments Done {A} a.
Arguments Raised {A} e.
Arguments OutOfFuel {A}.

Definition bind {A B : Type} (m : outcome A) (k : A -> outcome B) : outcome B :=
  match m with
  | Done a => k a
  | Raised e => Raised e
  | OutOfFuel => OutOfFuel
  end.

Declare Scope outcome_scope.
Delimit Scope outcome_scope with outcome.
Notation "x <- m ;; k" := (bind m (fun x => k))
  (at level 61, m at next level, right associativity) : outcome_scope.
Local Open Scope outcome_scope.

(** A [for] loop whose body may raise, threading the loop state. *)
Fixpoint for_each {A S : Type} (body : S -> A -> outcome S) (l : list A) (s : S)
  : outcome S :=
  match l with
  | [] => Done s
  | x :: l' => s' <- body s x ;; for_each body l' s'
  end.

(** ** Dates and times *)

Definition datetime : Type := Z.
Definition timedelta : Type := Z.

Definition us_per_minute : Z := 60000000.
Definition us_per_hour : Z := 3600000000.
Definition us_per_day : Z := 86400000000.

(** [date.max.toordinal()] and the largest [timedelta.days]. *)
Definition MAXORDINAL : Z := 3652059.
Definition MAX_DELTA_DAYS : Z := 999999999.

Definition datetime_in_range (t : Z) : bool :=
  (0 <=? t) && (t <? MAXORDINAL * us_per_day).

Definition timedelta_in_range (d : Z) : bool :=
  (- MAX_DELTA_DAYS <=? d / us_per_day) && (d / us_per_day <=? MAX_DELTA_DAYS).

(** [timedelta(minutes=n)], [timedelta(hours=n)], [timedelta(days=n)]. *)
Definition new_timedelta (us : Z) : outcome timedelta :=
  if timedelta_in_range us then Done us else Raised OverflowError.

Definition timedelta_minutes (n : Z) : outcome timedelta :=
  new_timedelta (n * us_per_minute).
Definition timedelta_hours (n : Z) : outcome timedelta :=
  new_timedelta (n * us_per_hour).
Definition timedelta_days (n : Z) : outcome timedelta :=
  new_timedelta (n * us_per_day).

(** [t + d] on a datetime. *)
Definition datetime_add (t : datetime) (d : timedelta) : outcome datetime :=
  if datetime_in_range (t + d) then Done (t + d) else Raised OverflowError.

(** A [datetime.time] as [strptime(_, "%H:%M").time()] builds it. *)
Record time : Type := mk_time { hour : Z; minute : Z }.

(** [t.date()], as a day number. *)
Definition date (t : datetime) : Z := t / us_per_day.

(** [datetime.combine(d, tm)]. *)
Definition combine (d : Z) (tm : time) : datetime :=
  d * us_per_day + hour tm * us_per_hour + minute tm * us_per_minute.

(** [t.weekday()]: 0 is Monday, 6 is Sunday. *)
Definition weekday (t : datetime) : Z := date t mod 7.

(** [t.strftime('%A')] in the C locale. *)
Definition strftime_A (t : datetime) : string :=
  match weekday t with
  | 0 => "Monday"
  | 1 => "Tuesday"
  | 2 => "Wednesday"
  | 3 => "Thursday"
  | 4 => "Friday"
  | 5 => "Saturday"
  | _ => "Sunday"
  end.

(** [str.lower()] on ASCII text. *)
Definition lower_ascii (c : ascii) : ascii :=
  let n := nat_of_ascii c in
  if ((65 <=? n) && (n <=? 90))%nat then ascii_of_nat (n + 32) else c.

Fixpoint lower (s : string) : string :=
  match s with
  | EmptyString => EmptyString
  | String c s' => String (lower_ascii c) (lower s')
  end.

(** *** [datetime.strptime(s, "%H:%M")]

    The format compiles to the regular expression
    [(?P<H>2[0-3]|[0-1]\d|\d):(?P<M>[0-5]\d|\d)], matched at the start of
    the text; text left over after the match is a [ValueError] too.  Texts
    are ASCII here. *)

Definition is_digit (c : ascii) : bool :=
  let n := nat_of_ascii c in ((48 <=? n) && (n <=? 57))%nat.

Definition digit_value (c : ascii) : Z := Z.of_nat (nat_of_ascii c) - 48.

Definition in_range_ascii (lo hi c : ascii) : bool :=
  ((nat_of_ascii lo <=? nat_of_ascii c) && (nat_of_ascii c <=? nat_of_ascii hi))%nat.

(** Group [H]: the alternatives in the order the regular expression tries them. *)
Definition match_H (s : string) : option (Z * string) :=
  match s with
  | String c1 (String c2 rest) =>
      if (Ascii.eqb c1 "2" && in_range_ascii "0" "3" c2)
         || (in_range_ascii "0" "1" c1 && is_digit c2)
      then Some (10 * digit_value c1 + digit_value c2, rest)
      else if is_digit c1 then Some (digit_value c1, String c2 rest)
      else None
  | String c1 EmptyString =>
      if is_digit c1 then Some (digit_value c1, EmptyString) else None
  | EmptyString => None
  end.

(** Group [M]. *)
Definition match_M (s : string) : option (Z * string) :=
  match s with
  | String c1 (String c2 rest) =>
      if in_range_ascii "0" "5" c1 && is_digit c2
      then Some (10 * digit_value c1 + digit_value c2, rest)
      else if is_digit c1 then Some (digit_value c1, String c2 rest)
      else None
  | String c1 EmptyString =>
      if is_digit c1 then Some (digit_value c1, EmptyString) else None
  | EmptyString => None
  end.

Definition strptime_HM (s : string) : outcome time :=
  match match_H s with
  | Some (h, String c rest) =>
      if Ascii.eqb c ":" then
        match match_M rest with
        | Some (m, EmptyString) => Done (mk_time h m)
        | _ => Raised ValueError
        end
      else Raised ValueError
  | _ => Raised ValueError
  end.

(** *** [datetime.isoformat] and [datetime.fromisoformat]

    A datetime is printed from the fields the proleptic Gregorian calendar
    gives its day number, as [_ord2ymd] computes them, and read back with
    [_ymd2ord].  [fromisoformat] is the reading of the two forms that
    [isoformat] prints for a naive datetime, with and without microseconds;
    [None] stands for its [ValueError]. *)

Definition DAYS_IN_MONTH : list Z := [31; 28; 31; 30; 31; 30; 31; 31; 30; 31; 30; 31].
Definition DAYS_BEFORE_MONTH : list Z :=
  [0; 31; 59; 90; 120; 151; 181; 212; 243; 273; 304; 334].

Definition is_leap (year : Z) : bool :=
  (year mod 4 =? 0) && (negb (year mod 100 =? 0) || (year mod 400 =? 0)).

Definition days_before_year (year : Z) : Z :=
  let y := year - 1 in y * 365 + y / 4 - y / 100 + y / 400.

Definition days_in_month (year month : Z) : Z :=
  if (month =? 2) && is_leap year then 29
  else nth (Z.to_nat (month - 1)) DAYS_IN_MONTH 0.

Definition days_before_month (year month : Z) : Z :=
  nth (Z.to_nat (month - 1)) DAYS_BEFORE_MONTH 0
  + (if (2 <? month) && is_leap year then 1 else 0).

Definition ymd2ord (year month day : Z) : Z :=
  days_before_year year + days_before_month year month + day.

(** The end of [_ord2ymd]: month and day of the [n]-th day, from 0, of a
    year. *)
Definition month_day (leapyear : bool) (n : Z) : Z * Z :=
  let month := Z.shiftr (n + 50) 5 in
  let preceding :=
    nth (Z.to_nat (month - 1)) DAYS_BEFORE_MONTH 0
    + (if (2 <? month) && leapyear then 1 else 0) in
  if n <? preceding then
    let month := month - 1 in
    let preceding :=
      preceding
      - (nth (Z.to_nat (month - 1)) DAYS_IN_MONTH 0
         + (if (month =? 2) && leapyear then 1 else 0)) in
    (month, n - preceding + 1)
  else (month, n - preceding + 1).

Definition ord2ymd (ordinal : Z) : Z * Z * Z :=
  let n := ordinal - 1 in
  let n400 := n / 146097 in
  let n := n mod 146097 in
  let year := n400 * 400 + 1 in
  let n100 := n / 36524 in
  let n := n mod 36524 in
  let n4 := n / 1461 in
  let n := n mod 1461 in
  let n1 := n / 365 in
  let n := n mod 365 in
  let year := year + n100 * 100 + n4 * 4 + n1 in
  if (n1 =? 4) || (n100 =? 4) then (year - 1, 12, 31)
  else
    let leapyear := (n1 =? 3) && (negb (n4 =? 24) || (n100 =? 3)) in
    let (month, day) := month_day leapyear n in
    (year, month, day).

Definition digit_char (n : Z) : ascii := ascii_of_nat (48 + Z.to_nat (n mod 10)).

(** [n] in [width] decimal digits, zero padded. *)
Fixpoint zero_padded (width : nat) (n : Z) : string :=
  match width with
  | O => EmptyString
  | S w => (zero_padded w (n / 10) ++ String (digit_char n) EmptyString)%string
  end.

Definition isoformat (t : datetime) : string :=
  let '(year, month, day) := ord2ymd (date t + 1) in
  let rest := t mod us_per_day in
  let us := rest mod 1000000 in
  (zero_padded 4 year ++ "-" ++ zero_padded 2 month ++ "-" ++ zero_padded 2 day
   ++ "T" ++ zero_padded 2 (rest / us_per_hour)
   ++ ":" ++ zero_padded 2 (rest mod us_per_hour / us_per_minute)
   ++ ":" ++ zero_padded 2 (rest mod us_per_minute / 1000000)
   ++ (if (us =? 0)%Z then "" else "." ++ zero_padded 6 us))%string.

(** Exactly [width] decimal digits at the start of a text. *)
Fixpoint read_digits (width : nat) (acc : Z) (s : string) : option (Z * string) :=
  match width with
  | O => Some (acc, s)
  | S w =>
      match s with
      | String c rest =>
          if is_digit c then read_digits w (10 * acc + digit_value c) rest else None
      | EmptyString => None
      end
  end.

Definition expect (c : ascii) (s : string) : option string :=
  match s with
  | String c' rest => if Ascii.eqb c c' then Some rest else None
  | EmptyString => None
  end.

Definition option_bind {A B : Type} (o : option A) (k : A -> option B) : option B :=
  match o with
  | Some a => k a
  | None => None
  end.

Definition fromisoformat (s : string) : option datetime :=
  option_bind (read_digits 4 0 s) (fun '(year, s) =>
  option_bind (expect "-" s) (fun s =>
  option_bind (read_digits 2 0 s) (fun '(month, s) =>
  option_bind (expect "-" s) (fun s =>
  option_bind (read_digits 2 0 s) (fun '(day, s) =>
  option_bind (expect "T" s) (fun s =>
  option_bind (read_digits 2 0 s) (fun '(hh, s) =>
  option_bind (expect ":" s) (fun s =>
  option_bind (read_digits 2 0 s) (fun '(mm, s) =>
  option_bind (expect ":" s) (fun s =>
  option_bind (read_digits 2 0 s) (fun '(ss, s) =>
  option_bind
    match s with
    | EmptyString => Some 0
    | _ =>
        option_bind (expect "." s) (fun s =>
        match read_digits 6 0 s with
        | Some (us, EmptyString) => Some us
        | _ => None
        end)
    end (fun us =>
  if (1 <=? year) && (1 <=? month) && (month <=? 12)
     && (1 <=? day) && (day <=? days_in_month year month)
     && (hh <? 24) && (mm <? 60) && (ss <? 60)
  then Some ((ymd2ord year month day - 1) * us_per_day
             + hh * us_per_hour + mm * us_per_minute + ss * 1000000 + us)
  else None)))))))))))).

(** ** Models *)

Inductive DayOfWeek : Type :=
| MONDAY | TUESDAY | WEDNESDAY | THURSDAY | FRIDAY | SATURDAY | SUNDAY.

Module DayOfWeek_.
Definition value (d : DayOfWeek) : string :=
  match d with
  | MONDAY => "monday"
  | TUESDAY => "tuesday"
  | WEDNESDAY => "wednesday"
  | THURSDAY => "thursday"
  | FRIDAY => "friday"
  | SATURDAY => "saturday"
  | SUNDAY => "sunday"
  end.
End DayOfWeek_.

Module PreferredHours.
Record t : Type := mk {
  start_time : string;
  end_time : string;
  days : list DayOfWeek
}.
End PreferredHours.

Module UserPreferences.
Record t : Type := mk {
  id : string;
  user_id : string;
  home_address : string;
  preferred_stores : list string;
  shopping_duration_minutes : Z;
  preferred_hours : list PreferredHours.t;
  created_at : datetime;
  updated_at : datetime
}.
End UserPreferences.

Module CalendarEvent.
Record t : Type := mk {
  id : string;
  title : string;
  start_time : datetime;
  end_time : datetime;
  location : option string
}.
End CalendarEvent.

Module GroceryStore.
Record t : Type := mk {
  id : string;
  name : string;
  address : string;
  lat : Q;
  lng : Q;
  distance_km : option Q
}.
End GroceryStore.

Module ScheduleSuggestion.
Record t : Type := mk {
  id : string;
  suggested_time : datetime;
  duration_minutes : Z;
  store : GroceryStore.t;
  reason : string;
  travel_time_minutes : Z;
  confidence_score : Q
}.
End ScheduleSuggestion.

Module WeeklySchedule.
Record t : Type := mk {
  id : string;
  user_id : string;
  week_start : datetime;
  suggestions : list ScheduleSuggestion.t;
  approved_suggestion_id : option string;
  status : string;
  created_at : datetime
}.
End WeeklySchedule.

(** ** Mock data *)

Definition MOCK_GROCERY_STORES : list GroceryStore.t :=
  [ GroceryStore.mk "1" "Whole Foods Market" "100 Organic St"
      (407128 # 10000) (- 740060 # 10000) None;
    GroceryStore.mk "2" "Trader Joe's" "200 Affordable Ave"
      (407589 # 10000) (- 739851 # 10000) None;
    GroceryStore.mk "3" "Safeway" "300 Convenient Blvd"
      (407505 # 10000) (- 739934 # 10000) None;
    GroceryStore.mk "4" "Target Grocery" "400 Everything Dr"
      (407282 # 10000) (- 737949 # 10000) None ].

(** [MOCK_CALENDAR_EVENTS], from the instant [datetime.now()] gave when the
    module was loaded. *)
Definition MOCK_CALENDAR_EVENTS (now : datetime) : list CalendarEvent.t :=
  [ CalendarEvent.mk "1" "Work Meeting"
      (now + 1 * us_per_day + 9 * us_per_hour) (now + 1 * us_per_day + 10 * us_per_hour)
      (Some "123 Business St, Downtown");
    CalendarEvent.mk "2" "Gym Session"
      (now + 2 * us_per_day + 18 * us_per_hour) (now + 2 * us_per_day + 19 * us_per_hour)
      (Some "456 Fitness Ave, Midtown");
    CalendarEvent.mk "3" "Dinner with Friends"
      (now + 3 * us_per_day + 19 * us_per_hour) (now + 3 * us_per_day + 21 * us_per_hour)
      (Some "789 Restaurant Row, Uptown") ].

(** ** SchedulingService *)

Definition calculate_travel_time (from_location : string) (to_store : GroceryStore.t) : Z :=
  15.

Definition find_nearby_stores (location : string) : list GroceryStore.t :=
  firstn 2 MOCK_GROCERY_STORES.

Definition get_calendar_events (calendar : list CalendarEvent.t)
    (user_id : string) (start_date end_date : datetime) : list CalendarEvent.t :=
  filter (fun event =>
            (start_date <=? CalendarEvent.start_time event)
            && (CalendarEvent.start_time event <=? end_date))
         calendar.

(** The condition of the list comprehension that computes [conflicts]. *)
Definition conflict (slot_start slot_end_time : datetime) (e : CalendarEvent.t) : bool :=
  ((slot_start <=? CalendarEvent.start_time e)
   && (CalendarEvent.start_time e <=? slot_end_time))
  || ((slot_start <=? CalendarEvent.end_time e)
      && (CalendarEvent.end_time e <=? slot_end_time))
  || ((CalendarEvent.start_time e <=? slot_start)
      && (CalendarEvent.end_time e >=? slot_end_time)).

Definition string_in (s : string) (l : list string) : bool :=
  existsb (String.eqb s) l.

Definition confidence_weekend : Q := 8 # 10.
Definition confidence_weekday : Q := 6 # 10.

Section Generator.

(** [uuid4 k] is the text of the UUID that the [k]-th [ScheduleSuggestion]
    built by a call draws for its [id]. *)
Variable uuid4 : nat -> string.
Variable calendar : list CalendarEvent.t.
Variable preferences : UserPreferences.t.

Let duration : Z := UserPreferences.shopping_duration_minutes preferences.
Let home : string := UserPreferences.home_address preferences.

(** The body of [for store in stores]. *)
Definition suggest (current_date : datetime) (day_name : string)
    (slot_start : datetime) (drawn : nat) (store : GroceryStore.t)
  : ScheduleSuggestion.t :=
  let travel_time := calculate_travel_time home store in
  let confidence :=
    if string_in day_name ["saturday"; "sunday"]
    then confidence_weekend else confidence_weekday in
  ScheduleSuggestion.mk (uuid4 drawn) slot_start duration store
    ("Free time on " ++ strftime_A current_date ++ " during your preferred hours")%string
    travel_time confidence.

(** One turn of the [while] loop up to the increment of [current_time]:
    the suggestions after the turn. *)
Definition slot_turn (events : list CalendarEvent.t) (current_date : datetime)
    (day_name : string) (slot_start slot_end_time : datetime)
    (suggestions : list ScheduleSuggestion.t) : list ScheduleSuggestion.t :=
  let conflicts := filter (conflict slot_start slot_end_time) events in
  match conflicts with
  | [] =>
      let stores := find_nearby_stores home in
      fold_left (fun acc store =>
                   acc ++ [suggest current_date day_name slot_start (List.length acc) store])
                stores suggestions
  | _ :: _ => suggestions
  end.

(** The [while] loop over the slots of one window. *)
Fixpoint slot_loop (fuel : nat) (events : list CalendarEvent.t)
    (current_date : datetime) (day_name : string) (slot_end : datetime)
    (current_time : datetime) (suggestions : list ScheduleSuggestion.t)
  : outcome (list ScheduleSuggestion.t) :=
  match fuel with
  | O => OutOfFuel
  | S fuel' =>
      d <- timedelta_minutes duration ;;
      slot_end_time <- datetime_add current_time d ;;
      if slot_end_time <=? slot_end then
        let suggestions' :=
          slot_turn events current_date day_name current_time slot_end_time suggestions in
        h <- timedelta_hours 1 ;;
        current_time' <- datetime_add current_time h ;;
        slot_loop fuel' events current_date day_name slot_end current_time' suggestions'
      else Done suggestions
  end.

(** The body of [for pref_hours in preferred_for_day]. *)
Definition window_body (fuel : nat) (events : list CalendarEvent.t)
    (current_date : datetime) (day_name : string)
    (suggestions : list ScheduleSuggestion.t) (pref_hours : PreferredHours.t)
  : outcome (list ScheduleSuggestion.t) :=
  start_time <- strptime_HM (PreferredHours.start_time pref_hours) ;;
  end_time <- strptime_HM (PreferredHours.end_time pref_hours) ;;
  let current_time := combine (date current_date) start_time in
  let slot_end := combine (date current_date) end_time in
  slot_loop fuel events current_date day_name slot_end current_time suggestions.

(** The body of [for day_offset in range(7)]. *)
Definition day_body (fuel : nat) (events : list CalendarEvent.t) (week_start : datetime)
    (suggestions : list ScheduleSuggestion.t) (day_offset : Z)
  : outcome (list ScheduleSuggestion.t) :=
  d <- timedelta_days day_offset ;;
  current_date <- datetime_add week_start d ;;
  let day_name := lower (strftime_A current_date) in
  let preferred_for_day :=
    filter (fun ph => string_in day_name (map DayOfWeek_.value (PreferredHours.days ph)))
           (UserPreferences.preferred_hours preferences) in
  match preferred_for_day with
  | [] => Done suggestions
  | _ :: _ =>
      for_each (window_body fuel events current_date day_name) preferred_for_day suggestions
  end.

(** Everything the loops append, in the order they append it. *)
Definition collect_suggestions (fuel : nat) (week_start : datetime)
  : outcome (list ScheduleSuggestion.t) :=
  d <- timedelta_days 7 ;;
  week_end <- datetime_add week_start d ;;
  let events :=
    get_calendar_events calendar (UserPreferences.user_id preferences) week_start week_end in
  for_each (day_body fuel events week_start) [0; 1; 2; 3; 4; 5; 6] [].

End Generator.

(** *** [sorted(suggestions, key=..., reverse=True)[:5]]

    Python's sort is stable, also with [reverse=True]: elements with equal
    keys keep the order they had.  A stable sort has one possible result,
    which insertion from the right computes: an element goes in front of
    the first element whose key is not greater than its own. *)

Section Sorted.

Context {A : Type}.
Variable key : A -> Q.

Fixpoint insert_reverse (x : A) (l : list A) : list A :=
  match l with
  | [] => [x]
  | y :: l' =>
      if Qle_bool (key y) (key x) then x :: y :: l'
      else y :: insert_reverse x l'
  end.

Fixpoint sorted_reverse (l : list A) : list A :=
  match l with
  | [] => []
  | x :: l' => insert_reverse x (sorted_reverse l')
  end.

End Sorted.

Definition generate_schedule_suggestions (uuid4 : nat -> string) (fuel : nat)
    (calendar : list CalendarEvent.t)
    (preferences : UserPreferences.t) (week_start : datetime)
  : outcome (list ScheduleSuggestion.t) :=
  suggestions <- collect_suggestions uuid4 calendar preferences fuel week_start ;;
  Done (firstn 5 (sorted_reverse ScheduleSuggestion.confidence_score suggestions)).


(** ** Documents

    What [model.dict()] builds and the converters work on: a dictionary is
    its items in insertion order. *)

#[warnings="-register-all"]
Inductive value : Type :=
| VNone
| VBool (b : bool)
| VInt (n : Z)
| VFloat (x : Q)
| VStr (s : string)
| VDatetime (t : datetime)
| VList (l : list value)
| VDict (d : dict)
with dict : Type :=
| DNil
| DCons (key : string) (v : value) (rest : dict).

Definition VOptional {A : Type} (inj : A -> value) (o : option A) : value :=
  match o with
  | Some a => inj a
  | None => VNone
  end.

Fixpoint dict_of_items (items : list (string * value)) : dict :=
  match items with
  | [] => DNil
  | (key, v) :: rest => DCons key v (dict_of_items rest)
  end.

Fixpoint dict_get (key : string) (d : dict) : option value :=
  match d with
  | DNil => None
  | DCons k v rest => if String.eqb k key then Some v else dict_get key rest
  end.

Definition GroceryStore_dict (s : GroceryStore.t) : dict :=
  dict_of_items
    [ ("id", VStr (GroceryStore.id s));
      ("name", VStr (GroceryStore.name s));
      ("address", VStr (GroceryStore.address s));
      ("lat", VFloat (GroceryStore.lat s));
      ("lng", VFloat (GroceryStore.lng s));
      ("distance_km", VOptional VFloat (GroceryStore.distance_km s)) ].

Definition ScheduleSuggestion_dict (s : ScheduleSuggestion.t) : dict :=
  dict_of_items
    [ ("id", VStr (ScheduleSuggestion.id s));
      ("suggested_time", VDatetime (ScheduleSuggestion.suggested_time s));
      ("duration_minutes", VInt (ScheduleSuggestion.duration_minutes s));
      ("store", VDict (GroceryStore_dict (ScheduleSuggestion.store s)));
      ("reason", VStr (ScheduleSuggestion.reason s));
      ("travel_time_minutes", VInt (ScheduleSuggestion.travel_time_minutes s));
      ("confidence_score", VFloat (ScheduleSuggestion.confidence_score s)) ].

Definition WeeklySchedule_dict (w : WeeklySchedule.t) : dict :=
  dict_of_items
    [ ("id", VStr (WeeklySchedule.id w));
      ("user_id", VStr (WeeklySchedule.user_id w));
      ("week_start", VDatetime (WeeklySchedule.week_start w));
      ("suggestions", VList (map (fun s => VDict (ScheduleSuggestion_dict s)) (WeeklySchedule.suggestions w)));
      ("approved_suggestion_id", VOptional VStr (WeeklySchedule.approved_suggestion_id w));
      ("status", VStr (WeeklySchedule.status w));
      ("created_at", VDatetime (WeeklySchedule.created_at w)) ].

(** [s.endswith(suffix)] *)
Fixpoint endswith (s suffix : string) : bool :=
  String.eqb s suffix
  || match s with
     | EmptyString => false
     | String _ s' => endswith s' suffix
     end.

(** The converters update [data] in place and return it; the dictionary
    returned is the one computed here. *)
Fixpoint prepare_for_mongo (data : dict) : dict :=
  match data with
  | DNil => DNil
  | DCons key v rest =>
      DCons key
        match v with
        | VDatetime t => VStr (isoformat t)
        | VList l =>
            VList (map (fun item =>
                          match item with
                          | VDict d => VDict (prepare_for_mongo d)
                          | _ => item
                          end) l)
        | _ => v
        end
        (prepare_for_mongo rest)
  end.

Fixpoint parse_from_mongo (data : dict) : dict :=
  match data with
  | DNil => DNil
  | DCons key v rest =>
      DCons key
        match v with
        | VStr s =>
            if endswith key "_at" || endswith key "_time" then
              match fromisoformat s with
              | Some t => VDatetime t
              | None => v
              end
            else v
        | VList l =>
            VList (map (fun item =>
                          match item with
                          | VDict d => VDict (parse_from_mongo d)
                          | _ => item
                          end) l)
        | _ => v
        end
        (parse_from_mongo rest)
  end.

(** ** The approval route

    [db.weekly_schedules] is the list of the schedules stored, in their
    natural order.  [update_one] changes the first document the filter
    matches; its [modified_count] counts the documents the update really
    changed, so it is 0 too when the matched document already holds the
    values that [$set] writes. *)

Record UpdateResult : Type := mk_UpdateResult {
  matched_count : Z;
  modified_count : Z
}.

Definition option_string_eqb (a b : option string) : bool :=
  match a, b with
  | Some x, Some y => String.eqb x y
  | None, None => true
  | _, _ => false
  end.

(** [{"$set": {"approved_suggestion_id": suggestion_id, "status": "approved"}}] *)
Definition set_approved (suggestion_id : string) (doc : WeeklySchedule.t) : WeeklySchedule.t :=
  WeeklySchedule.mk (WeeklySchedule.id doc) (WeeklySchedule.user_id doc)
    (WeeklySchedule.week_start doc) (WeeklySchedule.suggestions doc)
    (Some suggestion_id) "approved" (WeeklySchedule.created_at doc).

Definition changed_by_set (suggestion_id : string) (doc : WeeklySchedule.t) : bool :=
  negb (option_string_eqb (WeeklySchedule.approved_suggestion_id doc) (Some suggestion_id)
        && String.eqb (WeeklySchedule.status doc) "approved").

(** [update_one({"id": schedule_id}, {"$set": ...})] *)
Fixpoint update_one (schedule_id suggestion_id : string) (collection : list WeeklySchedule.t)
  : UpdateResult * list WeeklySchedule.t :=
  match collection with
  | [] => (mk_UpdateResult 0 0, [])
  | doc :: rest =>
      if String.eqb (WeeklySchedule.id doc) schedule_id then
        (mk_UpdateResult 1 (if changed_by_set suggestion_id doc then 1 else 0),
         set_approved suggestion_id doc :: rest)
      else
        let (result, rest') := update_one schedule_id suggestion_id rest in
        (result, doc :: rest')
  end.

(** The route: what it answers or raises, and the collection afterwards. *)
Definition approve_suggestion (schedule_id suggestion_id : string)
    (weekly_schedules : list WeeklySchedule.t)
  : outcome string * list WeeklySchedule.t :=
  let (result, weekly_schedules') := update_one schedule_id suggestion_id weekly_schedules in
  if modified_count result =? 0
  then (Raised (HTTPException 404 "Schedule not found"), weekly_schedules')
  else (Done "Suggestion approved successfully", weekly_schedules').

(** ** Vocabulary of the statements *)

(** The length of a slot of [n] minutes. *)
Definition minutes (n : Z) : timedelta := n * us_per_minute.

(** The candidate start instants of a window as the specification words
    them: the window's start and every whole hour after it, as long as
    the slot of length [d] ends no later than the window's end. *)
Definition window_candidates (start stop : datetime) (d : timedelta) : list datetime :=
  map (fun k => start + Z.of_nat k * us_per_hour)
      (seq 0 (Z.to_nat ((stop - start - d) / us_per_hour + 1))).

(** No event makes the conflict predicate true on the slot. *)
Definition slot_free (events : list CalendarEvent.t) (slot_start slot_end_time : datetime) : bool :=
  forallb (fun e => negb (conflict slot_start slot_end_time e)) events.

(** The instant and the store of a suggestion. *)
Definition slot_of (s : ScheduleSuggestion.t) : datetime * GroceryStore.t :=
  (ScheduleSuggestion.suggested_time s, ScheduleSuggestion.store s).

(** The time a text of a window denotes, where it denotes one. *)
Definition parsed (s : string) : time :=
  match strptime_HM s with
  | Done t => t
  | _ => mk_time 0 0
  end.

Definition matching_windows (preferences : UserPreferences.t) (current_date : datetime)
  : list PreferredHours.t :=
  filter (fun ph => string_in (lower (strftime_A current_date))
                              (map DayOfWeek_.value (PreferredHours.days ph)))
         (UserPreferences.preferred_hours preferences).

(** The slots of one window on one day, in the order of the scan. *)
Definition window_slots (events : list CalendarEvent.t) (preferences : UserPreferences.t)
    (current_date : datetime) (ph : PreferredHours.t) : list (datetime * GroceryStore.t) :=
  let d := minutes (UserPreferences.shopping_duration_minutes preferences) in
  flat_map (fun t =>
              if slot_free events t (t + d)
              then map (pair t) (find_nearby_stores (UserPreferences.home_address preferences))
              else [])
           (window_candidates
              (combine (date current_date) (parsed (PreferredHours.start_time ph)))
              (combine (date current_date) (parsed (PreferredHours.end_time ph)))
              d).

(** The order of discovery: by day of the scanned week, then by window as
    the preferences list them, then by hour within the window, then by
    store as the store lookup lists them. *)
Definition discovery_order (calendar : list CalendarEvent.t) (preferences : UserPreferences.t)
    (week_start : datetime) : list (datetime * GroceryStore.t) :=
  let events :=
    get_calendar_events calendar (UserPreferences.user_id preferences)
      week_start (week_start + 7 * us_per_day) in
  flat_map (fun day_offset =>
              let current_date := week_start + day_offset * us_per_day in
              flat_map (window_slots events preferences current_date)
                       (matching_windows preferences current_date))
           [0; 1; 2; 3; 4; 5; 6].

(** Where a suggestion comes from: a day of the scanned week, a window
    that matches the day, a whole number of hours after the window's
    start, a slot that ends within the window and is free of conflict, a
    nearby store. *)
Inductive emitted (uuid4 : nat -> string) (calendar : list CalendarEvent.t)
    (preferences : UserPreferences.t) (week_start : datetime)
  : ScheduleSuggestion.t -> Prop :=
| emitted_intro (day_offset : Z) (ph : PreferredHours.t) (start_time end_time : time)
    (k : Z) (n : nat) (store : GroceryStore.t) :
    let current_date := week_start + day_offset * us_per_day in
    let events :=
      get_calendar_events calendar (UserPreferences.user_id preferences)
        week_start (week_start + 7 * us_per_day) in
    let d := minutes (UserPreferences.shopping_duration_minutes preferences) in
    let t := combine (date current_date) start_time + k * us_per_hour in
    0 <= day_offset <= 6 ->
    In ph (matching_windows preferences current_date) ->
    strptime_HM (PreferredHours.start_time ph) = Done start_time ->
    strptime_HM (PreferredHours.end_time ph) = Done end_time ->
    0 <= k ->
    t + d <= combine (date current_date) end_time ->
    slot_free events t (t + d) = true ->
    In store (find_nearby_stores (UserPreferences.home_address preferences)) ->
    emitted uuid4 calendar preferences week_start
      (suggest uuid4 preferences current_date (lower (strftime_A current_date)) t n store).

(** A fuel that every scan of every window of the preferences stays below. *)
Definition enough_fuel (preferences : UserPreferences.t) : nat :=
  Z.to_nat (27 + Z.max 0 (- UserPreferences.shopping_duration_minutes preferences)).

Definition is_weekend (t : datetime) : bool :=
  (weekday t =? 5) || (weekday t =? 6).

Definition confidence_of (t : datetime) : Q :=
  if is_weekend t then confidence_weekend else confidence_weekday.

(** An event overlaps the half-open interval [[start, stop)]. *)
Definition overlaps (e : CalendarEvent.t) (start stop : datetime) : Prop :=
  CalendarEvent.start_time e < stop /\ start < CalendarEvent.end_time e.

(** ** Sample data

    The week of Monday 2024-01-01 (proleptic ordinal 738886), instants
    of it, and the scenario of the specification: one window 09:00-11:00
    on Saturday, a shopping duration of 60 minutes. *)

Definition monday_2024_01_01 : datetime := 738885 * us_per_day.

Definition instant (week_start : datetime) (day h m : Z) : datetime :=
  week_start + day * us_per_day + h * us_per_hour + m * us_per_minute.

Definition sample_uuid4 (n : nat) : string :=
  String (ascii_of_nat (97 + n)) EmptyString.

Definition sample_preferences (duration : Z) (windows : list PreferredHours.t)
  : UserPreferences.t :=
  UserPreferences.mk "p1" "u1" "1 Home St" ["1"; "2"] duration windows
    monday_2024_01_01 monday_2024_01_01.

Definition saturday_morning : PreferredHours.t :=
  PreferredHours.mk "09:00" "11:00" [SATURDAY].

Definition sample_event (start_time end_time : datetime) : CalendarEvent.t :=
  CalendarEvent.mk "e1" "Haircut" start_time end_time None.

(** 09:30-10:00 and 09:30-09:59 on the Saturday of a week. *)
Definition event_until_10 (week_start : datetime) : CalendarEvent.t :=
  sample_event (instant week_start 5 9 30) (instant week_start 5 10 0).

Definition event_until_0959 (week_start : datetime) : CalendarEvent.t :=
  sample_event (instant week_start 5 9 30) (instant week_start 5 9 59).

Definition result_of {A : Type} (o : outcome (list A)) : list A :=
  match o with
  | Done l => l
  | _ => []
  end.

(** The number [weekday()] gives the day a member of [DayOfWeek] names. *)
Definition weekday_of (d : DayOfWeek) : Z :=
  match d with
  | MONDAY => 0
  | TUESDAY => 1
  | WEDNESDAY => 2
  | THURSDAY => 3
  | FRIDAY => 4
  | SATURDAY => 5
  | SUNDAY => 6
  end.

(** Both times of a window are readable. *)
Definition readable (ph : PreferredHours.t) : Prop :=
  (exists t, strptime_HM (PreferredHours.start_time ph) = Done t)
  /\ (exists t, strptime_HM (PreferredHours.end_time ph) = Done t).

(** What [month_day] has to give for the [r]-th day, from 0, of a year. *)
Definition month_day_ok (leap : bool) (r : Z) : bool :=
  let (m, d) := month_day leap r in
  (1 <=? m) && (m <=? 12) && (1 <=? d)
  && (d <=? (if (m =? 2) && leap then 29 else nth (Z.to_nat (m - 1)) DAYS_IN_MONTH 0))
  && (nth (Z.to_nat (m - 1)) DAYS_BEFORE_MONTH 0
      + (if (2 <? m) && leap then 1 else 0) + d =? r + 1).

(** A schedule as [parse_from_mongo] gives it back: [week_start], whose
    key ends in neither [_at] nor [_time], is still the text stored. *)
Definition WeeklySchedule_reloaded (w : WeeklySchedule.t) : dict :=
  dict_of_items
    [ ("id", VStr (WeeklySchedule.id w));
      ("user_id", VStr (WeeklySchedule.user_id w));
      ("week_start", VStr (isoformat (WeeklySchedule.week_start w)));
      ("suggestions",
       VList (map (fun s => VDict (ScheduleSuggestion_dict s)) (WeeklySchedule.suggestions w)));
      ("approved_suggestion_id", VOptional VStr (WeeklySchedule.approved_suggestion_id w));
      ("status", VStr (WeeklySchedule.status w));
      ("created_at", VDatetime (WeeklySchedule.created_at w)) ].

Definition sample_schedule (approved : option string) (status : string) : WeeklySchedule.t :=
  WeeklySchedule.mk "w1" "u1" monday_2024_01_01
    (result_of (generate_schedule_suggestions sample_uuid4 30 []
                  (sample_preferences 60 [saturday_morning]) monday_2024_01_01))
    approved status (instant monday_2024_01_01 2 8 15 + 250000).

(** A list in descending order of a key. *)
Definition descending {A : Type} (key : A -> Q) (l : list A) : Prop :=
  StronglySorted (fun a b => (key b <= key a)%Q) l.

(** The exceptions of the date arithmetic and of [strptime]. *)
Definition value_or_overflow (e : exn) : Prop := e = ValueError \/ e = OverflowError.

Ltac zlia := unfold datetime, timedelta in *; lia.

(** ** Vocabulary of the further properties *)

(** A suggestion with the confidence of a weekend. *)
Definition of_weekend (s : ScheduleSuggestion.t) : bool :=
  Qeq_bool (ScheduleSuggestion.confidence_score s) confidence_weekend.

(** The closed intervals of a slot and of an event have an instant in
    common. *)
Definition intersects (slot_start slot_end_time : datetime) (e : CalendarEvent.t) : Prop :=
  CalendarEvent.start_time e <= slot_end_time /\ slot_start <= CalendarEvent.end_time e.

(** A window names the weekday of a date. *)
Definition names_day (ph : PreferredHours.t) (current_date : datetime) : Prop :=
  exists day, In day (PreferredHours.days ph) /\ weekday current_date = weekday_of day.

(** ** The week of the routes

    [generate_weekly_schedule] and [get_weekly_schedule] compute the start
    of the current week from [today = datetime.now()]: back by
    [today.weekday()] days, then at 00:00:00. *)
Definition current_week_start (today : datetime) : outcome datetime :=
  let days_since_monday := weekday today in
  d <- timedelta_days days_since_monday ;;
  week_start <- datetime_add today (- d) ;;
  Done (date week_start * us_per_day).

(** ** The other stored models *)

Module GroceryItem.
Record t : Type := mk {
  id : string;
  name : string;
  quantity : option string;
  category : option string;
  completed : bool
}.
End GroceryItem.

Module GroceryList.
Record t : Type := mk {
  id : string;
  user_id : string;
  items : list GroceryItem.t;
  created_at : datetime;
  updated_at : datetime
}.
End GroceryList.

Definition GroceryItem_dict (i : GroceryItem.t) : dict :=
  dict_of_items
    [ ("id", VStr (GroceryItem.id i));
      ("name", VStr (GroceryItem.name i));
      ("quantity", VOptional VStr (GroceryItem.quantity i));
      ("category", VOptional VStr (GroceryItem.category i));
      ("completed", VBool (GroceryItem.completed i)) ].

Definition GroceryList_dict (g : GroceryList.t) : dict :=
  dict_of_items
    [ ("id", VStr (GroceryList.id g));
      ("user_id", VStr (GroceryList.user_id g));
      ("items", VList (map (fun i => VDict (GroceryItem_dict i)) (GroceryList.items g)));
      ("created_at", VDatetime (GroceryList.created_at g));
      ("updated_at", VDatetime (GroceryList.updated_at g)) ].

(** A member of [DayOfWeek] is a [str]; in a dictionary it is its value. *)
Definition PreferredHours_dict (ph : PreferredHours.t) : dict :=
  dict_of_items
    [ ("start_time", VStr (PreferredHours.start_time ph));
      ("end_time", VStr (PreferredHours.end_time ph));
      ("days", VList (map (fun d => VStr (DayOfWeek_.value d)) (PreferredHours.days ph))) ].

Definition UserPreferences_dict (p : UserPreferences.t) : dict :=
  dict_of_items
    [ ("id", VStr (UserPreferences.id p));
      ("user_id", VStr (UserPreferences.user_id p));
      ("home_address", VStr (UserPreferences.home_address p));
      ("preferred_stores", VList (map VStr (UserPreferences.preferred_stores p)));
      ("shopping_duration_minutes", VInt (UserPreferences.shopping_duration_minutes p));
      ("preferred_hours",
       VList (map (fun ph => VDict (PreferredHours_dict ph))
                  (UserPreferences.preferred_hours p)));
      ("created_at", VDatetime (UserPreferences.created_at p));
      ("updated_at", VDatetime (UserPreferences.updated_at p)) ].

Fixpoint dict_keys (d : dict) : list string :=
  match d with
  | DNil => []
  | DCons key _ rest => key :: dict_keys rest
  end.

(** A datetime where [prepare_for_mongo] looks for one: at the top level
    of the dictionary, or of a dictionary that is an item of one of its
    lists. *)
Fixpoint has_datetime (data : dict) : bool :=
  match data with
  | DNil => false
  | DCons _ v rest =>
      match v with
      | VDatetime _ => true
      | VList l =>
          existsb (fun item =>
                     match item with
                     | VDict d => has_datetime d
                     | _ => false
                     end) l
      | _ => false
      end
      || has_datetime rest
  end.

(** The fields of a schedule that an approval leaves alone. *)
Definition schedule_content (doc : WeeklySchedule.t)
  : string * string * datetime * list ScheduleSuggestion.t * datetime :=
  (WeeklySchedule.id doc, WeeklySchedule.user_id doc, WeeklySchedule.week_start doc,
   WeeklySchedule.suggestions doc, WeeklySchedule.created_at doc).

Definition sample_item : GroceryItem.t :=
  GroceryItem.mk "i1" "Oat milk" (Some "2 l") None false.

Definition sample_grocery_list : GroceryList.t :=
  GroceryList.mk "g1" "u1" [sample_item; GroceryItem.mk "i2" "Rye bread" None (Some "bakery") true]
    (instant monday_2024_01_01 0 7 30) (instant monday_2024_01_01 3 18 5 + 999999).

(** ** The collections

    A collection is the list of its documents in their natural order, a
    document the dictionary that was inserted (the [_id] that Mongo adds
    to it is read by no route and is left out).  A query of the routes
    asks for fields equal to texts: a field matches when it is that text,
    or a list that holds it. *)

Definition field_equals (key s : string) (doc : dict) : bool :=
  match dict_get key doc with
  | Some (VStr x) => String.eqb x s
  | Some (VList l) =>
      existsb (fun item => match item with VStr x => String.eqb x s | _ => false end) l
  | _ => false
  end.

Definition matches (query : list (string * string)) (doc : dict) : bool :=
  forallb (fun '(key, s) => field_equals key s doc) query.

Definition find_one (query : list (string * string)) (collection : list dict) : option dict :=
  find (matches query) collection.

Definition insert_one (doc : dict) (collection : list dict) : list dict :=
  collection ++ [doc].

Definition delete_many (query : list (string * string)) (collection : list dict) : list dict :=
  filter (fun doc => negb (matches query doc)) collection.

(** [d[key] = v] *)
Fixpoint dict_set (key : string) (v : value) (d : dict) : dict :=
  match d with
  | DNil => DCons key v DNil
  | DCons k x rest =>
      if String.eqb k key then DCons k v rest else DCons k x (dict_set key v rest)
  end.

(** [{"$set": fields}] on a document. *)
Fixpoint set_fields (fields : dict) (doc : dict) : dict :=
  match fields with
  | DNil => doc
  | DCons key v rest => set_fields rest (dict_set key v doc)
  end.

(** [update_one(query, {"$set": fields})]: the first document that matches. *)
Fixpoint update_one_set (query : list (string * string)) (fields : dict)
    (collection : list dict) : list dict :=
  match collection with
  | [] => []
  | doc :: rest =>
      if matches query doc then set_fields fields doc :: rest
      else doc :: update_one_set query fields rest
  end.

(** ** The routes

    The state of a route is the collections it reads and writes; the
    clock and the UUIDs it draws are arguments.  Building a model from
    the keywords of a dictionary, as the routes build [UserPreferences],
    [GroceryList] and [WeeklySchedule] from a document, is pydantic's: the three constructors are variables, and a statement
    that needs one to give back the model a dictionary was made from says
    so. *)

Module Db.
Record t : Type := mk {
  preferences : list dict;
  grocery_lists : list dict;
  weekly_schedules : list dict
}.
End Db.

Section Routes.

Variable UserPreferences_from : dict -> outcome UserPreferences.t.
Variable GroceryList_from : dict -> outcome GroceryList.t.
Variable WeeklySchedule_from : dict -> outcome WeeklySchedule.t.

Definition create_preferences (now : datetime) (preferences : UserPreferences.t) (db : Db.t)
  : UserPreferences.t * Db.t :=
  let query := [("user_id", UserPreferences.user_id preferences)] in
  let existing := find_one query (Db.preferences db) in
  let preferences_dict := prepare_for_mongo (UserPreferences_dict preferences) in
  match existing with
  | Some _ =>
      let preferences_dict := dict_set "updated_at" (VStr (isoformat now)) preferences_dict in
      (preferences,
       Db.mk (update_one_set query preferences_dict (Db.preferences db))
             (Db.grocery_lists db) (Db.weekly_schedules db))
  | None =>
      (preferences,
       Db.mk (insert_one preferences_dict (Db.preferences db))
             (Db.grocery_lists db) (Db.weekly_schedules db))
  end.

Definition get_preferences (user_id : string) (db : Db.t) : outcome UserPreferences.t :=
  match find_one [("user_id", user_id)] (Db.preferences db) with
  | None => Raised (HTTPException 404 "Preferences not found")
  | Some preferences => UserPreferences_from (parse_from_mongo preferences)
  end.

Definition create_grocery_list (now : datetime) (grocery_list : GroceryList.t) (db : Db.t)
  : GroceryList.t * Db.t :=
  let query := [("user_id", GroceryList.user_id grocery_list)] in
  let existing := find_one query (Db.grocery_lists db) in
  let list_dict := prepare_for_mongo (GroceryList_dict grocery_list) in
  match existing with
  | Some _ =>
      let list_dict := dict_set "updated_at" (VStr (isoformat now)) list_dict in
      (grocery_list,
       Db.mk (Db.preferences db)
             (update_one_set query list_dict (Db.grocery_lists db))
             (Db.weekly_schedules db))
  | None =>
      (grocery_list,
       Db.mk (Db.preferences db)
             (insert_one list_dict (Db.grocery_lists db))
             (Db.weekly_schedules db))
  end.

(** [fresh_id], [created_at] and [updated_at] are what the defaults of
    [GroceryList] draw when the empty list is built. *)
Definition get_grocery_list (fresh_id : string) (created_at updated_at : datetime)
    (user_id : string) (db : Db.t) : outcome GroceryList.t :=
  match find_one [("user_id", user_id)] (Db.grocery_lists db) with
  | None => Done (GroceryList.mk fresh_id user_id [] created_at updated_at)
  | Some grocery_list => GroceryList_from (parse_from_mongo grocery_list)
  end.

(** The answer of [generate_weekly_schedule]. *)
Record Generated : Type := mk_Generated {
  message : string;
  suggestions_count : Z
}.

(** [today] is the clock when the week is computed; [schedule_id] and
    [created_at] are what the defaults of [WeeklySchedule] draw. *)
Definition generate_weekly_schedule (uuid4 : nat -> string) (fuel : nat)
    (calendar : list CalendarEvent.t) (today : datetime)
    (schedule_id : string) (created_at : datetime) (user_id : string) (db : Db.t)
  : outcome Generated * Db.t :=
  match find_one [("user_id", user_id)] (Db.preferences db) with
  | None => (Raised (HTTPException 404 "User preferences not found"), db)
  | Some preferences =>
      let run :=
        user_prefs <- UserPreferences_from (parse_from_mongo preferences) ;;
        week_start <- current_week_start today ;;
        suggestions <- generate_schedule_suggestions uuid4 fuel calendar user_prefs week_start ;;
        Done (week_start, suggestions) in
      match run with
      | Done (week_start, suggestions) =>
          let schedule :=
            WeeklySchedule.mk schedule_id user_id week_start suggestions None "pending"
              created_at in
          let schedule_dict := prepare_for_mongo (WeeklySchedule_dict schedule) in
          let remaining :=
            delete_many [("user_id", user_id); ("week_start", isoformat week_start)]
              (Db.weekly_schedules db) in
          (Done (mk_Generated "Schedule generated successfully"
                   (Z.of_nat (List.length suggestions))),
           Db.mk (Db.preferences db) (Db.grocery_lists db) (insert_one schedule_dict remaining))
      | Raised e => (Raised e, db)
      | OutOfFuel => (OutOfFuel, db)
      end
  end.

Definition get_weekly_schedule (today : datetime) (user_id : string) (db : Db.t)
  : outcome WeeklySchedule.t :=
  week_start <- current_week_start today ;;
  match find_one [("user_id", user_id); ("week_start", isoformat week_start)]
                 (Db.weekly_schedules db) with
  | None => Raised (HTTPException 404 "No schedule found for current week")
  | Some schedule => WeeklySchedule_from (parse_from_mongo schedule)
  end.

End Routes.

(** [get_grocery_stores] *)
Definition get_grocery_stores : list GroceryStore.t := MOCK_GROCERY_STORES.

(** The documents of a user in a collection. *)
Definition of_user (user_id : string) (collection : list dict) : list dict :=
  filter (matches [("user_id", user_id)]) collection.

Definition of_others (user_id : string) (collection : list dict) : list dict :=
  filter (fun doc => negb (matches [("user_id", user_id)] doc)) collection.

(** Preferences and grocery lists as they are after an update at [now]. *)
Definition updated_preferences (now : datetime) (p : UserPreferences.t) : UserPreferences.t :=
  UserPreferences.mk (UserPreferences.id p) (UserPreferences.user_id p)
    (UserPreferences.home_address p) (UserPreferences.preferred_stores p)
    (UserPreferences.shopping_duration_minutes p) (UserPreferences.preferred_hours p)
    (UserPreferences.created_at p) now.

Definition updated_grocery_list (now : datetime) (g : GroceryList.t) : GroceryList.t :=
  GroceryList.mk (GroceryList.id g) (GroceryList.user_id g) (GroceryList.items g)
    (GroceryList.created_at g) now.

(** *** Stand-ins for pydantic's constructors

    They read a dictionary that has every field of the model with a value
    of the field's type, a datetime being also read from its ISO text; for
    anything else they raise, where pydantic may convert or use a default.
    They are what the examples put in the place of the three variables
    of the routes. *)

Definition field_str (key : string) (d : dict) : outcome string :=
  match dict_get key d with
  | Some (VStr s) => Done s
  | _ => Raised ValueError
  end.

Definition field_int (key : string) (d : dict) : outcome Z :=
  match dict_get key d with
  | Some (VInt n) => Done n
  | _ => Raised ValueError
  end.

Definition field_float (key : string) (d : dict) : outcome Q :=
  match dict_get key d with
  | Some (VFloat x) => Done x
  | _ => Raised ValueError
  end.

Definition field_bool (key : string) (d : dict) : outcome bool :=
  match dict_get key d with
  | Some (VBool b) => Done b
  | _ => Raised ValueError
  end.

Definition field_datetime (key : string) (d : dict) : outcome datetime :=
  match dict_get key d with
  | Some (VDatetime t) => Done t
  | Some (VStr s) =>
      match fromisoformat s with
      | Some t => Done t
      | None => Raised ValueError
      end
  | _ => Raised ValueError
  end.

Definition field_optional_str (key : string) (d : dict) : outcome (option string) :=
  match dict_get key d with
  | Some (VStr s) => Done (Some s)
  | Some VNone => Done None
  | _ => Raised ValueError
  end.

Definition field_optional_float (key : string) (d : dict) : outcome (option Q) :=
  match dict_get key d with
  | Some (VFloat x) => Done (Some x)
  | Some VNone => Done None
  | _ => Raised ValueError
  end.

Definition field_dict (key : string) (d : dict) : outcome dict :=
  match dict_get key d with
  | Some (VDict x) => Done x
  | _ => Raised ValueError
  end.

(** A list field, each item read by [item]. *)
Fixpoint items_from {A : Type} (item : value -> outcome A) (l : list value)
  : outcome (list A) :=
  match l with
  | [] => Done []
  | v :: l' => a <- item v ;; rest <- items_from item l' ;; Done (a :: rest)
  end.

Definition field_list {A : Type} (item : value -> outcome A) (key : string) (d : dict)
  : outcome (list A) :=
  match dict_get key d with
  | Some (VList l) => items_from item l
  | _ => Raised ValueError
  end.

Definition str_from (v : value) : outcome string :=
  match v with
  | VStr s => Done s
  | _ => Raised ValueError
  end.

Definition dict_from {A : Type} (from : dict -> outcome A) (v : value) : outcome A :=
  match v with
  | VDict d => from d
  | _ => Raised ValueError
  end.

Definition DayOfWeek_from (v : value) : outcome DayOfWeek :=
  match v with
  | VStr s =>
      match find (fun d => String.eqb (DayOfWeek_.value d) s)
                 [MONDAY; TUESDAY; WEDNESDAY; THURSDAY; FRIDAY; SATURDAY; SUNDAY] with
      | Some d => Done d
      | None => Raised ValueError
      end
  | _ => Raised ValueError
  end.

Definition PreferredHours_of_dict (d : dict) : outcome PreferredHours.t :=
  start_time <- field_str "start_time" d ;;
  end_time <- field_str "end_time" d ;;
  days <- field_list DayOfWeek_from "days" d ;;
  Done (PreferredHours.mk start_time end_time days).

Definition UserPreferences_of_dict (d : dict) : outcome UserPreferences.t :=
  id <- field_str "id" d ;;
  user_id <- field_str "user_id" d ;;
  home_address <- field_str "home_address" d ;;
  preferred_stores <- field_list str_from "preferred_stores" d ;;
  shopping_duration_minutes <- field_int "shopping_duration_minutes" d ;;
  preferred_hours <- field_list (dict_from PreferredHours_of_dict) "preferred_hours" d ;;
  created_at <- field_datetime "created_at" d ;;
  updated_at <- field_datetime "updated_at" d ;;
  Done (UserPreferences.mk id user_id home_address preferred_stores shopping_duration_minutes
          preferred_hours created_at updated_at).

Definition GroceryItem_of_dict (d : dict) : outcome GroceryItem.t :=
  id <- field_str "id" d ;;
  name <- field_str "name" d ;;
  quantity <- field_optional_str "quantity" d ;;
  category <- field_optional_str "category" d ;;
  completed <- field_bool "completed" d ;;
  Done (GroceryItem.mk id name quantity category completed).

Definition GroceryList_of_dict (d : dict) : outcome GroceryList.t :=
  id <- field_str "id" d ;;
  user_id <- field_str "user_id" d ;;
  items <- field_list (dict_from GroceryItem_of_dict) "items" d ;;
  created_at <- field_datetime "created_at" d ;;
  updated_at <- field_datetime "updated_at" d ;;
  Done (GroceryList.mk id user_id items created_at updated_at).

Definition GroceryStore_of_dict (d : dict) : outcome GroceryStore.t :=
  id <- field_str "id" d ;;
  name <- field_str "name" d ;;
  address <- field_str "address" d ;;
  lat <- field_float "lat" d ;;
  lng <- field_float "lng" d ;;
  distance_km <- field_optional_float "distance_km" d ;;
  Done (GroceryStore.mk id name address lat lng distance_km).

Definition ScheduleSuggestion_of_dict (d : dict) : outcome ScheduleSuggestion.t :=
  id <- field_str "id" d ;;
  suggested_time <- field_datetime "suggested_time" d ;;
  duration_minutes <- field_int "duration_minutes" d ;;
  store_dict <- field_dict "store" d ;;
  store <- GroceryStore_of_dict store_dict ;;
  reason <- field_str "reason" d ;;
  travel_time_minutes <- field_int "travel_time_minutes" d ;;
  confidence_score <- field_float "confidence_score" d ;;
  Done (ScheduleSuggestion.mk id suggested_time duration_minutes store reason
          travel_time_minutes confidence_score).

Definition WeeklySchedule_of_dict (d : dict) : outcome WeeklySchedule.t :=
  id <- field_str "id" d ;;
  user_id <- field_str "user_id" d ;;
  week_start <- field_datetime "week_start" d ;;
  suggestions <- field_list (dict_from ScheduleSuggestion_of_dict) "suggestions" d ;;
  approved_suggestion_id <- field_optional_str "approved_suggestion_id" d ;;
  status <- field_str "status" d ;;
  created_at <- field_datetime "created_at" d ;;
  Done (WeeklySchedule.mk id user_id week_start suggestions approved_suggestion_id status
          created_at).

Definition sample_db : Db.t := Db.mk [] [] [].

(** ** Vocabulary of the routes' properties *)

(** The fields of the two models that [create_preferences] and
    [create_grocery_list] store, in the order of their classes. *)
Definition UserPreferences_fields : list string :=
  ["id"; "user_id"; "home_address"; "preferred_stores"; "shopping_duration_minutes";
   "preferred_hours"; "created_at"; "updated_at"].

Definition GroceryList_fields : list string :=
  ["id"; "user_id"; "items"; "created_at"; "updated_at"].

(** Every document of a collection has these fields and no other. *)
Definition has_fields (fields : list string) (collection : list dict) : Prop :=
  Forall (fun doc => dict_keys doc = fields) collection.

(** The query of the two schedule routes. *)
Definition schedule_query (user_id : string) (week_start : datetime)
  : list (string * string) :=
  [("user_id", user_id); ("week_start", isoformat week_start)].

(** Neither time of a window reads as an ISO datetime. *)
Definition plain_times (ph : PreferredHours.t) : Prop :=
  fromisoformat (PreferredHours.start_time ph) = None
  /\ fromisoformat (PreferredHours.end_time ph) = None.

(** The schedule that [generate_weekly_schedule] builds. *)
Definition pending_schedule (schedule_id user_id : string) (week_start : datetime)
    (suggestions : list ScheduleSuggestion.t) (created_at : datetime) : WeeklySchedule.t :=
  WeeklySchedule.mk schedule_id user_id week_start suggestions None "pending" created_at.

(** * Properties *)

(** ** Outcomes *)

Lemma bind_Done {A B : Type} (m : outcome A) (k : A -> outcome B) (b : B) :
  bind m k = Done b -> exists a, m = Done a /\ k a = Done b.
Proof.
  destruct m as [a | e |]; simpl; intros H; try discriminate.
  exists a; split; [reflexivity | exact H].
Qed.

Lemma for_each_app {A S : Type} (body : S -> A -> outcome S) (l1 l2 : list A) (s : S) :
  for_each body (l1 ++ l2) s = (s' <- for_each body l1 s ;; for_each body l2 s').
Proof.
  revert s; induction l1 as [| x l1 IH]; intros s; simpl.
  - reflexivity.
  - destruct (body s x) as [s' | e |]; simpl; [apply IH | reflexivity | reflexivity].
Qed.

(** A loop invariant carried through a [for] loop that returns. *)
Lemma for_each_invariant {A S : Type} (body : S -> A -> outcome S) (I : S -> Prop)
    (l : list A) :
  (forall s x s', In x l -> I s -> body s x = Done s' -> I s') ->
  forall s s', I s -> for_each body l s = Done s' -> I s'.
Proof.
  induction l as [| x l IH]; intros Hbody s s' Hs Hrun; simpl in Hrun.
  - injection Hrun as <-. exact Hs.
  - apply bind_Done in Hrun as (s1 & H1 & H2).
    apply (IH (fun s0 y s0' Hy => Hbody s0 y s0' (or_intror Hy)) s1 s').
    + apply (Hbody s x s1); [left; reflexivity | exact Hs | exact H1].
    + exact H2.
Qed.

Lemma in_week (x : Z) : In x [0; 1; 2; 3; 4; 5; 6] -> 0 <= x <= 6.
Proof. simpl. intros H. lia. Qed.

(** ** Time arithmetic *)

Lemma new_timedelta_Done (us : Z) (d : timedelta) :
  new_timedelta us = Done d -> d = us.
Proof.
  unfold new_timedelta. destruct (timedelta_in_range us); intros H; [|discriminate].
  injection H as <-. reflexivity.
Qed.

Lemma timedelta_minutes_Done (n : Z) (d : timedelta) :
  timedelta_minutes n = Done d -> d = minutes n.
Proof. apply new_timedelta_Done. Qed.

Lemma timedelta_hours_1 : timedelta_hours 1 = Done us_per_hour.
Proof. reflexivity. Qed.

Lemma datetime_add_Done (t : datetime) (d : timedelta) (t' : datetime) :
  datetime_add t d = Done t' ->
  t' = t + d /\ 0 <= t' < MAXORDINAL * us_per_day.
Proof.
  unfold datetime_add, datetime_in_range.
  destruct (0 <=? t + d) eqn:H0; destruct (t + d <? MAXORDINAL * us_per_day) eqn:H1;
    simpl; intros H; try discriminate.
  injection H as <-. apply Z.leb_le in H0. apply Z.ltb_lt in H1.
  repeat split; assumption.
Qed.

Lemma datetime_add_in_range (t : datetime) (d : timedelta) :
  0 <= t + d < MAXORDINAL * us_per_day -> datetime_add t d = Done (t + d).
Proof.
  intros [H0 H1]. unfold datetime_add, datetime_in_range.
  apply Z.leb_le in H0. apply Z.ltb_lt in H1. rewrite H0, H1. reflexivity.
Qed.

Lemma timedelta_days_small (n : Z) :
  0 <= n <= 7 -> timedelta_days n = Done (n * us_per_day).
Proof.
  intros Hn. unfold timedelta_days, new_timedelta, timedelta_in_range.
  replace (n * us_per_day / us_per_day) with n
    by (symmetry; apply Z.div_mul; discriminate).
  unfold MAX_DELTA_DAYS.
  destruct (Z.leb_spec (- (999999999)) n); destruct (Z.leb_spec n 999999999);
    try reflexivity; lia.
Qed.

(** ** Times of day *)

Lemma in_range_ascii_spec (lo hi c : ascii) :
  in_range_ascii lo hi c = true ->
  digit_value lo <= digit_value c <= digit_value hi.
Proof.
  unfold in_range_ascii, digit_value. intros H. apply andb_true_iff in H as [H1 H2].
  apply Nat.leb_le in H1. apply Nat.leb_le in H2. lia.
Qed.

Lemma is_digit_spec (c : ascii) : is_digit c = true -> 0 <= digit_value c <= 9.
Proof.
  unfold is_digit, digit_value. intros H. apply andb_true_iff in H as [H1 H2].
  apply Nat.leb_le in H1. apply Nat.leb_le in H2. lia.
Qed.

Lemma match_H_bounds (s : string) (h : Z) (rest : string) :
  match_H s = Some (h, rest) -> 0 <= h <= 23.
Proof.
  unfold match_H. destruct s as [| c1 [| c2 s]].
  - discriminate.
  - destruct (is_digit c1) eqn:D1; intros H; [| discriminate].
    injection H as <- _. apply is_digit_spec in D1. lia.
  - destruct ((Ascii.eqb c1 "2" && in_range_ascii "0" "3" c2)
              || (in_range_ascii "0" "1" c1 && is_digit c2)) eqn:Two.
    + intros H.
      assert (Hh : h = 10 * digit_value c1 + digit_value c2) by congruence.
      clear H. rewrite Hh. clear Hh.
      apply orb_true_iff in Two as [Two | Two]; apply andb_true_iff in Two as [T1 T2].
      * apply Ascii.eqb_eq in T1. subst c1. apply in_range_ascii_spec in T2.
        change (digit_value "0") with 0 in T2. change (digit_value "3") with 3 in T2.
        change (digit_value "2") with 2. lia.
      * apply in_range_ascii_spec in T1. apply is_digit_spec in T2.
        change (digit_value "0") with 0 in T1. change (digit_value "1") with 1 in T1.
        lia.
    + destruct (is_digit c1) eqn:D1; intros H; [| discriminate].
      injection H as <- _. apply is_digit_spec in D1. lia.
Qed.

Lemma match_M_bounds (s : string) (m : Z) (rest : string) :
  match_M s = Some (m, rest) -> 0 <= m <= 59.
Proof.
  unfold match_M. destruct s as [| c1 [| c2 s]].
  - discriminate.
  - destruct (is_digit c1) eqn:D1; intros H; [| discriminate].
    injection H as <- _. apply is_digit_spec in D1. lia.
  - destruct (in_range_ascii "0" "5" c1 && is_digit c2) eqn:Two.
    + intros H.
      assert (Hm : m = 10 * digit_value c1 + digit_value c2) by congruence.
      clear H. rewrite Hm. clear Hm.
      apply andb_true_iff in Two as [T1 T2].
      apply in_range_ascii_spec in T1. apply is_digit_spec in T2.
      change (digit_value "0") with 0 in T1. change (digit_value "5") with 5 in T1.
      lia.
    + destruct (is_digit c1) eqn:D1; intros H; [| discriminate].
      injection H as <- _. apply is_digit_spec in D1. lia.
Qed.

Lemma strptime_HM_bounds (s : string) (t : time) :
  strptime_HM s = Done t -> 0 <= hour t <= 23 /\ 0 <= minute t <= 59.
Proof.
  unfold strptime_HM.
  destruct (match_H s) as [[h [| c rest]] |] eqn:HH; try discriminate.
  destruct (Ascii.eqb c ":"); try discriminate.
  destruct (match_M rest) as [[m [| c' rest']] |] eqn:HM; try discriminate.
  intros H. injection H as <-. simpl.
  split; [exact (match_H_bounds _ _ _ HH) | exact (match_M_bounds _ _ _ HM)].
Qed.

(** The exceptions of [strptime]. *)
Lemma strptime_HM_raises (s : string) (e : exn) :
  strptime_HM s = Raised e -> e = ValueError.
Proof.
  unfold strptime_HM.
  destruct (match_H s) as [[h [| c rest]] |];
    try (intros H; injection H as <-; reflexivity).
  destruct (Ascii.eqb c ":"); try (intros H; injection H as <-; reflexivity).
  destruct (match_M rest) as [[m [| c' rest']] |];
    try (intros H; injection H as <-; reflexivity).
  discriminate.
Qed.

Lemma strptime_HM_fuel (s : string) : strptime_HM s <> OutOfFuel.
Proof.
  unfold strptime_HM.
  destruct (match_H s) as [[h [| c rest]] |]; try discriminate.
  destruct (Ascii.eqb c ":"); try discriminate.
  destruct (match_M rest) as [[m [| c' rest']] |]; discriminate.
Qed.

Lemma parsed_Done (s : string) (t : time) : strptime_HM s = Done t -> parsed s = t.
Proof. unfold parsed. intros ->. reflexivity. Qed.

(** A time of day combined with a day stays within that day. *)
Lemma combine_within_day (d : Z) (t : time) :
  0 <= hour t <= 23 -> 0 <= minute t <= 59 ->
  d * us_per_day <= combine d t < d * us_per_day + us_per_day.
Proof. unfold combine, us_per_day, us_per_hour, us_per_minute. lia. Qed.

Lemma date_lower (t : datetime) : date t * us_per_day <= t < date t * us_per_day + us_per_day.
Proof.
  unfold date. pose proof (Z.div_mod t us_per_day ltac:(discriminate)) as E.
  pose proof (Z.mod_pos_bound t us_per_day ltac:(reflexivity)) as B. zlia.
Qed.

Lemma date_unique (t : datetime) (d : Z) :
  d * us_per_day <= t < d * us_per_day + us_per_day -> date t = d.
Proof.
  intros H. unfold date. symmetry.
  apply (Z.div_unique_pos t us_per_day d (t - d * us_per_day)); unfold us_per_day in *; zlia.
Qed.

(** ** One slot *)

Lemma filter_nil_forallb {A : Type} (f : A -> bool) (l : list A) :
  filter f l = [] <-> forallb (fun x => negb (f x)) l = true.
Proof.
  induction l as [| x l IH]; simpl.
  - split; reflexivity.
  - destruct (f x); simpl; [split; discriminate | exact IH].
Qed.

Lemma slot_free_spec (events : list CalendarEvent.t) (t t' : datetime) :
  slot_free events t t' = true <->
  forall e, In e events -> conflict t t' e = false.
Proof.
  unfold slot_free. rewrite forallb_forall. split; intros H e He.
  - apply negb_true_iff. apply H. exact He.
  - apply negb_true_iff. apply H. exact He.
Qed.

(** What the loop over the stores appends. *)
Lemma append_each {A B : Type} (f : nat -> B -> A) (stores : list B) (acc : list A) :
  exists l,
    fold_left (fun acc store => acc ++ [f (List.length acc) store]) stores acc = acc ++ l
    /\ Forall2 (fun s store => exists n, s = f n store) l stores.
Proof.
  revert acc. induction stores as [| x stores IH]; intros acc; simpl.
  - exists []. split; [symmetry; apply app_nil_r | constructor].
  - destruct (IH (acc ++ [f (List.length acc) x])) as (l & E & F).
    exists (f (List.length acc) x :: l). split.
    + rewrite E, <- app_assoc. reflexivity.
    + constructor; [eexists; reflexivity | exact F].
Qed.

Lemma Forall2_each {A B : Type} (f : nat -> B -> A) (P : A -> Prop)
    (l : list A) (stores : list B) :
  Forall2 (fun s store => exists n, s = f n store) l stores ->
  (forall n store, In store stores -> P (f n store)) ->
  Forall P l.
Proof.
  induction 1 as [| s store l ss [n ->] _ IH]; intros Hnew; constructor.
  - apply Hnew. left; reflexivity.
  - apply IH. intros n' st Hst. apply Hnew. right; exact Hst.
Qed.

Section OneSlot.

Variable uuid4 : nat -> string.
Variable preferences : UserPreferences.t.
Variable events : list CalendarEvent.t.
Variables (current_date : datetime) (day_name : string).

Let stores := find_nearby_stores (UserPreferences.home_address preferences).
Let turn := slot_turn uuid4 preferences events current_date day_name.

Lemma slot_turn_conflict (t t' : datetime) (acc : list ScheduleSuggestion.t) :
  slot_free events t t' = false -> turn t t' acc = acc.
Proof.
  intros H. unfold turn, slot_turn.
  destruct (filter (conflict t t') events) eqn:E; [| reflexivity].
  apply filter_nil_forallb in E. unfold slot_free in H. congruence.
Qed.

Lemma slot_turn_free (t t' : datetime) (acc : list ScheduleSuggestion.t) :
  slot_free events t t' = true ->
  exists l,
    turn t t' acc = acc ++ l
    /\ Forall2 (fun s store => exists n, s = suggest uuid4 preferences current_date day_name t n store)
               l stores.
Proof.
  intros H. unfold turn, slot_turn.
  destruct (filter (conflict t t') events) eqn:E.
  - apply append_each.
  - apply filter_nil_forallb in H. congruence.
Qed.

Lemma Forall2_suggest_slots (t : datetime) (l : list ScheduleSuggestion.t)
    (ss : list GroceryStore.t) :
  Forall2 (fun s store => exists n, s = suggest uuid4 preferences current_date day_name t n store)
          l ss ->
  map slot_of l = map (pair t) ss.
Proof.
  induction 1 as [| s store l ss [n ->] _ IH]; simpl; [reflexivity |].
  rewrite IH. reflexivity.
Qed.

Lemma slot_turn_slots (t t' : datetime) (acc : list ScheduleSuggestion.t) :
  map slot_of (turn t t' acc)
  = map slot_of acc ++ (if slot_free events t t' then map (pair t) stores else []).
Proof.
  destruct (slot_free events t t') eqn:F.
  - destruct (slot_turn_free t t' acc F) as (l & -> & F2).
    rewrite map_app. f_equal. apply Forall2_suggest_slots. exact F2.
  - rewrite slot_turn_conflict by exact F. symmetry. apply app_nil_r.
Qed.

(** Any property of the suggestions a free slot yields is kept by a turn. *)
Lemma slot_turn_Forall (P : ScheduleSuggestion.t -> Prop) (t t' : datetime)
    (acc : list ScheduleSuggestion.t) :
  (slot_free events t t' = true ->
   forall n store, In store stores ->
     P (suggest uuid4 preferences current_date day_name t n store)) ->
  Forall P acc -> Forall P (turn t t' acc).
Proof.
  intros Hnew Hacc. destruct (slot_free events t t') eqn:F.
  - destruct (slot_turn_free t t' acc F) as (l & -> & F2).
    apply Forall_app. split; [exact Hacc |].
    exact (Forall2_each _ P l stores F2 (Hnew eq_refl)).
  - rewrite slot_turn_conflict by exact F. exact Hacc.
Qed.

End OneSlot.

(** ** The candidates of a window *)

Lemma window_candidates_nil (start stop : datetime) (d : timedelta) :
  stop < start + d -> window_candidates start stop d = [].
Proof.
  intros H. unfold window_candidates.
  assert (E : (stop - start - d) / us_per_hour + 1 <= 0).
  { assert ((stop - start - d) / us_per_hour < 0); [| lia].
    apply Z.div_lt_upper_bound; unfold us_per_hour; zlia. }
  destruct ((stop - start - d) / us_per_hour + 1); try lia; reflexivity.
Qed.

Lemma window_candidates_cons (start stop : datetime) (d : timedelta) :
  start + d <= stop ->
  window_candidates start stop d = start :: window_candidates (start + us_per_hour) stop d.
Proof.
  intros H. unfold window_candidates.
  assert (E : (stop - start - d) / us_per_hour
              = (stop - (start + us_per_hour) - d) / us_per_hour + 1).
  { replace (stop - start - d) with ((stop - (start + us_per_hour) - d) + 1 * us_per_hour)
      by zlia.
    rewrite Z.div_add by discriminate. reflexivity. }
  assert (N : 0 <= (stop - start - d) / us_per_hour).
  { apply Z.div_pos; unfold us_per_hour; zlia. }
  rewrite E in *. rewrite Z2Nat.inj_add by lia.
  change (Z.to_nat 1) with 1%nat. rewrite Nat.add_1_r. simpl seq. simpl map.
  rewrite Z.add_0_r. apply (f_equal (cons start)).
  rewrite <- seq_shift, map_map. apply map_ext. intros k. zlia.
Qed.

Lemma In_window_candidates (start stop : datetime) (d : timedelta) (t : datetime) :
  In t (window_candidates start stop d) <->
  exists k, 0 <= k /\ t = start + k * us_per_hour /\ t + d <= stop.
Proof.
  unfold window_candidates. rewrite in_map_iff. split.
  - intros (k & <- & Hk). apply in_seq in Hk. exists (Z.of_nat k).
    split; [lia |]. split; [reflexivity |].
    assert (Z.of_nat k < (stop - start - d) / us_per_hour + 1) by lia.
    assert (Z.of_nat k * us_per_hour <= stop - start - d); [| zlia].
    assert (Z.of_nat k <= (stop - start - d) / us_per_hour) by lia.
    pose proof (Z.mul_div_le (stop - start - d) us_per_hour ltac:(reflexivity)).
    unfold us_per_hour in *. zlia.
  - intros (k & Hk & -> & Hle). exists (Z.to_nat k). split.
    + rewrite Z2Nat.id by exact Hk. reflexivity.
    + apply in_seq. split; [lia |]. simpl.
      assert (k <= (stop - start - d) / us_per_hour).
      { apply Z.div_le_lower_bound; unfold us_per_hour in *; zlia. }
      lia.
Qed.

(** ** The scan of one window *)

Section Scan.

Variable uuid4 : nat -> string.
Variable preferences : UserPreferences.t.
Variable events : list CalendarEvent.t.
Variables (current_date : datetime) (day_name : string) (slot_end : datetime).

Let d := minutes (UserPreferences.shopping_duration_minutes preferences).
Let turn := slot_turn uuid4 preferences events current_date day_name.
Let loop (fuel : nat) := slot_loop uuid4 preferences fuel events current_date day_name slot_end.

(** One unfolding of the loop, with the arithmetic that cannot raise
    put aside. *)
Lemma slot_loop_step (fuel : nat) (cur : datetime) (acc : list ScheduleSuggestion.t) :
  loop (S fuel) cur acc =
  (d0 <- timedelta_minutes (UserPreferences.shopping_duration_minutes preferences) ;;
   slot_end_time <- datetime_add cur d0 ;;
   if slot_end_time <=? slot_end then
     cur' <- datetime_add cur us_per_hour ;;
     loop fuel cur' (turn cur slot_end_time acc)
   else Done acc).
Proof. reflexivity. Qed.

(** A scan that returns has taken one turn per candidate, in order. *)
Lemma slot_loop_Done (fuel : nat) :
  forall (cur : datetime) (acc l : list ScheduleSuggestion.t),
    loop fuel cur acc = Done l ->
    l = fold_left (fun acc t => turn t (t + d) acc) (window_candidates cur slot_end d) acc.
Proof.
  induction fuel as [| fuel IH]; intros cur acc l H; [discriminate |].
  rewrite slot_loop_step in H.
  apply bind_Done in H as (d0 & Hd & H). apply timedelta_minutes_Done in Hd.
  apply bind_Done in H as (t' & Ht & H). apply datetime_add_Done in Ht as [Ht _].
  subst d0 t'. fold d in H.
  destruct (Z.leb_spec (cur + d) slot_end) as [Hle | Hgt].
  - apply bind_Done in H as (cur' & Hc & H). apply datetime_add_Done in Hc as [-> _].
    rewrite window_candidates_cons by exact Hle. simpl. apply IH. exact H.
  - injection H as <-. rewrite window_candidates_nil by exact Hgt. reflexivity.
Qed.

(** The scan raises nothing but [OverflowError]. *)
Lemma slot_loop_raises (fuel : nat) :
  forall (cur : datetime) (acc : list ScheduleSuggestion.t) (e : exn),
    loop fuel cur acc = Raised e -> e = OverflowError.
Proof.
  induction fuel as [| fuel IH]; intros cur acc e H; [discriminate |].
  rewrite slot_loop_step in H.
  unfold timedelta_minutes, new_timedelta in H.
  destruct (timedelta_in_range _); simpl in H; [| congruence].
  unfold datetime_add at 1 in H.
  destruct (datetime_in_range _); simpl in H; [| congruence].
  destruct (_ <=? slot_end); [| discriminate].
  unfold datetime_add in H.
  destruct (datetime_in_range _); simpl in H; [| congruence].
  exact (IH _ _ _ H).
Qed.

(** Every turn moves [current_time] one hour on, whatever the duration
    and whatever the calendar: a fuel above the number of candidates is
    never used up, and the result does not depend on it. *)
Lemma slot_loop_enough (fuel1 : nat) :
  forall (fuel2 : nat) (cur : datetime) (acc : list ScheduleSuggestion.t),
    (List.length (window_candidates cur slot_end d) < fuel1)%nat ->
    (List.length (window_candidates cur slot_end d) < fuel2)%nat ->
    loop fuel1 cur acc = loop fuel2 cur acc /\ loop fuel1 cur acc <> OutOfFuel.
Proof.
  induction fuel1 as [| fuel1 IH]; intros fuel2 cur acc H1 H2; [lia |].
  destruct fuel2 as [| fuel2]; [lia |].
  rewrite !slot_loop_step.
  unfold timedelta_minutes, new_timedelta.
  destruct (timedelta_in_range _); simpl; [| split; [reflexivity | discriminate]].
  unfold datetime_add at 1 3 5.
  destruct (datetime_in_range _); simpl; [| split; [reflexivity | discriminate]].
  fold (minutes (UserPreferences.shopping_duration_minutes preferences)). fold d.
  destruct (Z.leb_spec (cur + d) slot_end) as [Hle | Hgt];
    [| split; [reflexivity | discriminate]].
  unfold datetime_add.
  destruct (datetime_in_range _); simpl; [| split; [reflexivity | discriminate]].
  rewrite window_candidates_cons in H1, H2 by exact Hle. simpl in H1, H2.
  apply IH; lia.
Qed.

End Scan.

(** ** Windows, days, the week *)

Section Week.

Variable uuid4 : nat -> string.
Variable calendar : list CalendarEvent.t.
Variable preferences : UserPreferences.t.

Let d := minutes (UserPreferences.shopping_duration_minutes preferences).
Let stores := find_nearby_stores (UserPreferences.home_address preferences).

Lemma fold_turn_slots (events : list CalendarEvent.t) (cd : datetime) (dn : string)
    (cands : list datetime) :
  forall acc,
    map slot_of (fold_left (fun acc t => slot_turn uuid4 preferences events cd dn t (t + d) acc)
                           cands acc)
    = map slot_of acc
      ++ flat_map (fun t => if slot_free events t (t + d) then map (pair t) stores else [])
                  cands.
Proof.
  induction cands as [| t cands IH]; intros acc; simpl.
  - symmetry. apply app_nil_r.
  - rewrite IH, slot_turn_slots, <- app_assoc. reflexivity.
Qed.

Lemma fold_turn_Forall (P : ScheduleSuggestion.t -> Prop) (events : list CalendarEvent.t)
    (cd : datetime) (dn : string) (cands : list datetime) :
  (forall t n store,
      In t cands -> slot_free events t (t + d) = true -> In store stores ->
      P (suggest uuid4 preferences cd dn t n store)) ->
  forall acc,
    Forall P acc ->
    Forall P (fold_left (fun acc t => slot_turn uuid4 preferences events cd dn t (t + d) acc)
                        cands acc).
Proof.
  induction cands as [| t cands IH]; intros Hnew acc Hacc; simpl; [exact Hacc |].
  apply IH.
  - intros t' n store Ht'. apply Hnew. right; exact Ht'.
  - apply slot_turn_Forall; [| exact Hacc].
    intros F n store Hs. apply Hnew; [left; reflexivity | exact F | exact Hs].
Qed.

(** A window that is scanned to the end had two readable times, and the
    scan took one turn per candidate between them. *)
Lemma window_body_Done (fuel : nat) (events : list CalendarEvent.t) (cd : datetime)
    (dn : string) (acc : list ScheduleSuggestion.t) (ph : PreferredHours.t)
    (l : list ScheduleSuggestion.t) :
  window_body uuid4 preferences fuel events cd dn acc ph = Done l ->
  exists start_time end_time,
    strptime_HM (PreferredHours.start_time ph) = Done start_time
    /\ strptime_HM (PreferredHours.end_time ph) = Done end_time
    /\ l = fold_left (fun acc t => slot_turn uuid4 preferences events cd dn t (t + d) acc)
                     (window_candidates (combine (date cd) start_time)
                                        (combine (date cd) end_time) d)
                     acc.
Proof.
  unfold window_body. intros H.
  apply bind_Done in H as (st & Hst & H). apply bind_Done in H as (et & Het & H).
  exists st, et. split; [exact Hst |]. split; [exact Het |].
  apply slot_loop_Done in H. exact H.
Qed.

Lemma window_body_slots (fuel : nat) (events : list CalendarEvent.t) (cd : datetime)
    (dn : string) (acc : list ScheduleSuggestion.t) (ph : PreferredHours.t)
    (l : list ScheduleSuggestion.t) :
  window_body uuid4 preferences fuel events cd dn acc ph = Done l ->
  map slot_of l = map slot_of acc ++ window_slots events preferences cd ph.
Proof.
  intros H. apply window_body_Done in H as (st & et & Hst & Het & ->).
  rewrite fold_turn_slots. unfold window_slots.
  rewrite (parsed_Done _ _ Hst), (parsed_Done _ _ Het). reflexivity.
Qed.

(** The [if not preferred_for_day: continue] changes nothing. *)
Lemma day_body_eq (fuel : nat) (events : list CalendarEvent.t) (week_start : datetime)
    (acc : list ScheduleSuggestion.t) (day_offset : Z) :
  day_body uuid4 preferences fuel events week_start acc day_offset =
  (d0 <- timedelta_days day_offset ;;
   cd <- datetime_add week_start d0 ;;
   for_each (window_body uuid4 preferences fuel events cd (lower (strftime_A cd)))
            (matching_windows preferences cd) acc).
Proof.
  unfold day_body.
  destruct (timedelta_days day_offset) as [d0 | |]; simpl; try reflexivity.
  destruct (datetime_add week_start d0) as [cd | |]; simpl; try reflexivity.
  unfold matching_windows. destruct (filter _ _); reflexivity.
Qed.

Lemma for_each_slots {A : Type} (body : list ScheduleSuggestion.t -> A -> outcome (list ScheduleSuggestion.t))
    (g : A -> list (datetime * GroceryStore.t)) (xs : list A) :
  (forall acc x l, In x xs -> body acc x = Done l -> map slot_of l = map slot_of acc ++ g x) ->
  forall acc l,
    for_each body xs acc = Done l ->
    map slot_of l = map slot_of acc ++ flat_map g xs.
Proof.
  induction xs as [| x xs IH]; intros Hbody acc l H; simpl in *.
  - injection H as <-. symmetry. apply app_nil_r.
  - apply bind_Done in H as (acc' & H1 & H2).
    rewrite (IH (fun a y l' Hy => Hbody a y l' (or_intror Hy)) _ _ H2).
    rewrite (Hbody _ _ _ (or_introl eq_refl) H1), <- app_assoc. reflexivity.
Qed.

Lemma day_body_Done (fuel : nat) (events : list CalendarEvent.t) (week_start : datetime)
    (acc : list ScheduleSuggestion.t) (day_offset : Z) (l : list ScheduleSuggestion.t) :
  0 <= day_offset <= 6 ->
  day_body uuid4 preferences fuel events week_start acc day_offset = Done l ->
  let cd := week_start + day_offset * us_per_day in
  0 <= cd < MAXORDINAL * us_per_day
  /\ for_each (window_body uuid4 preferences fuel events cd (lower (strftime_A cd)))
              (matching_windows preferences cd) acc = Done l.
Proof.
  intros Hd H. rewrite day_body_eq in H.
  rewrite timedelta_days_small in H by lia. simpl in H.
  apply bind_Done in H as (cd & Hcd & H). apply datetime_add_Done in Hcd as [-> Hr].
  split; [exact Hr | exact H].
Qed.

Lemma day_body_slots (fuel : nat) (events : list CalendarEvent.t) (week_start : datetime)
    (acc : list ScheduleSuggestion.t) (day_offset : Z) (l : list ScheduleSuggestion.t) :
  0 <= day_offset <= 6 ->
  day_body uuid4 preferences fuel events week_start acc day_offset = Done l ->
  map slot_of l
  = map slot_of acc
    ++ flat_map (window_slots events preferences (week_start + day_offset * us_per_day))
                (matching_windows preferences (week_start + day_offset * us_per_day)).
Proof.
  intros Hd H. apply day_body_Done in H as [_ H]; [| exact Hd].
  revert H. apply for_each_slots. intros a ph l' _. apply window_body_slots.
Qed.

Lemma collect_suggestions_Done (fuel : nat) (week_start : datetime)
    (l : list ScheduleSuggestion.t) :
  collect_suggestions uuid4 calendar preferences fuel week_start = Done l ->
  0 <= week_start + 7 * us_per_day < MAXORDINAL * us_per_day
  /\ for_each (day_body uuid4 preferences fuel
                 (get_calendar_events calendar (UserPreferences.user_id preferences)
                    week_start (week_start + 7 * us_per_day))
                 week_start)
              [0; 1; 2; 3; 4; 5; 6] [] = Done l.
Proof.
  unfold collect_suggestions. intros H.
  rewrite timedelta_days_small in H by lia. simpl in H.
  apply bind_Done in H as (we & Hwe & H). apply datetime_add_Done in Hwe as [-> Hr].
  split; [exact Hr | exact H].
Qed.

(** The suggestions collected are the slots of the week in the order
    of discovery. *)
Lemma collect_suggestions_slots (fuel : nat) (week_start : datetime)
    (l : list ScheduleSuggestion.t) :
  collect_suggestions uuid4 calendar preferences fuel week_start = Done l ->
  map slot_of l = discovery_order calendar preferences week_start.
Proof.
  intros H. apply collect_suggestions_Done in H as [_ H].
  unfold discovery_order.
  set (events := get_calendar_events _ _ _ _) in *.
  apply (for_each_slots _
           (fun day_offset =>
              flat_map (window_slots events preferences (week_start + day_offset * us_per_day))
                       (matching_windows preferences (week_start + day_offset * us_per_day))))
    in H.
  - exact H.
  - intros acc x l' Hx. apply day_body_slots. apply in_week. exact Hx.
Qed.

(** Every suggestion collected has a provenance. *)
Lemma collect_suggestions_emitted (fuel : nat) (week_start : datetime)
    (l : list ScheduleSuggestion.t) :
  collect_suggestions uuid4 calendar preferences fuel week_start = Done l ->
  Forall (emitted uuid4 calendar preferences week_start) l.
Proof.
  intros H. apply collect_suggestions_Done in H as [_ H].
  revert H. apply for_each_invariant; [| constructor].
  intros acc day_offset acc' Hday Hacc H.
  apply in_week in Hday. apply day_body_Done in H as [_ H]; [| exact Hday].
  revert H. apply for_each_invariant; [| exact Hacc].
  clear acc acc' Hacc. intros acc ph acc' Hph Hacc H.
  apply window_body_Done in H as (st & et & Hst & Het & ->).
  apply fold_turn_Forall; [| exact Hacc].
  intros t n store Ht F Hs.
  apply In_window_candidates in Ht as (k & Hk & -> & Hle).
  exact (emitted_intro uuid4 calendar preferences week_start day_offset ph st et k n store
           Hday Hph Hst Het Hk Hle F Hs).
Qed.

End Week.

(** ** Fuel and exceptions *)

Lemma for_each_enough {A S : Type} (body1 body2 : S -> A -> outcome S) (l : list A) :
  (forall s x, In x l -> body1 s x = body2 s x /\ body1 s x <> OutOfFuel) ->
  forall s, for_each body1 l s = for_each body2 l s /\ for_each body1 l s <> OutOfFuel.
Proof.
  induction l as [| x l IH]; intros Hbody s; simpl.
  - split; [reflexivity | discriminate].
  - destruct (Hbody s x (or_introl eq_refl)) as [E N]. rewrite <- E.
    destruct (body1 s x) as [s' | e |]; simpl.
    + apply IH. intros s0 y Hy. apply Hbody. right; exact Hy.
    + split; [reflexivity | discriminate].
    + contradiction.
Qed.

Lemma for_each_raises {A S : Type} (body : S -> A -> outcome S) (E : exn -> Prop)
    (l : list A) :
  (forall s x e, body s x = Raised e -> E e) ->
  forall s e, for_each body l s = Raised e -> E e.
Proof.
  intros Hbody. induction l as [| x l IH]; intros s e H; simpl in H; [discriminate |].
  destruct (body s x) as [s' | e' |] eqn:B; simpl in H.
  - exact (IH _ _ H).
  - injection H as <-. exact (Hbody _ _ _ B).
  - discriminate.
Qed.

Section Fuel.

Variable uuid4 : nat -> string.
Variable calendar : list CalendarEvent.t.
Variable preferences : UserPreferences.t.

Let d := minutes (UserPreferences.shopping_duration_minutes preferences).

(** A window lies within one day, so its candidates are few. *)
Lemma window_candidates_length (day : Z) (st et : time) :
  0 <= hour st <= 23 /\ 0 <= minute st <= 59 ->
  0 <= hour et <= 23 /\ 0 <= minute et <= 59 ->
  (List.length (window_candidates (combine day st) (combine day et) d)
   < enough_fuel preferences)%nat.
Proof.
  intros [Hs1 Hs2] [He1 He2]. unfold window_candidates, enough_fuel.
  rewrite length_map, length_seq.
  pose proof (combine_within_day day st Hs1 Hs2) as Bs.
  pose proof (combine_within_day day et He1 He2) as Be.
  set (m := UserPreferences.shopping_duration_minutes preferences) in *.
  assert ((combine day et - combine day st - d) / us_per_hour < 25 + Z.max 0 (- m)).
  { apply Z.div_lt_upper_bound; [reflexivity |].
    unfold d, minutes. fold m. unfold us_per_hour, us_per_day, us_per_minute in *. zlia. }
  lia.
Qed.

Lemma window_body_enough (fuel1 fuel2 : nat) (events : list CalendarEvent.t)
    (cd : datetime) (dn : string) (acc : list ScheduleSuggestion.t) (ph : PreferredHours.t) :
  (enough_fuel preferences <= fuel1)%nat ->
  (enough_fuel preferences <= fuel2)%nat ->
  window_body uuid4 preferences fuel1 events cd dn acc ph
  = window_body uuid4 preferences fuel2 events cd dn acc ph
  /\ window_body uuid4 preferences fuel1 events cd dn acc ph <> OutOfFuel.
Proof.
  intros H1 H2. unfold window_body.
  destruct (strptime_HM (PreferredHours.start_time ph)) as [st | e |] eqn:Hst; simpl;
    [| split; [reflexivity | discriminate] | elim (strptime_HM_fuel _ Hst)].
  destruct (strptime_HM (PreferredHours.end_time ph)) as [et | e |] eqn:Het; simpl;
    [| split; [reflexivity | discriminate] | elim (strptime_HM_fuel _ Het)].
  pose proof (window_candidates_length (date cd)
                st et (strptime_HM_bounds _ _ Hst) (strptime_HM_bounds _ _ Het)) as L.
  apply slot_loop_enough; fold d; lia.
Qed.

Lemma day_body_enough (fuel1 fuel2 : nat) (events : list CalendarEvent.t)
    (week_start : datetime) (acc : list ScheduleSuggestion.t) (day_offset : Z) :
  (enough_fuel preferences <= fuel1)%nat ->
  (enough_fuel preferences <= fuel2)%nat ->
  day_body uuid4 preferences fuel1 events week_start acc day_offset
  = day_body uuid4 preferences fuel2 events week_start acc day_offset
  /\ day_body uuid4 preferences fuel1 events week_start acc day_offset <> OutOfFuel.
Proof.
  intros H1 H2. rewrite !day_body_eq.
  unfold timedelta_days, new_timedelta.
  destruct (timedelta_in_range _); simpl; [| split; [reflexivity | discriminate]].
  unfold datetime_add.
  destruct (datetime_in_range _); simpl; [| split; [reflexivity | discriminate]].
  apply for_each_enough. intros s ph _. apply window_body_enough; assumption.
Qed.

Lemma collect_suggestions_enough (fuel1 fuel2 : nat) (week_start : datetime) :
  (enough_fuel preferences <= fuel1)%nat ->
  (enough_fuel preferences <= fuel2)%nat ->
  collect_suggestions uuid4 calendar preferences fuel1 week_start
  = collect_suggestions uuid4 calendar preferences fuel2 week_start
  /\ collect_suggestions uuid4 calendar preferences fuel1 week_start <> OutOfFuel.
Proof.
  intros H1 H2. unfold collect_suggestions.
  unfold timedelta_days, new_timedelta.
  destruct (timedelta_in_range _); cbn [bind]; [| split; [reflexivity | discriminate]].
  unfold datetime_add.
  destruct (datetime_in_range _); cbn [bind]; [| split; [reflexivity | discriminate]].
  apply for_each_enough. intros s x _. apply day_body_enough; assumption.
Qed.

(** Nothing but [ValueError] and [OverflowError] comes out of the loops. *)
Lemma collect_suggestions_raises (fuel : nat) (week_start : datetime) (e : exn) :
  collect_suggestions uuid4 calendar preferences fuel week_start = Raised e ->
  value_or_overflow e.
Proof.
  unfold collect_suggestions, timedelta_days, new_timedelta.
  destruct (timedelta_in_range _); cbn [bind]; [| intros [= <-]; right; reflexivity].
  unfold datetime_add.
  destruct (datetime_in_range _); cbn [bind]; [| intros [= <-]; right; reflexivity].
  apply for_each_raises. clear e. intros acc day_offset e.
  rewrite day_body_eq. unfold timedelta_days, new_timedelta.
  destruct (timedelta_in_range _); cbn [bind]; [| intros [= <-]; right; reflexivity].
  unfold datetime_add.
  destruct (datetime_in_range _); cbn [bind]; [| intros [= <-]; right; reflexivity].
  apply for_each_raises. clear e acc. intros acc ph e.
  unfold window_body.
  destruct (strptime_HM (PreferredHours.start_time ph)) as [st | e' |] eqn:Hst; simpl;
    [| intros [= <-]; left; exact (strptime_HM_raises _ _ Hst) | discriminate].
  destruct (strptime_HM (PreferredHours.end_time ph)) as [et | e' |] eqn:Het; simpl;
    [| intros [= <-]; left; exact (strptime_HM_raises _ _ Het) | discriminate].
  intros H. right. exact (slot_loop_raises _ _ _ _ _ _ _ _ _ _ H).
Qed.

End Fuel.

(** ** The stable sort *)

Section SortedFacts.

Context {A : Type}.
Variable key : A -> Q.

Lemma insert_reverse_perm (x : A) (l : list A) :
  Permutation (x :: l) (insert_reverse key x l).
Proof.
  induction l as [| y l IH]; simpl.
  - apply Permutation_refl.
  - destruct (Qle_bool (key y) (key x)).
    + apply Permutation_refl.
    + eapply perm_trans; [apply perm_swap |]. apply perm_skip. exact IH.
Qed.

Lemma sorted_reverse_perm (l : list A) : Permutation l (sorted_reverse key l).
Proof.
  induction l as [| x l IH]; simpl.
  - apply perm_nil.
  - eapply perm_trans; [apply perm_skip; exact IH | apply insert_reverse_perm].
Qed.

Lemma sorted_reverse_length (l : list A) :
  List.length (sorted_reverse key l) = List.length l.
Proof. symmetry. apply Permutation_length. apply sorted_reverse_perm. Qed.

Lemma insert_reverse_descending (x : A) (l : list A) :
  descending key l -> descending key (insert_reverse key x l).
Proof.
  unfold descending. induction l as [| y l IH]; intros S; simpl.
  - constructor; constructor.
  - apply StronglySorted_inv in S as [S F].
    destruct (Qle_bool (key y) (key x)) eqn:C.
    + apply Qle_bool_iff in C. constructor.
      * constructor; assumption.
      * constructor; [exact C |].
        eapply Forall_impl; [| exact F]. intros z Hz. simpl in Hz.
        eapply Qle_trans; [exact Hz | exact C].
    + assert (Lt : (key x < key y)%Q).
      { apply Qnot_le_lt. intros Hle. apply Qle_bool_iff in Hle. congruence. }
      constructor; [apply IH; exact S |].
      eapply Permutation_Forall; [apply insert_reverse_perm |].
      constructor; [apply Qlt_le_weak; exact Lt | exact F].
Qed.

Lemma sorted_reverse_descending (l : list A) : descending key (sorted_reverse key l).
Proof.
  induction l as [| x l IH]; simpl.
  - constructor.
  - apply insert_reverse_descending. exact IH.
Qed.

(** Stability: the elements of any one key come out in the order they
    went in. *)
Lemma insert_reverse_stable (q : Q) (x : A) (l : list A) :
  filter (fun a => Qeq_bool (key a) q) (insert_reverse key x l)
  = filter (fun a => Qeq_bool (key a) q) (x :: l).
Proof.
  induction l as [| y l IH]; simpl; [reflexivity |].
  destruct (Qle_bool (key y) (key x)) eqn:C; [reflexivity |].
  simpl. rewrite IH. simpl.
  destruct (Qeq_bool (key x) q) eqn:Ex; [| reflexivity].
  destruct (Qeq_bool (key y) q) eqn:Ey; [| reflexivity].
  exfalso. apply Qeq_bool_iff in Ex. apply Qeq_bool_iff in Ey.
  assert (Hle : (key y <= key x)%Q) by (rewrite Ex, Ey; apply Qle_refl).
  apply Qle_bool_iff in Hle. congruence.
Qed.

Lemma sorted_reverse_stable (q : Q) (l : list A) :
  filter (fun a => Qeq_bool (key a) q) (sorted_reverse key l)
  = filter (fun a => Qeq_bool (key a) q) l.
Proof.
  induction l as [| x l IH]; simpl; [reflexivity |].
  rewrite insert_reverse_stable. simpl. rewrite IH. reflexivity.
Qed.

(** With two keys only, the sort puts the elements of the greater key
    first and changes nothing else. *)
Variables (hi lo : Q) (is_hi : A -> bool).
Hypothesis lo_below_hi : Qle_bool hi lo = false.

Let two_keys (a : A) : Prop := key a = if is_hi a then hi else lo.

Lemma insert_reverse_two_keys (x : A) (l : list A) :
  Forall two_keys (x :: l) ->
  insert_reverse key x (filter is_hi l ++ filter (fun a => negb (is_hi a)) l)
  = filter is_hi (x :: l) ++ filter (fun a => negb (is_hi a)) (x :: l).
Proof.
  intros K. apply Forall_cons_iff in K as [Kx K]. unfold two_keys in Kx.
  rewrite Forall_forall in K.
  assert (R : forall q, Qle_bool q q = true) by (intros q; apply Qle_bool_iff, Qle_refl).
  simpl. destruct (is_hi x) eqn:Hx; simpl.
  - destruct (filter is_hi l ++ filter (fun a => negb (is_hi a)) l) as [| y r] eqn:E;
      simpl; [reflexivity |].
    rewrite Kx.
    assert (Iy : In y l).
    { assert (I : In y (filter is_hi l ++ filter (fun a => negb (is_hi a)) l))
        by (rewrite E; left; reflexivity).
      apply in_app_iff in I as [I | I]; apply filter_In in I; tauto. }
    assert (Hy : Qle_bool (key y) hi = true).
    { rewrite (K y Iy). destruct (is_hi y); [apply R |].
      apply Qle_bool_iff. apply Qlt_le_weak. apply Qnot_le_lt.
      intros Hle. apply Qle_bool_iff in Hle. congruence. }
    rewrite Hy. reflexivity.
  - assert (Hhi : forall h, Forall (fun a => In a l /\ is_hi a = true) h ->
              forall r, insert_reverse key x (h ++ r) = h ++ insert_reverse key x r).
    { induction 1 as [| y h [Iy Hy] _ IH]; intros r; simpl; [reflexivity |].
      rewrite (K y Iy), Hy, Kx, lo_below_hi, IH. reflexivity. }
    rewrite Hhi by (apply Forall_forall; intros a Ha; apply filter_In in Ha; tauto).
    f_equal.
    destruct (filter (fun a => negb (is_hi a)) l) as [| y r] eqn:E; simpl; [reflexivity |].
    assert (Hy : In y l /\ is_hi y = false).
    { assert (I : In y (filter (fun a => negb (is_hi a)) l)) by (rewrite E; left; reflexivity).
      apply filter_In in I. rewrite negb_true_iff in I. exact I. }
    destruct Hy as [Iy Hy].
    rewrite (K y Iy), Hy, Kx, R. reflexivity.
Qed.

Lemma sorted_reverse_two_keys (l : list A) :
  Forall two_keys l ->
  sorted_reverse key l = filter is_hi l ++ filter (fun a => negb (is_hi a)) l.
Proof.
  induction l as [| x l IH]; intros K; [reflexivity |].
  change (sorted_reverse key (x :: l)) with (insert_reverse key x (sorted_reverse key l)).
  rewrite IH by (apply Forall_cons_iff in K; tauto).
  apply insert_reverse_two_keys. exact K.
Qed.

End SortedFacts.

(** ** The generator *)

Lemma generate_Done (uuid4 : nat -> string) (fuel : nat) (calendar : list CalendarEvent.t)
    (preferences : UserPreferences.t) (week_start : datetime)
    (l : list ScheduleSuggestion.t) :
  generate_schedule_suggestions uuid4 fuel calendar preferences week_start = Done l ->
  exists suggestions,
    collect_suggestions uuid4 calendar preferences fuel week_start = Done suggestions
    /\ l = firstn 5 (sorted_reverse ScheduleSuggestion.confidence_score suggestions).
Proof.
  unfold generate_schedule_suggestions. intros H.
  apply bind_Done in H as (suggestions & Hc & H). injection H as <-.
  exists suggestions. split; [exact Hc | reflexivity].
Qed.

Lemma In_ranked {A : Type} (key : A -> Q) (n : nat) (l : list A) (x : A) :
  In x (firstn n (sorted_reverse key l)) -> In x l.
Proof.
  intros H.
  eapply Permutation_in; [apply Permutation_sym, sorted_reverse_perm |].
  rewrite <- (firstn_skipn n (sorted_reverse key l)). apply in_or_app. left. exact H.
Qed.

Lemma generate_emitted (uuid4 : nat -> string) (fuel : nat) (calendar : list CalendarEvent.t)
    (preferences : UserPreferences.t) (week_start : datetime)
    (l : list ScheduleSuggestion.t) :
  generate_schedule_suggestions uuid4 fuel calendar preferences week_start = Done l ->
  Forall (emitted uuid4 calendar preferences week_start) l.
Proof.
  intros H. apply generate_Done in H as (suggestions & Hc & ->).
  apply collect_suggestions_emitted in Hc. rewrite Forall_forall in *.
  intros s Hs. apply Hc. exact (In_ranked _ _ _ _ Hs).
Qed.

(** C1: every suggestion returned occupies a slot
    [suggested_time, suggested_time + duration_minutes] on which the
    conflict predicate is false against every calendar event fetched for the
    week; and a slot on which some event makes the predicate true is
    discarded whole, the turn of the scan leaving the suggestions as they
    were. *)
Theorem C1_returned_slots_conflict_free (uuid4 : nat -> string) (fuel : nat)
    (calendar : list CalendarEvent.t) (preferences : UserPreferences.t)
    (week_start : datetime) (l : list ScheduleSuggestion.t) :
  generate_schedule_suggestions uuid4 fuel calendar preferences week_start = Done l ->
  let events :=
    get_calendar_events calendar (UserPreferences.user_id preferences)
      week_start (week_start + 7 * us_per_day) in
  (forall s e,
      In s l -> In e events ->
      conflict (ScheduleSuggestion.suggested_time s)
               (ScheduleSuggestion.suggested_time s
                + minutes (ScheduleSuggestion.duration_minutes s)) e = false)
  /\ (forall current_date day_name slot_start slot_end_time suggestions e,
         In e events -> conflict slot_start slot_end_time e = true ->
         slot_turn uuid4 preferences events current_date day_name
                   slot_start slot_end_time suggestions = suggestions).
Proof.
  intros H events. split.
  - intros s e Hs He. apply generate_emitted in H. rewrite Forall_forall in H.
    destruct (H s Hs) as [day_offset ph st et k n store cd events' d t _ _ _ _ _ _ F _].
    simpl. apply (proj1 (slot_free_spec events' t (t + d)) F). exact He.
  - intros cd dn t t' acc e He C. apply slot_turn_conflict.
    destruct (slot_free events t t') eqn:F; [| reflexivity].
    rewrite (proj1 (slot_free_spec events t t') F e He) in C. discriminate.
Qed.

Lemma C1_returned_slots_conflict_free_witness :
  let calendar := [event_until_0959 monday_2024_01_01] in
  let preferences := sample_preferences 60 [saturday_morning] in
  let l := result_of (generate_schedule_suggestions sample_uuid4 30 calendar preferences
                        monday_2024_01_01) in
  let events :=
    get_calendar_events calendar "u1" monday_2024_01_01
      (monday_2024_01_01 + 7 * us_per_day) in
  List.length l = 2%nat
  /\ events = calendar
  /\ (forall s e,
         In s l -> In e events ->
         conflict (ScheduleSuggestion.suggested_time s)
                  (ScheduleSuggestion.suggested_time s
                   + minutes (ScheduleSuggestion.duration_minutes s)) e = false)
  /\ (forall current_date day_name slot_start slot_end_time suggestions e,
         In e events -> conflict slot_start slot_end_time e = true ->
         slot_turn sample_uuid4 preferences events current_date day_name
                   slot_start slot_end_time suggestions = suggestions).
Proof.
  intros calendar preferences l events.
  split; [vm_compute; reflexivity |]. split; [vm_compute; reflexivity |].
  apply (C1_returned_slots_conflict_free sample_uuid4 30 calendar preferences
           monday_2024_01_01 l).
  vm_compute. reflexivity.
Defined.

(** ** Names of days *)

Lemma weekday_range (t : datetime) : 0 <= weekday t < 7.
Proof. unfold weekday. apply Z.mod_pos_bound. reflexivity. Qed.

Lemma weekday_cases (t : datetime) :
  weekday t = 0 \/ weekday t = 1 \/ weekday t = 2 \/ weekday t = 3
  \/ weekday t = 4 \/ weekday t = 5 \/ weekday t = 6.
Proof. pose proof (weekday_range t). lia. Qed.

Ltac by_weekday t :=
  unfold strftime_A, is_weekend;
  destruct (weekday_cases t) as [W | [W | [W | [W | [W | [W | W]]]]]];
  rewrite W.

Lemma day_name_weekend (t : datetime) :
  string_in (lower (strftime_A t)) ["saturday"; "sunday"] = is_weekend t.
Proof. by_weekday t; reflexivity. Qed.

Lemma day_name_in_days (t : datetime) (days : list DayOfWeek) :
  string_in (lower (strftime_A t)) (map DayOfWeek_.value days)
  = existsb (fun d => weekday t =? weekday_of d) days.
Proof.
  unfold string_in. induction days as [| d days IH]; [reflexivity |].
  simpl. rewrite IH. f_equal. clear IH.
  by_weekday t; destruct d; reflexivity.
Qed.

Lemma suggest_confidence (uuid4 : nat -> string) (preferences : UserPreferences.t)
    (current_date t : datetime) (n : nat) (store : GroceryStore.t) :
  ScheduleSuggestion.confidence_score
    (suggest uuid4 preferences current_date (lower (strftime_A current_date)) t n store)
  = confidence_of current_date.
Proof.
  unfold suggest, confidence_of. cbn [ScheduleSuggestion.confidence_score].
  rewrite day_name_weekend. reflexivity.
Qed.

(** A day of the week, whole days later. *)
Lemma date_add_days (t : datetime) (n : Z) : date (t + n * us_per_day) = date t + n.
Proof. unfold date. apply Z.div_add. discriminate. Qed.

(** ** Runs that return *)

Section Returns.

Variable uuid4 : nat -> string.
Variable calendar : list CalendarEvent.t.
Variable preferences : UserPreferences.t.

Let m := UserPreferences.shopping_duration_minutes preferences.
Let d := minutes m.

Hypothesis duration_nonneg : 0 <= m.

Lemma slot_loop_returns (events : list CalendarEvent.t) (cd : datetime) (dn : string)
    (slot_end : datetime) (fuel : nat) :
  slot_end + us_per_hour < MAXORDINAL * us_per_day ->
  forall (cur : datetime) (acc : list ScheduleSuggestion.t),
    (List.length (window_candidates cur slot_end d) < fuel)%nat ->
    0 <= cur -> cur + d < MAXORDINAL * us_per_day ->
    exists l, slot_loop uuid4 preferences fuel events cd dn slot_end cur acc = Done l.
Proof.
  intros Hend. induction fuel as [| fuel IH]; intros cur acc Hf H0 H1; [lia |].
  assert (Dn : 0 <= d) by (unfold d, minutes, us_per_minute; lia).
  rewrite slot_loop_step.
  assert (Td : timedelta_minutes (UserPreferences.shopping_duration_minutes preferences)
               = Done d).
  { unfold timedelta_minutes, new_timedelta, timedelta_in_range. fold m. fold (minutes m).
    fold d.
    assert (0 <= d / us_per_day) by (apply Z.div_pos; [exact Dn | reflexivity]).
    assert (d / us_per_day < MAXORDINAL).
    { apply Z.div_lt_upper_bound; [reflexivity |]. zlia. }
    unfold MAX_DELTA_DAYS, MAXORDINAL in *.
    destruct (Z.leb_spec (- (999999999)) (d / us_per_day));
      destruct (Z.leb_spec (d / us_per_day) 999999999); try reflexivity; lia. }
  rewrite Td. cbn [bind].
  rewrite datetime_add_in_range by zlia. cbn [bind].
  destruct (Z.leb_spec (cur + d) slot_end) as [Hle | Hgt]; [| eexists; reflexivity].
  rewrite datetime_add_in_range by (unfold us_per_hour in *; zlia). cbn [bind].
  rewrite window_candidates_cons in Hf by exact Hle. simpl in Hf.
  apply IH; [lia | unfold us_per_hour; zlia | zlia].
Qed.

Lemma for_each_returns {A S : Type} (body : S -> A -> outcome S) (l : list A) :
  (forall s x, In x l -> exists s', body s x = Done s') ->
  forall s, exists s', for_each body l s = Done s'.
Proof.
  induction l as [| x l IH]; intros Hbody s; simpl.
  - eexists; reflexivity.
  - destruct (Hbody s x (or_introl eq_refl)) as (s1 & ->). cbn [bind].
    apply IH. intros s0 y Hy. apply Hbody. right; exact Hy.
Qed.

Hypothesis windows_readable : Forall readable (UserPreferences.preferred_hours preferences).

Variable week_start : datetime.
Hypothesis week_in_range :
  0 <= week_start /\ week_start + 8 * us_per_day + d <= MAXORDINAL * us_per_day.

Variable fuel : nat.
Hypothesis fuel_enough : (enough_fuel preferences <= fuel)%nat.

Lemma window_body_returns (events : list CalendarEvent.t) (day_offset : Z) (dn : string)
    (acc : list ScheduleSuggestion.t) (ph : PreferredHours.t) :
  0 <= day_offset <= 6 ->
  In ph (UserPreferences.preferred_hours preferences) ->
  exists l,
    window_body uuid4 preferences fuel events (week_start + day_offset * us_per_day) dn acc ph
    = Done l.
Proof.
  intros Hday Hph. rewrite Forall_forall in windows_readable.
  destruct (windows_readable ph Hph) as [(st & Hst) (et & Het)].
  unfold window_body. rewrite Hst, Het. cbn [bind].
  destruct (strptime_HM_bounds _ _ Hst) as [Bs1 Bs2].
  destruct (strptime_HM_bounds _ _ Het) as [Be1 Be2].
  set (cd := week_start + day_offset * us_per_day).
  pose proof (combine_within_day (date cd) st Bs1 Bs2) as Cs.
  pose proof (combine_within_day (date cd) et Be1 Be2) as Ce.
  pose proof (date_lower cd) as Dl.
  assert (Dn : 0 <= d) by (unfold d, minutes, us_per_minute; lia).
  assert (Hcd : 0 <= cd <= week_start + 6 * us_per_day)
    by (unfold cd, us_per_day; zlia).
  assert (D0 : 0 <= date cd * us_per_day).
  { assert (0 <= date cd) by (apply Z.div_pos; [zlia | reflexivity]).
    unfold us_per_day. lia. }
  apply slot_loop_returns.
  - unfold us_per_hour, us_per_day in *. zlia.
  - pose proof (window_candidates_length preferences (date cd) st et
                  (conj Bs1 Bs2) (conj Be1 Be2)) as L.
    fold m in L. fold d in L. lia.
  - zlia.
  - unfold us_per_day in *. zlia.
Qed.

(** With a duration that is not negative, windows that are readable and
    a week that does not touch the end of the calendar, the loops run
    to the end. *)
Lemma collect_suggestions_returns :
  exists suggestions,
    collect_suggestions uuid4 calendar preferences fuel week_start = Done suggestions.
Proof.
  assert (Dn : 0 <= d) by (unfold d, minutes, us_per_minute; lia).
  unfold collect_suggestions.
  rewrite timedelta_days_small by lia. cbn [bind].
  rewrite datetime_add_in_range by (unfold us_per_day in *; zlia). cbn [bind].
  apply for_each_returns. intros acc day_offset Hday. apply in_week in Hday.
  rewrite day_body_eq. rewrite timedelta_days_small by lia. cbn [bind].
  rewrite datetime_add_in_range by (unfold us_per_day in *; zlia). cbn [bind].
  apply for_each_returns. intros acc' ph Hph.
  apply window_body_returns; [exact Hday |].
  unfold matching_windows in Hph. apply filter_In in Hph. tauto.
Qed.

End Returns.

Lemma weekday_add_days (t : datetime) (n : Z) :
  weekday (t + n * us_per_day) = (weekday t + n) mod 7.
Proof.
  unfold weekday. rewrite date_add_days. symmetry. apply Z.add_mod_idemp_l. discriminate.
Qed.

Lemma sorted_reverse_one_key {A : Type} (key : A -> Q) (q : Q) (l : list A) :
  Forall (fun a => key a = q) l -> sorted_reverse key l = l.
Proof.
  induction l as [| x l IH]; intros K; [reflexivity |].
  apply Forall_cons_iff in K as [Kx K]. simpl. rewrite (IH K).
  destruct l as [| y l]; [reflexivity |]. simpl.
  apply Forall_cons_iff in K as [Ky _]. rewrite Kx, Ky.
  assert (R : Qle_bool q q = true) by (apply Qle_bool_iff, Qle_refl).
  rewrite R. reflexivity.
Qed.

(** ** The scenario of the Saturday window *)

Section Saturday.

Variable uuid4 : nat -> string.
Variable preferences : UserPreferences.t.
Variable week_start : datetime.
Variable e : CalendarEvent.t.

Hypothesis duration_60 : UserPreferences.shopping_duration_minutes preferences = 60.
Hypothesis one_window : UserPreferences.preferred_hours preferences = [saturday_morning].
Hypothesis monday : weekday week_start = 0.
Hypothesis midnight : week_start mod us_per_day = 0.
Hypothesis in_range :
  0 <= week_start /\ week_start + 9 * us_per_day <= MAXORDINAL * us_per_day.
Hypothesis starts_0930 : CalendarEvent.start_time e = instant week_start 5 9 30.
Hypothesis ends_by_10 :
  instant week_start 5 9 30 <= CalendarEvent.end_time e <= instant week_start 5 10 0.

Let stores := find_nearby_stores (UserPreferences.home_address preferences).

Lemma saturday_matching (day_offset : Z) :
  0 <= day_offset <= 6 ->
  matching_windows preferences (week_start + day_offset * us_per_day)
  = if day_offset =? 5 then [saturday_morning] else [].
Proof.
  intros Hd. unfold matching_windows. rewrite one_window. cbn [filter].
  rewrite day_name_in_days, weekday_add_days, monday.
  cbn [saturday_morning PreferredHours.days existsb weekday_of].
  rewrite Z.add_0_l, Z.mod_small by lia. rewrite orb_false_r.
  destruct (day_offset =? 5); reflexivity.
Qed.

Lemma saturday_events :
  get_calendar_events [e] (UserPreferences.user_id preferences)
    week_start (week_start + 7 * us_per_day) = [e].
Proof.
  unfold get_calendar_events. cbn [filter]. rewrite starts_0930.
  unfold instant, us_per_day, us_per_hour, us_per_minute in *.
  destruct (Z.leb_spec week_start (week_start + 5 * 86400000000 + 9 * 3600000000 + 30 * 60000000));
    [| zlia].
  destruct (Z.leb_spec (week_start + 5 * 86400000000 + 9 * 3600000000 + 30 * 60000000)
                       (week_start + 7 * 86400000000)); [reflexivity | zlia].
Qed.

Lemma saturday_slots :
  window_slots [e] preferences (week_start + 5 * us_per_day) saturday_morning
  = if CalendarEvent.end_time e <? instant week_start 5 10 0
    then map (pair (instant week_start 5 10 0)) stores
    else [].
Proof.
  unfold window_slots. rewrite duration_60.
  change (parsed (PreferredHours.start_time saturday_morning)) with (mk_time 9 0).
  change (parsed (PreferredHours.end_time saturday_morning)) with (mk_time 11 0).
  assert (D : date (week_start + 5 * us_per_day) * us_per_day = week_start + 5 * us_per_day).
  { rewrite date_add_days. unfold date.
    pose proof (Z.div_mod week_start us_per_day ltac:(discriminate)) as E.
    rewrite midnight in E. unfold us_per_day in *. zlia. }
  unfold combine. rewrite D. cbn [hour minute].
  rewrite window_candidates_cons
    by (unfold minutes, us_per_day, us_per_hour, us_per_minute; zlia).
  rewrite window_candidates_cons
    by (unfold minutes, us_per_day, us_per_hour, us_per_minute; zlia).
  rewrite window_candidates_nil
    by (unfold minutes, us_per_day, us_per_hour, us_per_minute; zlia).
  cbn [flat_map slot_free forallb]. fold stores.
  set (t9 := week_start + 5 * us_per_day + 9 * us_per_hour + 0 * us_per_minute).
  assert (T10 : t9 + us_per_hour = instant week_start 5 10 0)
    by (unfold t9, instant, us_per_day, us_per_hour, us_per_minute; zlia).
  rewrite T10.
  assert (C9 : conflict t9 (t9 + minutes 60) e = true).
  { unfold conflict. rewrite starts_0930.
    apply orb_true_iff; left. apply orb_true_iff; left.
    apply andb_true_iff; split; apply Z.leb_le;
      unfold t9, instant, minutes, us_per_day, us_per_hour, us_per_minute; zlia. }
  assert (C10 : conflict (instant week_start 5 10 0) (instant week_start 5 10 0 + minutes 60) e
                = negb (CalendarEvent.end_time e <? instant week_start 5 10 0)).
  { unfold conflict. rewrite starts_0930. rewrite Z.geb_leb.
    unfold instant, minutes, us_per_day, us_per_hour, us_per_minute in *.
    repeat match goal with
           | |- context [?a <=? ?b] => destruct (Z.leb_spec a b); try zlia
           | |- context [?a <? ?b] => destruct (Z.ltb_spec a b); try zlia
           end; reflexivity. }
  rewrite C9, C10, negb_involutive. cbn [negb andb app].
  rewrite andb_true_r, app_nil_r. reflexivity.
Qed.

Lemma saturday_discovery_order :
  discovery_order [e] preferences week_start
  = if CalendarEvent.end_time e <? instant week_start 5 10 0
    then map (pair (instant week_start 5 10 0)) stores
    else [].
Proof.
  unfold discovery_order. rewrite saturday_events. cbn [flat_map].
  rewrite !saturday_matching by lia. cbn [Z.eqb Pos.eqb flat_map app].
  rewrite saturday_slots, !app_nil_r. reflexivity.
Qed.

Lemma saturday_confidence (s : ScheduleSuggestion.t) :
  emitted uuid4 [e] preferences week_start s ->
  ScheduleSuggestion.confidence_score s = confidence_weekend.
Proof.
  intros [day_offset ph st et k n store cd events d t Hd Hph _ _ _ _ _ _].
  rewrite suggest_confidence. unfold cd in *.
  rewrite saturday_matching in Hph by exact Hd.
  destruct (Z.eqb_spec day_offset 5) as [-> | _]; [| destruct Hph].
  unfold confidence_of, is_weekend. rewrite weekday_add_days, monday. reflexivity.
Qed.

End Saturday.

(** C2, as the code has it: with the one window 09:00-11:00 on Saturday,
    60 minutes of shopping and one event of the week that starts at 09:30 on
    the Saturday, the 09:00 candidate conflicts and is dropped.  The
    10:00-11:00 candidate is kept, with one suggestion per nearby store and
    confidence 0.8, when the event ends before 10:00; an event that ends at
    10:00 sharp meets the closed slot at its first instant, so that this
    candidate conflicts as well and nothing is returned. *)
Theorem C2_saturday_window_scenario (uuid4 : nat -> string) (fuel : nat)
    (preferences : UserPreferences.t) (week_start : datetime) (e : CalendarEvent.t) :
  UserPreferences.shopping_duration_minutes preferences = 60 ->
  UserPreferences.preferred_hours preferences = [saturday_morning] ->
  weekday week_start = 0 ->
  week_start mod us_per_day = 0 ->
  0 <= week_start /\ week_start + 9 * us_per_day <= MAXORDINAL * us_per_day ->
  CalendarEvent.start_time e = instant week_start 5 9 30 ->
  instant week_start 5 9 30 <= CalendarEvent.end_time e <= instant week_start 5 10 0 ->
  (enough_fuel preferences <= fuel)%nat ->
  exists l,
    generate_schedule_suggestions uuid4 fuel [e] preferences week_start = Done l
    /\ conflict (instant week_start 5 9 0) (instant week_start 5 10 0) e = true
    /\ map slot_of l
       = (if CalendarEvent.end_time e <? instant week_start 5 10 0
          then map (pair (instant week_start 5 10 0))
                   (find_nearby_stores (UserPreferences.home_address preferences))
          else [])
    /\ Forall (fun s => ScheduleSuggestion.confidence_score s = confidence_weekend) l
    /\ (CalendarEvent.end_time e = instant week_start 5 10 0 ->
        conflict (instant week_start 5 10 0) (instant week_start 5 11 0) e = true
        /\ l = []).
Proof.
  intros D60 W Mon Mid R S E F.
  destruct (collect_suggestions_returns uuid4 [e] preferences) with
    (week_start := week_start) (fuel := fuel) as (suggestions & C).
  { rewrite D60. lia. }
  { rewrite W. repeat constructor; eexists; reflexivity. }
  { rewrite D60. unfold minutes, us_per_day, us_per_minute in *. zlia. }
  { exact F. }
  pose proof (collect_suggestions_slots _ _ _ _ _ _ C) as Slots.
  rewrite (saturday_discovery_order preferences week_start e D60 W Mon Mid S) in Slots.
  pose proof (collect_suggestions_emitted _ _ _ _ _ _ C) as Em.
  assert (K : Forall (fun s => ScheduleSuggestion.confidence_score s = confidence_weekend)
                     suggestions).
  { eapply Forall_impl; [| exact Em]. intros s. apply saturday_confidence; assumption. }
  assert (L : (List.length suggestions <= 5)%nat).
  { rewrite <- (length_map slot_of), Slots.
    destruct (_ <? _); simpl; lia. }
  exists suggestions. split.
  { unfold generate_schedule_suggestions. rewrite C. cbn [bind].
    rewrite (sorted_reverse_one_key _ _ _ K), firstn_all2 by exact L. reflexivity. }
  split.
  { unfold conflict. rewrite S.
    apply orb_true_iff; left. apply orb_true_iff; left.
    apply andb_true_iff; split; apply Z.leb_le;
      unfold instant, us_per_day, us_per_hour, us_per_minute; zlia. }
  split; [exact Slots |]. split; [exact K |].
  intros E10. split.
  - unfold conflict. rewrite E10.
    apply orb_true_iff; left. apply orb_true_iff; right.
    apply andb_true_iff; split; apply Z.leb_le;
      unfold instant, us_per_day, us_per_hour, us_per_minute; zlia.
  - rewrite E10, Z.ltb_irrefl in Slots. destruct suggestions; [reflexivity | discriminate].
Qed.

Lemma C2_saturday_window_scenario_witness :
  exists l,
    generate_schedule_suggestions sample_uuid4 30 [event_until_10 monday_2024_01_01]
      (sample_preferences 60 [saturday_morning]) monday_2024_01_01 = Done l
    /\ conflict (instant monday_2024_01_01 5 9 0) (instant monday_2024_01_01 5 10 0)
         (event_until_10 monday_2024_01_01) = true
    /\ map slot_of l = []
    /\ Forall (fun s => ScheduleSuggestion.confidence_score s = confidence_weekend) l
    /\ (instant monday_2024_01_01 5 10 0 = instant monday_2024_01_01 5 10 0 ->
        conflict (instant monday_2024_01_01 5 10 0) (instant monday_2024_01_01 5 11 0)
          (event_until_10 monday_2024_01_01) = true
        /\ l = []).
Proof.
  apply (C2_saturday_window_scenario sample_uuid4 30
           (sample_preferences 60 [saturday_morning]) monday_2024_01_01
           (event_until_10 monday_2024_01_01)).
  - reflexivity.
  - reflexivity.
  - reflexivity.
  - reflexivity.
  - vm_compute. split; discriminate.
  - reflexivity.
  - vm_compute. split; discriminate.
  - vm_compute. lia.
Defined.

(** C2, as the claim has it, fails on the code: with the event 09:30-10:00
    the 10:00-11:00 candidate conflicts too, and the generator returns no
    suggestion at all. *)
Lemma C2_counterexample :
  conflict (instant monday_2024_01_01 5 10 0) (instant monday_2024_01_01 5 11 0)
    (event_until_10 monday_2024_01_01) = true
  /\ generate_schedule_suggestions sample_uuid4 30 [event_until_10 monday_2024_01_01]
       (sample_preferences 60 [saturday_morning]) monday_2024_01_01 = Done [].
Proof. split; vm_compute; reflexivity. Qed.

(** With a duration that is not negative, windows that are readable and a
    week away from the end of the calendar, the generator returns. *)
Lemma generate_returns (uuid4 : nat -> string) (fuel : nat)
    (calendar : list CalendarEvent.t) (preferences : UserPreferences.t)
    (week_start : datetime) :
  0 <= UserPreferences.shopping_duration_minutes preferences ->
  Forall readable (UserPreferences.preferred_hours preferences) ->
  0 <= week_start
  /\ week_start + 8 * us_per_day
     + minutes (UserPreferences.shopping_duration_minutes preferences)
     <= MAXORDINAL * us_per_day ->
  (enough_fuel preferences <= fuel)%nat ->
  exists l, generate_schedule_suggestions uuid4 fuel calendar preferences week_start = Done l.
Proof.
  intros Hd Hr Hw Hf.
  destruct (collect_suggestions_returns uuid4 calendar preferences Hd Hr week_start Hw fuel Hf)
    as (suggestions & C).
  unfold generate_schedule_suggestions. rewrite C. cbn [bind]. eexists. reflexivity.
Qed.

(** The generator on the mock calendar of an import at noon of Monday
    2024-01-01, whose work meeting is then on Tuesday from 21:00 to 22:00:
    of the hourly slots of an evening window from 19:00 to 23:00 only the
    first is free, the others meet the meeting at an end or inside. *)
Example generate_on_mock_calendar :
  let now := instant monday_2024_01_01 0 12 0 in
  let preferences :=
    sample_preferences 60 [PreferredHours.mk "19:00" "23:00" [TUESDAY]] in
  map slot_of
      (result_of (generate_schedule_suggestions sample_uuid4 30 (MOCK_CALENDAR_EVENTS now)
                    preferences monday_2024_01_01))
  = map (pair (instant monday_2024_01_01 1 19 0)) (find_nearby_stores "1 Home St").
Proof. vm_compute. reflexivity. Qed.

(** ** The calendar lookup *)

(** C3, as the code has it: the lookup returns exactly the events of the
    calendar whose start lies in the closed interval from [start_date] to
    [end_date], whatever the user and whenever they end. *)
Theorem C3_lookup_filters_on_start (calendar : list CalendarEvent.t) (user_id : string)
    (start_date end_date : datetime) (e : CalendarEvent.t) :
  In e (get_calendar_events calendar user_id start_date end_date)
  <-> In e calendar /\ start_date <= CalendarEvent.start_time e <= end_date.
Proof.
  unfold get_calendar_events. rewrite filter_In, andb_true_iff, !Z.leb_le. tauto.
Qed.

(** C3, as the claim has it, fails on the code: an event that overlaps the
    week but started before it is not returned, and an event that starts
    at the very end of the week, outside the half-open interval, is. *)
Lemma C3_counterexample :
  let start := monday_2024_01_01 in
  let stop := monday_2024_01_01 + 7 * us_per_day in
  let before := sample_event (start - us_per_hour) (start + us_per_hour) in
  let at_end := sample_event stop (stop + us_per_hour) in
  overlaps before start stop
  /\ ~ In before (get_calendar_events [before; at_end] "u1" start stop)
  /\ ~ overlaps at_end start stop
  /\ In at_end (get_calendar_events [before; at_end] "u1" start stop).
Proof.
  cbv zeta. split; [| split; [| split]].
  - split; vm_compute; reflexivity.
  - vm_compute. intros [H | []]. discriminate.
  - intros [H _]. vm_compute in H. discriminate.
  - vm_compute. left. reflexivity.
Qed.

(** ** Durations that are not positive, and termination *)

Lemma generate_enough (uuid4 : nat -> string) (calendar : list CalendarEvent.t)
    (preferences : UserPreferences.t) (week_start : datetime) (fuel1 fuel2 : nat) :
  (enough_fuel preferences <= fuel1)%nat ->
  (enough_fuel preferences <= fuel2)%nat ->
  generate_schedule_suggestions uuid4 fuel1 calendar preferences week_start
  = generate_schedule_suggestions uuid4 fuel2 calendar preferences week_start
  /\ generate_schedule_suggestions uuid4 fuel1 calendar preferences week_start <> OutOfFuel.
Proof.
  intros H1 H2. unfold generate_schedule_suggestions.
  destruct (collect_suggestions_enough uuid4 calendar preferences fuel1 fuel2 week_start H1 H2)
    as [E N].
  rewrite <- E.
  destruct (collect_suggestions uuid4 calendar preferences fuel1 week_start);
    cbn [bind]; split; try reflexivity; try discriminate. contradiction.
Qed.

Lemma generate_raises (uuid4 : nat -> string) (calendar : list CalendarEvent.t)
    (preferences : UserPreferences.t) (week_start : datetime) (fuel : nat) (e : exn) :
  generate_schedule_suggestions uuid4 fuel calendar preferences week_start = Raised e ->
  value_or_overflow e.
Proof.
  unfold generate_schedule_suggestions.
  destruct (collect_suggestions uuid4 calendar preferences fuel week_start) eqn:C;
    cbn [bind]; try discriminate.
  intros [= <-]. exact (collect_suggestions_raises _ _ _ _ _ _ C).
Qed.

Lemma emitted_duration (uuid4 : nat -> string) (calendar : list CalendarEvent.t)
    (preferences : UserPreferences.t) (week_start : datetime) (s : ScheduleSuggestion.t) :
  emitted uuid4 calendar preferences week_start s ->
  ScheduleSuggestion.duration_minutes s
  = UserPreferences.shopping_duration_minutes preferences.
Proof. intros []. reflexivity. Qed.

(** C4, as the code has it: a duration that is zero or negative is not
    checked.  The generator still stops, whatever it raises then is one of
    the errors of a time text or of the date arithmetic, and the
    suggestions it returns carry the duration as configured: slots that
    end no later than they start. *)
Theorem C4_nonpositive_duration_unchecked (uuid4 : nat -> string) (fuel : nat)
    (calendar : list CalendarEvent.t) (preferences : UserPreferences.t)
    (week_start : datetime) :
  UserPreferences.shopping_duration_minutes preferences <= 0 ->
  (enough_fuel preferences <= fuel)%nat ->
  let run := generate_schedule_suggestions uuid4 fuel calendar preferences week_start in
  run <> OutOfFuel
  /\ (forall e, run = Raised e -> value_or_overflow e)
  /\ (forall l, run = Done l ->
        Forall (fun s =>
                  ScheduleSuggestion.duration_minutes s
                  = UserPreferences.shopping_duration_minutes preferences
                  /\ ScheduleSuggestion.suggested_time s
                     + minutes (ScheduleSuggestion.duration_minutes s)
                     <= ScheduleSuggestion.suggested_time s) l).
Proof.
  intros Hd Hf run. split; [| split].
  - exact (proj2 (generate_enough uuid4 calendar preferences week_start fuel fuel Hf Hf)).
  - intros e. apply generate_raises.
  - intros l H. apply generate_emitted in H.
    eapply Forall_impl; [| exact H]. intros s Hs.
    rewrite (emitted_duration _ _ _ _ _ Hs). split; [reflexivity |].
    unfold minutes, us_per_minute. zlia.
Qed.

Lemma C4_nonpositive_duration_unchecked_witness :
  let run :=
    generate_schedule_suggestions sample_uuid4 30 []
      (sample_preferences 0 [saturday_morning]) monday_2024_01_01 in
  run <> OutOfFuel
  /\ (forall e, run = Raised e -> value_or_overflow e)
  /\ (forall l, run = Done l ->
        Forall (fun s =>
                  ScheduleSuggestion.duration_minutes s = 0
                  /\ ScheduleSuggestion.suggested_time s
                     + minutes (ScheduleSuggestion.duration_minutes s)
                     <= ScheduleSuggestion.suggested_time s) l).
Proof.
  apply (C4_nonpositive_duration_unchecked sample_uuid4 30 []
           (sample_preferences 0 [saturday_morning]) monday_2024_01_01).
  - simpl. lia.
  - vm_compute. lia.
Defined.

(** C4, as the claim has it, fails on the code: with a duration of 0
    nothing is raised, and the suggestions returned are slots of length
    zero. *)
Lemma C4_counterexample :
  exists l,
    generate_schedule_suggestions sample_uuid4 30 []
      (sample_preferences 0 [saturday_morning]) monday_2024_01_01 = Done l
    /\ List.length l = 5%nat
    /\ Forall (fun s => ScheduleSuggestion.duration_minutes s = 0) l.
Proof.
  eexists. split; [vm_compute; reflexivity |]. split; [reflexivity |].
  repeat constructor.
Qed.

(** C10: the generator terminates on every input, a duration that is zero
    or negative included.  Each turn of the scan moves [current_time] one
    hour on, so that a fuel above the number of hourly steps of a window is
    never used up: with it the run returns or raises, and more fuel
    changes nothing. *)
Theorem C10_generate_terminates (uuid4 : nat -> string) (fuel : nat)
    (calendar : list CalendarEvent.t) (preferences : UserPreferences.t)
    (week_start : datetime) :
  (enough_fuel preferences <= fuel)%nat ->
  let run := generate_schedule_suggestions uuid4 fuel calendar preferences week_start in
  ((exists l, run = Done l) \/ (exists e, run = Raised e))
  /\ run = generate_schedule_suggestions uuid4 (enough_fuel preferences)
             calendar preferences week_start.
Proof.
  intros Hf run.
  destruct (generate_enough uuid4 calendar preferences week_start fuel
              (enough_fuel preferences) Hf (Nat.le_refl _)) as [E N].
  split; [| exact E]. subst run.
  destruct (generate_schedule_suggestions uuid4 fuel calendar preferences week_start)
    as [l | e |].
  - left. exists l. reflexivity.
  - right. exists e. reflexivity.
  - contradiction.
Qed.

Lemma C10_generate_terminates_witness :
  let run :=
    generate_schedule_suggestions sample_uuid4 200 []
      (sample_preferences (-120) [saturday_morning]) monday_2024_01_01 in
  ((exists l, run = Done l) \/ (exists e, run = Raised e))
  /\ run = generate_schedule_suggestions sample_uuid4
             (enough_fuel (sample_preferences (-120) [saturday_morning])) []
             (sample_preferences (-120) [saturday_morning]) monday_2024_01_01.
Proof.
  apply (C10_generate_terminates sample_uuid4 200 []
           (sample_preferences (-120) [saturday_morning]) monday_2024_01_01).
  vm_compute. lia.
Defined.

(** ** Ranking *)

Lemma StronglySorted_firstn {A : Type} (R : A -> A -> Prop) (n : nat) (l : list A) :
  StronglySorted R l -> StronglySorted R (firstn n l).
Proof.
  revert n. induction l as [| x l IH]; intros n S.
  - rewrite firstn_nil. constructor.
  - destruct n as [| n]; [constructor |]. simpl.
    apply StronglySorted_inv in S as [S F]. constructor; [apply IH; exact S |].
    rewrite Forall_forall in *. intros y Hy. apply F.
    rewrite <- (firstn_skipn n l). apply in_or_app. left. exact Hy.
Qed.

Lemma StronglySorted_before {A : Type} (R : A -> A -> Prop) (l1 l2 l3 : list A) (a b : A) :
  StronglySorted R (l1 ++ a :: l2 ++ b :: l3) -> R a b.
Proof.
  induction l1 as [| x l1 IH]; simpl; intros S; apply StronglySorted_inv in S as [S F].
  - rewrite Forall_forall in F. apply F. apply in_or_app. right. left. reflexivity.
  - apply IH. exact S.
Qed.

Lemma emitted_same_day (uuid4 : nat -> string) (calendar : list CalendarEvent.t)
    (preferences : UserPreferences.t) (week_start : datetime) (s : ScheduleSuggestion.t) :
  emitted uuid4 calendar preferences week_start s ->
  exists day_offset,
    0 <= day_offset <= 6
    /\ ScheduleSuggestion.confidence_score s
       = confidence_of (week_start + day_offset * us_per_day)
    /\ ScheduleSuggestion.reason s
       = ("Free time on " ++ strftime_A (week_start + day_offset * us_per_day)
          ++ " during your preferred hours")%string
    /\ (0 <= UserPreferences.shopping_duration_minutes preferences ->
        date (ScheduleSuggestion.suggested_time s)
        = date (week_start + day_offset * us_per_day)).
Proof.
  intros [day_offset ph st et k n store cd events d t Hd _ Hst Het Hk Hle _ _].
  exists day_offset. split; [exact Hd |]. split; [apply suggest_confidence |].
  split; [reflexivity |].
  intros Dn. cbn [suggest ScheduleSuggestion.suggested_time]. apply date_unique.
  destruct (strptime_HM_bounds _ _ Hst) as [Bs1 Bs2].
  destruct (strptime_HM_bounds _ _ Het) as [Be1 Be2].
  pose proof (combine_within_day (date cd) st Bs1 Bs2).
  pose proof (combine_within_day (date cd) et Be1 Be2).
  unfold t, d, minutes, us_per_minute, us_per_hour in *. fold cd. zlia.
Qed.

Lemma confidence_of_same_day (t t' : datetime) :
  date t = date t' -> confidence_of t = confidence_of t'.
Proof. unfold confidence_of, is_weekend, weekday. intros ->. reflexivity. Qed.

(** C7: every suggestion returned was made on one of the seven days scanned
    and has confidence 0.8 when that day, the day its reason names, is a
    Saturday or a Sunday, and 0.6 otherwise; with a duration that is not
    negative that day is the day of its own [suggested_time].  In the
    ranked result no slot of a weekday comes before a slot of the
    weekend. *)
Theorem C7_confidence_by_weekday (uuid4 : nat -> string) (fuel : nat)
    (calendar : list CalendarEvent.t) (preferences : UserPreferences.t)
    (week_start : datetime) (l : list ScheduleSuggestion.t) :
  generate_schedule_suggestions uuid4 fuel calendar preferences week_start = Done l ->
  Forall (fun s =>
            exists day_offset,
              0 <= day_offset <= 6
              /\ ScheduleSuggestion.confidence_score s
                 = (if is_weekend (week_start + day_offset * us_per_day)
                    then 8 # 10 else 6 # 10)
              /\ ScheduleSuggestion.reason s
                 = ("Free time on " ++ strftime_A (week_start + day_offset * us_per_day)
                    ++ " during your preferred hours")%string
              /\ (0 <= UserPreferences.shopping_duration_minutes preferences ->
                  ScheduleSuggestion.confidence_score s
                  = (if is_weekend (ScheduleSuggestion.suggested_time s)
                     then 8 # 10 else 6 # 10))) l
  /\ (forall l1 a l2 b l3,
         l = l1 ++ a :: l2 ++ b :: l3 ->
         ScheduleSuggestion.confidence_score a = 6 # 10 ->
         ScheduleSuggestion.confidence_score b = 6 # 10).
Proof.
  intros H. pose proof (generate_emitted _ _ _ _ _ _ H) as Em. split.
  - eapply Forall_impl; [| exact Em]. intros s Hs.
    destruct (emitted_same_day _ _ _ _ _ Hs) as (day_offset & Hd & Hc & Hr & Hday).
    exists day_offset. split; [exact Hd |]. split; [exact Hc |]. split; [exact Hr |].
    intros Dn. rewrite Hc. symmetry. apply confidence_of_same_day. exact (Hday Dn).
  - intros l1 a l2 b l3 El Ha.
    apply generate_Done in H as (suggestions & _ & Hl).
    assert (S : descending ScheduleSuggestion.confidence_score l).
    { rewrite Hl. apply StronglySorted_firstn. apply sorted_reverse_descending. }
    rewrite El in S. apply StronglySorted_before in S. rewrite Ha in S.
    rewrite Forall_forall in Em.
    assert (Ib : In b l).
    { rewrite El. apply in_or_app. right. right. apply in_or_app. right. left. reflexivity. }
    destruct (emitted_same_day _ _ _ _ _ (Em b Ib)) as (day_offset & _ & Hc & _).
    rewrite Hc in *. unfold confidence_of in *.
    destruct (is_weekend _); [| reflexivity].
    exfalso. revert S. unfold confidence_weekend. apply Qlt_not_le. reflexivity.
Qed.

Lemma C7_confidence_by_weekday_witness :
  let preferences :=
    sample_preferences 60 [PreferredHours.mk "09:00" "10:00" [FRIDAY; SATURDAY]] in
  let l := result_of (generate_schedule_suggestions sample_uuid4 30 [] preferences
                        monday_2024_01_01) in
  Forall (fun s =>
            exists day_offset,
              0 <= day_offset <= 6
              /\ ScheduleSuggestion.confidence_score s
                 = (if is_weekend (monday_2024_01_01 + day_offset * us_per_day)
                    then 8 # 10 else 6 # 10)
              /\ ScheduleSuggestion.reason s
                 = ("Free time on " ++ strftime_A (monday_2024_01_01 + day_offset * us_per_day)
                    ++ " during your preferred hours")%string
              /\ (0 <= UserPreferences.shopping_duration_minutes preferences ->
                  ScheduleSuggestion.confidence_score s
                  = (if is_weekend (ScheduleSuggestion.suggested_time s)
                     then 8 # 10 else 6 # 10))) l
  /\ (forall l1 a l2 b l3,
         l = l1 ++ a :: l2 ++ b :: l3 ->
         ScheduleSuggestion.confidence_score a = 6 # 10 ->
         ScheduleSuggestion.confidence_score b = 6 # 10).
Proof.
  intros preferences l.
  apply (C7_confidence_by_weekday sample_uuid4 30 [] preferences monday_2024_01_01 l).
  vm_compute. reflexivity.
Defined.

(** C5, as the code has it: the list returned has at most 5 elements; it
    is the first 5 of the suggestions collected, sorted stably by
    confidence in descending order, which is a permutation of them in
    which the suggestions of any one confidence keep the order of their
    discovery; and that order is by day of the scanned week, then by
    window in the order the preferences list the windows, then by hour
    within the window, then by store as the store lookup lists them. *)
Theorem C5_ranked_top_five (uuid4 : nat -> string) (fuel : nat)
    (calendar : list CalendarEvent.t) (preferences : UserPreferences.t)
    (week_start : datetime) (l : list ScheduleSuggestion.t) :
  generate_schedule_suggestions uuid4 fuel calendar preferences week_start = Done l ->
  exists suggestions,
    let ranked := sorted_reverse ScheduleSuggestion.confidence_score suggestions in
    collect_suggestions uuid4 calendar preferences fuel week_start = Done suggestions
    /\ map slot_of suggestions = discovery_order calendar preferences week_start
    /\ l = firstn 5 ranked
    /\ (List.length l <= 5)%nat
    /\ descending ScheduleSuggestion.confidence_score l
    /\ Permutation suggestions ranked
    /\ descending ScheduleSuggestion.confidence_score ranked
    /\ (forall q,
           filter (fun s => Qeq_bool (ScheduleSuggestion.confidence_score s) q) ranked
           = filter (fun s => Qeq_bool (ScheduleSuggestion.confidence_score s) q) suggestions).
Proof.
  intros H. apply generate_Done in H as (suggestions & C & ->).
  exists suggestions. cbv zeta.
  split; [exact C |].
  split; [exact (collect_suggestions_slots _ _ _ _ _ _ C) |].
  split; [reflexivity |].
  split; [apply firstn_le_length |].
  split; [apply StronglySorted_firstn, sorted_reverse_descending |].
  split; [apply sorted_reverse_perm |].
  split; [apply sorted_reverse_descending |].
  intros q. apply sorted_reverse_stable.
Qed.

Lemma C5_ranked_top_five_witness :
  let preferences :=
    sample_preferences 60 [PreferredHours.mk "09:00" "11:00" [FRIDAY; SATURDAY]] in
  exists suggestions,
    let ranked := sorted_reverse ScheduleSuggestion.confidence_score suggestions in
    collect_suggestions sample_uuid4 [] preferences 30 monday_2024_01_01 = Done suggestions
    /\ map slot_of suggestions = discovery_order [] preferences monday_2024_01_01
    /\ result_of (generate_schedule_suggestions sample_uuid4 30 [] preferences
                    monday_2024_01_01) = firstn 5 ranked
    /\ (List.length (result_of (generate_schedule_suggestions sample_uuid4 30 [] preferences
                                  monday_2024_01_01)) <= 5)%nat
    /\ descending ScheduleSuggestion.confidence_score
         (result_of (generate_schedule_suggestions sample_uuid4 30 [] preferences
                       monday_2024_01_01))
    /\ Permutation suggestions ranked
    /\ descending ScheduleSuggestion.confidence_score ranked
    /\ (forall q,
           filter (fun s => Qeq_bool (ScheduleSuggestion.confidence_score s) q) ranked
           = filter (fun s => Qeq_bool (ScheduleSuggestion.confidence_score s) q) suggestions).
Proof.
  intros preferences.
  apply (C5_ranked_top_five sample_uuid4 30 [] preferences monday_2024_01_01).
  vm_compute. reflexivity.
Defined.

(** C5, as the claim has it, fails on the code: with the afternoon window
    listed before the morning window of the same Saturday, the result puts
    the 14:00 slot before the 09:00 slot of the same day and the same
    confidence. *)
Lemma C5_counterexample :
  let preferences :=
    sample_preferences 60 [PreferredHours.mk "14:00" "15:00" [SATURDAY];
                           PreferredHours.mk "09:00" "10:00" [SATURDAY]] in
  map (fun s => (ScheduleSuggestion.suggested_time s,
                 ScheduleSuggestion.confidence_score s,
                 GroceryStore.id (ScheduleSuggestion.store s)))
      (result_of (generate_schedule_suggestions sample_uuid4 30 [] preferences
                    monday_2024_01_01))
  = [ (instant monday_2024_01_01 5 14 0, 8 # 10, "1");
      (instant monday_2024_01_01 5 14 0, 8 # 10, "2");
      (instant monday_2024_01_01 5 9 0, 8 # 10, "1");
      (instant monday_2024_01_01 5 9 0, 8 # 10, "2") ].
Proof. vm_compute. reflexivity. Qed.

(** ** The candidates of a day *)

Lemma for_each_Done_each {A S : Type} (body : S -> A -> outcome S) (l : list A) :
  forall s s', for_each body l s = Done s' ->
  forall x, In x l -> exists s1 s2, body s1 x = Done s2.
Proof.
  induction l as [| y l IH]; intros s s' H x Hx; [destruct Hx |].
  simpl in H. apply bind_Done in H as (s1 & H1 & H2). destruct Hx as [<- | Hx].
  - exists s, s1. exact H1.
  - exact (IH _ _ H2 x Hx).
Qed.

Lemma matching_windows_spec (preferences : UserPreferences.t) (current_date : datetime)
    (ph : PreferredHours.t) :
  In ph (matching_windows preferences current_date)
  <-> In ph (UserPreferences.preferred_hours preferences)
      /\ exists day, In day (PreferredHours.days ph) /\ weekday current_date = weekday_of day.
Proof.
  unfold matching_windows. rewrite filter_In, day_name_in_days, existsb_exists.
  split; intros [H (day & Hday & E)]; (split; [exact H |]); exists day;
    (split; [exact Hday |]).
  - apply Z.eqb_eq. exact E.
  - apply Z.eqb_eq. exact E.
Qed.

(** C6: on each day of the week, for each window whose days name that
    day's weekday, the candidates scanned are the window's start and every
    whole hour after it, as long as the slot of the shopping duration
    ends no later than the window's end; a slot that ends exactly at the
    end is in, the first that ends after it and all later ones are out,
    and a duration longer than the window leaves it without candidate.
    What the day adds to the suggestions is, window by window and
    candidate by candidate, one suggestion per nearby store for each
    candidate free of conflict. *)
Theorem C6_hourly_candidates_within_window (uuid4 : nat -> string) (fuel : nat)
    (events : list CalendarEvent.t) (preferences : UserPreferences.t)
    (week_start : datetime) (suggestions : list ScheduleSuggestion.t) (day_offset : Z)
    (l : list ScheduleSuggestion.t) :
  0 <= day_offset <= 6 ->
  day_body uuid4 preferences fuel events week_start suggestions day_offset = Done l ->
  let current_date := week_start + day_offset * us_per_day in
  let d := minutes (UserPreferences.shopping_duration_minutes preferences) in
  (forall ph,
      In ph (matching_windows preferences current_date)
      <-> In ph (UserPreferences.preferred_hours preferences)
          /\ exists day, In day (PreferredHours.days ph)
                         /\ weekday current_date = weekday_of day)
  /\ map slot_of l
     = map slot_of suggestions
       ++ flat_map (fun ph =>
                      flat_map (fun t =>
                                  if slot_free events t (t + d)
                                  then map (pair t)
                                           (find_nearby_stores
                                              (UserPreferences.home_address preferences))
                                  else [])
                               (window_candidates
                                  (combine (date current_date)
                                           (parsed (PreferredHours.start_time ph)))
                                  (combine (date current_date)
                                           (parsed (PreferredHours.end_time ph)))
                                  d))
                   (matching_windows preferences current_date)
  /\ (forall ph, In ph (matching_windows preferences current_date) -> readable ph)
  /\ (forall start stop t,
         In t (window_candidates start stop d)
         <-> exists k, 0 <= k /\ t = start + k * us_per_hour /\ t + d <= stop)
  /\ (forall start stop, stop - start < d -> window_candidates start stop d = []).
Proof.
  intros Hd H current_date d. split; [| split; [| split; [| split]]].
  - intros ph. apply matching_windows_spec.
  - exact (day_body_slots _ _ _ _ _ _ _ _ Hd H).
  - intros ph Hph. apply day_body_Done in H as [_ H]; [| exact Hd].
    destruct (for_each_Done_each _ _ _ _ H ph Hph) as (s1 & s2 & Hw).
    apply window_body_Done in Hw as (st & et & Hst & Het & _).
    split; [exists st | exists et]; assumption.
  - intros start stop t. apply In_window_candidates.
  - intros start stop Hlt. apply window_candidates_nil. zlia.
Qed.

Lemma C6_hourly_candidates_within_window_witness :
  let preferences := sample_preferences 60 [saturday_morning] in
  let events := [event_until_0959 monday_2024_01_01] in
  let l := result_of (day_body sample_uuid4 preferences 30 events monday_2024_01_01 [] 5) in
  window_candidates (instant monday_2024_01_01 5 9 0) (instant monday_2024_01_01 5 11 0)
                    (minutes 60)
  = [instant monday_2024_01_01 5 9 0; instant monday_2024_01_01 5 10 0]
  /\ map slot_of l
     = map (pair (instant monday_2024_01_01 5 10 0)) (find_nearby_stores "1 Home St").
Proof.
  intros preferences events l.
  split; [vm_compute; reflexivity |].
  assert (Hd : 0 <= 5 <= 6) by lia.
  assert (Hl : day_body sample_uuid4 preferences 30 events monday_2024_01_01 [] 5 = Done l)
    by (vm_compute; reflexivity).
  rewrite (proj1 (proj2 (C6_hourly_candidates_within_window sample_uuid4 30 events preferences
                           monday_2024_01_01 [] 5 l Hd Hl))).
  vm_compute. reflexivity.
Defined.

(** ** The calendar and the ISO texts *)

(** A year, counted in cycles of 400, 100, 4 and 1 years, and the days
    before it. *)
Lemma days_before_year_decomposed (n400 n100 n4 n1 : Z) :
  0 <= n100 <= 3 -> 0 <= n4 <= 24 -> 0 <= n1 <= 3 ->
  days_before_year (n400 * 400 + 1 + n100 * 100 + n4 * 4 + n1)
  = n400 * 146097 + n100 * 36524 + n4 * 1461 + n1 * 365.
Proof.
  intros H100 H4 H1. unfold days_before_year. cbv zeta.
  replace (n400 * 400 + 1 + n100 * 100 + n4 * 4 + n1 - 1)
    with (n400 * 400 + n100 * 100 + n4 * 4 + n1) by lia.
  assert (E4 : (n400 * 400 + n100 * 100 + n4 * 4 + n1) / 4 = n400 * 100 + n100 * 25 + n4).
  { symmetry. apply (Z.div_unique_pos _ 4 _ n1); lia. }
  assert (E100 : (n400 * 400 + n100 * 100 + n4 * 4 + n1) / 100 = n400 * 4 + n100).
  { symmetry. apply (Z.div_unique_pos _ 100 _ (n4 * 4 + n1)); lia. }
  assert (E400 : (n400 * 400 + n100 * 100 + n4 * 4 + n1) / 400 = n400).
  { symmetry. apply (Z.div_unique_pos _ 400 _ (n100 * 100 + n4 * 4 + n1)); lia. }
  rewrite E4, E100, E400. lia.
Qed.

(** The leap years are the last of a 4-year cycle, the last of a century
    excepted unless it is the last of 400 years. *)
Lemma is_leap_decomposed (n400 n100 n4 n1 : Z) :
  0 <= n100 <= 3 -> 0 <= n4 <= 24 -> 0 <= n1 <= 3 ->
  is_leap (n400 * 400 + 1 + n100 * 100 + n4 * 4 + n1)
  = (n1 =? 3) && (negb (n4 =? 24) || (n100 =? 3)).
Proof.
  intros H100 H4 H1. unfold is_leap.
  set (y := n400 * 400 + 1 + n100 * 100 + n4 * 4 + n1).
  assert (M4 : y mod 4 = (n1 + 1) mod 4).
  { unfold y. replace (n400 * 400 + 1 + n100 * 100 + n4 * 4 + n1)
      with ((n1 + 1) + (n400 * 100 + n100 * 25 + n4) * 4) by lia.
    apply Z.mod_add. discriminate. }
  assert (M100 : y mod 100 = (n4 * 4 + n1 + 1) mod 100).
  { unfold y. replace (n400 * 400 + 1 + n100 * 100 + n4 * 4 + n1)
      with ((n4 * 4 + n1 + 1) + (n400 * 4 + n100) * 100) by lia.
    apply Z.mod_add. discriminate. }
  assert (M400 : y mod 400 = (n100 * 100 + n4 * 4 + n1 + 1) mod 400).
  { unfold y. replace (n400 * 400 + 1 + n100 * 100 + n4 * 4 + n1)
      with ((n100 * 100 + n4 * 4 + n1 + 1) + n400 * 400) by lia.
    apply Z.mod_add. discriminate. }
  rewrite M4, M100, M400.
  assert (C1 : n1 = 0 \/ n1 = 1 \/ n1 = 2 \/ n1 = 3) by lia.
  destruct C1 as [-> | [-> | [-> | ->]]]; cbn [Z.eqb andb]; try reflexivity;
    try (rewrite Z.mod_small by lia; reflexivity).
  change ((3 + 1) mod 4 =? 0) with true. cbn [andb].
  destruct (Z.eqb_spec n4 24) as [-> | N4]; cbn [negb orb].
  - assert (C100 : n100 = 0 \/ n100 = 1 \/ n100 = 2 \/ n100 = 3) by lia.
    destruct C100 as [-> | [-> | [-> | ->]]]; reflexivity.
  - assert (L : 0 < n4 * 4 + 3 + 1 < 100) by lia.
    rewrite (Z.mod_small (n4 * 4 + 3 + 1) 100) by lia.
    destruct (Z.eqb_spec (n4 * 4 + 3 + 1) 0); [lia | reflexivity].
Qed.

(** [month_day] is checked on the 365 days it is called on. *)
Lemma month_day_checked (leap : bool) :
  forallb (fun k => month_day_ok leap (Z.of_nat k)) (seq 0 365) = true.
Proof. destruct leap; vm_compute; reflexivity. Qed.

Lemma month_day_spec (leap : bool) (r : Z) :
  0 <= r < 365 -> month_day_ok leap r = true.
Proof.
  intros Hr. pose proof (month_day_checked leap) as C.
  rewrite forallb_forall in C. specialize (C (Z.to_nat r)).
  rewrite Z2Nat.id in C by lia. apply C. apply in_seq. lia.
Qed.

Ltac december :=
  change (nth (Z.to_nat (12 - 1)) DAYS_IN_MONTH 0) with 31;
  change (nth (Z.to_nat (12 - 1)) DAYS_BEFORE_MONTH 0) with 334;
  change (12 =? 2) with false; change (2 <? 12) with true;
  change (3 =? 3) with true; change (24 =? 24) with true;
  cbn [andb orb negb].

(** [_ord2ymd] gives a date of the calendar, and [_ymd2ord] gives its
    day number back. *)
Lemma ord2ymd_spec (n : Z) :
  1 <= n <= MAXORDINAL ->
  let '(y, m, d) := ord2ymd n in
  1 <= y <= 9999 /\ 1 <= m <= 12 /\ 1 <= d <= days_in_month y m /\ ymd2ord y m d = n.
Proof.
  intros Hn. unfold ord2ymd, MAXORDINAL in *. cbv zeta.
  pose proof (Z.div_mod (n - 1) 146097 ltac:(discriminate)) as E400.
  pose proof (Z.mod_pos_bound (n - 1) 146097 ltac:(reflexivity)) as B400.
  set (n400 := (n - 1) / 146097) in *. set (r400 := (n - 1) mod 146097) in *.
  pose proof (Z.div_mod r400 36524 ltac:(discriminate)) as E100.
  pose proof (Z.mod_pos_bound r400 36524 ltac:(reflexivity)) as B100.
  set (n100 := r400 / 36524) in *. set (r100 := r400 mod 36524) in *.
  pose proof (Z.div_mod r100 1461 ltac:(discriminate)) as E4.
  pose proof (Z.mod_pos_bound r100 1461 ltac:(reflexivity)) as B4.
  set (n4 := r100 / 1461) in *. set (r4 := r100 mod 1461) in *.
  pose proof (Z.div_mod r4 365 ltac:(discriminate)) as E1.
  pose proof (Z.mod_pos_bound r4 365 ltac:(reflexivity)) as B1.
  set (n1 := r4 / 365) in *. set (r := r4 mod 365) in *.
  assert (N400 : 0 <= n400 <= 24) by lia.
  assert (N100 : 0 <= n100 <= 4) by lia.
  assert (N4 : 0 <= n4 <= 24) by lia.
  assert (N1 : 0 <= n1 <= 4) by lia.
  destruct (Z.eqb_spec n1 4) as [H1 | H1]; cbn [orb].
  - (* the last day of a leap year that ends a 4-year cycle *)
    assert (L4 : n4 <= 23) by lia. assert (L100 : n100 <= 3) by lia.
    replace (n400 * 400 + 1 + n100 * 100 + n4 * 4 + n1 - 1)
      with (n400 * 400 + 1 + n100 * 100 + n4 * 4 + 3) by lia.
    unfold ymd2ord, days_in_month, days_before_month.
    rewrite is_leap_decomposed, days_before_year_decomposed by lia.
    destruct (Z.eqb_spec n4 24); [lia |]. december. lia.
  - destruct (Z.eqb_spec n100 4) as [H100 | H100].
    + (* the last day of a 400-year cycle *)
      assert (n4 = 0 /\ n1 = 0) as [Z4 Z1] by lia.
      replace (n400 * 400 + 1 + n100 * 100 + n4 * 4 + n1 - 1)
        with (n400 * 400 + 1 + 3 * 100 + 24 * 4 + 3) by lia.
      unfold ymd2ord, days_in_month, days_before_month.
      rewrite is_leap_decomposed, days_before_year_decomposed by lia.
      december. lia.
    + pose proof (month_day_spec ((n1 =? 3) && (negb (n4 =? 24) || (n100 =? 3))) r B1) as M.
      unfold month_day_ok in M.
      destruct (month_day _ r) as [m d].
      unfold ymd2ord, days_in_month, days_before_month.
      rewrite is_leap_decomposed, days_before_year_decomposed by lia.
      repeat (apply andb_true_iff in M as [M ?]).
      repeat match goal with
             | H : (_ <=? _) = true |- _ => apply Z.leb_le in H
             | H : (_ =? _) = true |- _ => apply Z.eqb_eq in H
             end.
      lia.
Qed.

Lemma append_assoc (a b c : string) : ((a ++ b) ++ c = a ++ (b ++ c))%string.
Proof. induction a as [| x a IH]; simpl; [reflexivity | rewrite IH; reflexivity]. Qed.

Lemma append_nil_r (a : string) : (a ++ "" = a)%string.
Proof. induction a as [| x a IH]; simpl; [reflexivity | rewrite IH; reflexivity]. Qed.

Lemma digit_char_spec (n : Z) :
  is_digit (digit_char n) = true /\ digit_value (digit_char n) = n mod 10.
Proof.
  unfold digit_char.
  pose proof (Z.mod_pos_bound n 10 ltac:(reflexivity)) as B.
  assert (C : n mod 10 = 0 \/ n mod 10 = 1 \/ n mod 10 = 2 \/ n mod 10 = 3 \/ n mod 10 = 4
              \/ n mod 10 = 5 \/ n mod 10 = 6 \/ n mod 10 = 7 \/ n mod 10 = 8
              \/ n mod 10 = 9) by lia.
  repeat (destruct C as [C | C]; [rewrite C; split; reflexivity |]).
  rewrite C. split; reflexivity.
Qed.

(** Reading one digit more, seen from the last digit. *)
Lemma read_digits_snoc (w : nat) :
  forall (acc : Z) (s : string),
    read_digits (S w) acc s
    = option_bind (read_digits w acc s) (fun '(a, s') =>
        match s' with
        | String c rest => if is_digit c then Some (10 * a + digit_value c, rest) else None
        | EmptyString => None
        end).
Proof.
  induction w as [| w IH]; intros acc s.
  - reflexivity.
  - change (read_digits (S (S w)) acc s)
      with (match s with
            | String c rest =>
                if is_digit c then read_digits (S w) (10 * acc + digit_value c) rest else None
            | EmptyString => None
            end).
    destruct s as [| c rest]; [reflexivity |]. simpl read_digits at 2.
    destruct (is_digit c); [apply IH | reflexivity].
Qed.

(** What is printed in [width] digits is read back. *)
Lemma read_digits_zero_padded (w : nat) :
  forall (n acc : Z) (rest : string),
    0 <= n < 10 ^ Z.of_nat w ->
    read_digits w acc (zero_padded w n ++ rest) = Some (acc * 10 ^ Z.of_nat w + n, rest).
Proof.
  induction w as [| w IH]; intros n acc rest Hn.
  - simpl in *. f_equal. f_equal. lia.
  - rewrite read_digits_snoc. cbn [zero_padded]. rewrite append_assoc.
    rewrite Nat2Z.inj_succ, Z.pow_succ_r in * by lia.
    rewrite IH by (split; [apply Z.div_pos; lia | apply Z.div_lt_upper_bound; lia]).
    cbn [option_bind append].
    destruct (digit_char_spec n) as [-> ->].
    f_equal. f_equal.
    pose proof (Z.div_mod n 10 ltac:(discriminate)). lia.
Qed.

Lemma expect_append (c : ascii) (s : string) :
  expect c (String c EmptyString ++ s) = Some s.
Proof. simpl. rewrite Ascii.eqb_refl. reflexivity. Qed.

(** Hours, minutes, seconds and microseconds of an instant of a day. *)
Lemma time_of_day_fields (rest : Z) :
  0 <= rest < us_per_day ->
  let hh := rest / us_per_hour in
  let mm := rest mod us_per_hour / us_per_minute in
  let ss := rest mod us_per_minute / 1000000 in
  let us := rest mod 1000000 in
  0 <= hh < 24 /\ 0 <= mm < 60 /\ 0 <= ss < 60 /\ 0 <= us < 1000000
  /\ hh * us_per_hour + mm * us_per_minute + ss * 1000000 + us = rest.
Proof.
  unfold us_per_day, us_per_hour, us_per_minute. intros H. cbv zeta.
  pose proof (Z.div_mod rest 3600000000 ltac:(discriminate)).
  pose proof (Z.mod_pos_bound rest 3600000000 ltac:(reflexivity)).
  pose proof (Z.div_mod (rest mod 3600000000) 60000000 ltac:(discriminate)).
  pose proof (Z.mod_pos_bound (rest mod 3600000000) 60000000 ltac:(reflexivity)).
  pose proof (Z.div_mod rest 60000000 ltac:(discriminate)).
  pose proof (Z.mod_pos_bound rest 60000000 ltac:(reflexivity)).
  pose proof (Z.div_mod (rest mod 60000000) 1000000 ltac:(discriminate)).
  pose proof (Z.mod_pos_bound (rest mod 60000000) 1000000 ltac:(reflexivity)).
  pose proof (Z.div_mod rest 1000000 ltac:(discriminate)).
  pose proof (Z.mod_pos_bound rest 1000000 ltac:(reflexivity)).
  assert (M1 : (rest mod 3600000000) mod 60000000 = rest mod 60000000).
  { clear. Z.to_euclidean_division_equations. lia. }
  assert (M2 : (rest mod 60000000) mod 1000000 = rest mod 1000000).
  { clear. Z.to_euclidean_division_equations. lia. }
  pose proof (Z.div_mod (rest mod 3600000000) 60000000 ltac:(discriminate)).
  rewrite M1 in *. rewrite M2 in *.
  repeat split; lia.
Qed.

Lemma days_in_month_le (y m : Z) : 1 <= m <= 12 -> days_in_month y m <= 31.
Proof.
  intros Hm. unfold days_in_month. destruct ((m =? 2) && is_leap y); [lia |].
  assert (C : m = 1 \/ m = 2 \/ m = 3 \/ m = 4 \/ m = 5 \/ m = 6 \/ m = 7 \/ m = 8
              \/ m = 9 \/ m = 10 \/ m = 11 \/ m = 12) by lia.
  repeat (destruct C as [-> | C]; [vm_compute; discriminate |]).
  subst m. vm_compute. discriminate.
Qed.

Ltac pow10 :=
  change (10 ^ Z.of_nat 2) with 100; change (10 ^ Z.of_nat 4) with 10000;
  change (10 ^ Z.of_nat 6) with 1000000; lia.

(** [fromisoformat] is the inverse of [isoformat] on every datetime. *)
Lemma fromisoformat_isoformat (t : datetime) :
  0 <= t < MAXORDINAL * us_per_day -> fromisoformat (isoformat t) = Some t.
Proof.
  intros Ht. unfold isoformat.
  pose proof (date_lower t) as Dt.
  assert (Hd : 1 <= date t + 1 <= MAXORDINAL).
  { unfold date. split.
    - assert (0 <= t / us_per_day) by (apply Z.div_pos; [lia | reflexivity]). lia.
    - assert (t / us_per_day < MAXORDINAL)
        by (apply Z.div_lt_upper_bound; [reflexivity | lia]).
      lia. }
  pose proof (ord2ymd_spec (date t + 1) Hd) as O.
  destruct (ord2ymd (date t + 1)) as [[y m] d].
  destruct O as (Hy & Hm & Hdd & Ho).
  pose proof (Z.mod_pos_bound t us_per_day ltac:(reflexivity)) as Hr.
  pose proof (time_of_day_fields (t mod us_per_day) Hr) as F. cbv zeta in F.
  pose proof (Z.div_mod t us_per_day ltac:(discriminate)) as Et.
  set (rest := t mod us_per_day) in *.
  set (hh := rest / us_per_hour) in *.
  set (mm := rest mod us_per_hour / us_per_minute) in *.
  set (ss := rest mod us_per_minute / 1000000) in *.
  set (us := rest mod 1000000) in *.
  destruct F as (Hhh & Hmm & Hss & Hus & Esum).
  pose proof (days_in_month_le y m Hm) as Hd31.
  unfold fromisoformat.
  rewrite read_digits_zero_padded by pow10. cbn [option_bind].
  rewrite expect_append. cbn [option_bind].
  rewrite read_digits_zero_padded by pow10. cbn [option_bind].
  rewrite expect_append. cbn [option_bind].
  rewrite read_digits_zero_padded by pow10. cbn [option_bind].
  rewrite expect_append. cbn [option_bind].
  rewrite read_digits_zero_padded by pow10. cbn [option_bind].
  rewrite expect_append. cbn [option_bind].
  rewrite read_digits_zero_padded by pow10. cbn [option_bind].
  rewrite expect_append. cbn [option_bind].
  rewrite read_digits_zero_padded by pow10. cbn [option_bind].
  replace (0 * 10 ^ Z.of_nat 4 + y) with y by lia.
  replace (0 * 10 ^ Z.of_nat 2 + m) with m by lia.
  replace (0 * 10 ^ Z.of_nat 2 + d) with d by lia.
  replace (0 * 10 ^ Z.of_nat 2 + hh) with hh by lia.
  replace (0 * 10 ^ Z.of_nat 2 + mm) with mm by lia.
  replace (0 * 10 ^ Z.of_nat 2 + ss) with ss by lia.
  assert (V : (1 <=? y) && (1 <=? m) && (m <=? 12) && (1 <=? d) && (d <=? days_in_month y m)
              && (hh <? 24) && (mm <? 60) && (ss <? 60) = true).
  { repeat (apply andb_true_iff; split);
      first [apply Z.leb_le; lia | apply Z.ltb_lt; lia]. }
  assert (Final : (ymd2ord y m d - 1) * us_per_day + hh * us_per_hour + mm * us_per_minute
                  + ss * 1000000 + us = t).
  { rewrite Ho. unfold date in *. lia. }
  destruct (Z.eqb_spec us 0) as [Hz | Hnz].
  - cbn [option_bind]. rewrite V. apply f_equal. unfold datetime in *. lia.
  - change ("." ++ zero_padded 6 us)%string with (String "." (zero_padded 6 us)).
    cbv iota. rewrite <- (append_nil_r (zero_padded 6 us)).
    change (String "." (zero_padded 6 us ++ ""))%string
      with (String "." EmptyString ++ (zero_padded 6 us ++ ""))%string.
    rewrite expect_append. cbn [option_bind].
    rewrite read_digits_zero_padded by pow10. cbn [option_bind].
    replace (0 * 10 ^ Z.of_nat 6 + us) with us by lia.
    rewrite V. apply f_equal. exact Final.
Qed.

(** ** Storing and loading a schedule *)

Ltac decide_keys :=
  repeat match goal with
         | |- context [endswith ?k ?suffix] =>
             let b := eval vm_compute in (endswith k suffix) in
             change (endswith k suffix) with b
         end;
  cbn [orb].

(** A suggestion comes back as it was: its one datetime is under a key
    that ends in [_time], and none of its texts is. *)
Lemma suggestion_round_trip (s : ScheduleSuggestion.t) :
  datetime_in_range (ScheduleSuggestion.suggested_time s) = true ->
  parse_from_mongo (prepare_for_mongo (ScheduleSuggestion_dict s)) = ScheduleSuggestion_dict s.
Proof.
  intros R. unfold datetime_in_range in R. apply andb_true_iff in R as [R0 R1].
  apply Z.leb_le in R0. apply Z.ltb_lt in R1.
  unfold ScheduleSuggestion_dict.
  cbn [dict_of_items prepare_for_mongo parse_from_mongo]. decide_keys.
  rewrite fromisoformat_isoformat by (split; assumption). reflexivity.
Qed.

(** C9: a schedule stored with [prepare_for_mongo] and loaded with
    [parse_from_mongo] has the suggestions it had, as the same
    dictionaries in the same order, with their times, scores and stores;
    the whole dictionary is the one stored from, except that [week_start]
    is still its ISO text. *)
Theorem C9_schedule_round_trip (w : WeeklySchedule.t) :
  datetime_in_range (WeeklySchedule.created_at w) = true ->
  Forall (fun s => datetime_in_range (ScheduleSuggestion.suggested_time s) = true)
         (WeeklySchedule.suggestions w) ->
  let loaded := parse_from_mongo (prepare_for_mongo (WeeklySchedule_dict w)) in
  dict_get "suggestions" loaded = dict_get "suggestions" (WeeklySchedule_dict w)
  /\ dict_get "suggestions" loaded
     = Some (VList (map (fun s => VDict (ScheduleSuggestion_dict s))
                        (WeeklySchedule.suggestions w)))
  /\ loaded = WeeklySchedule_reloaded w.
Proof.
  intros Rc Rs loaded.
  assert (E : loaded = WeeklySchedule_reloaded w).
  { unfold loaded, WeeklySchedule_dict, WeeklySchedule_reloaded.
    unfold datetime_in_range in Rc. apply andb_true_iff in Rc as [R0 R1].
    apply Z.leb_le in R0. apply Z.ltb_lt in R1.
    destruct (WeeklySchedule.approved_suggestion_id w) as [a |];
      cbn [dict_of_items prepare_for_mongo parse_from_mongo VOptional]; decide_keys;
      rewrite fromisoformat_isoformat by (split; assumption);
      rewrite !map_map;
      (do 3 f_equal); f_equal; f_equal;
      apply map_ext_in; intros s Hs; rewrite Forall_forall in Rs;
      rewrite (suggestion_round_trip s (Rs s Hs)); reflexivity. }
  rewrite E. split; [reflexivity |]. split; reflexivity.
Qed.

Lemma C9_schedule_round_trip_witness :
  let w := sample_schedule None "pending" in
  let loaded := parse_from_mongo (prepare_for_mongo (WeeklySchedule_dict w)) in
  dict_get "suggestions" loaded = dict_get "suggestions" (WeeklySchedule_dict w)
  /\ dict_get "suggestions" loaded
     = Some (VList (map (fun s => VDict (ScheduleSuggestion_dict s))
                        (WeeklySchedule.suggestions w)))
  /\ loaded = WeeklySchedule_reloaded w.
Proof.
  apply (C9_schedule_round_trip (sample_schedule None "pending")).
  - vm_compute. reflexivity.
  - cbv [sample_schedule WeeklySchedule.suggestions].
    set (l := result_of _). vm_compute in l. subst l.
    repeat constructor.
Defined.

(** The text that stays in [week_start]. *)
Example week_start_stays_text :
  dict_get "week_start"
    (parse_from_mongo (prepare_for_mongo (WeeklySchedule_dict (sample_schedule None "pending"))))
  = Some (VStr "2024-01-01T00:00:00").
Proof. vm_compute. reflexivity. Qed.

(** ** Approval *)

(** What the route answers, from the first schedule with the identifier. *)
Lemma approve_suggestion_answer (schedule_id suggestion_id : string)
    (weekly_schedules : list WeeklySchedule.t) :
  fst (approve_suggestion schedule_id suggestion_id weekly_schedules)
  = match find (fun doc => String.eqb (WeeklySchedule.id doc) schedule_id) weekly_schedules with
    | Some doc =>
        if changed_by_set suggestion_id doc
        then Done "Suggestion approved successfully"
        else Raised (HTTPException 404 "Schedule not found")
    | None => Raised (HTTPException 404 "Schedule not found")
    end.
Proof.
  unfold approve_suggestion.
  induction weekly_schedules as [| doc rest IH]; [reflexivity |].
  cbn [update_one find].
  destruct (String.eqb (WeeklySchedule.id doc) schedule_id).
  - cbn [modified_count]. destruct (changed_by_set suggestion_id doc); reflexivity.
  - destruct (update_one schedule_id suggestion_id rest) as [result rest'].
    cbn [fst] in *. destruct (modified_count result =? 0); exact IH.
Qed.

(** C8, where the code departs from it: a schedule that exists and already
    holds this suggestion as approved is answered with the 404 of a
    schedule that was not found, because the update changes nothing and
    the route reads [modified_count]. *)
Theorem C8_approved_again_is_not_found (schedule_id suggestion_id user_id : string)
    (week_start created_at : datetime) (suggestions : list ScheduleSuggestion.t)
    (rest : list WeeklySchedule.t) :
  let doc :=
    WeeklySchedule.mk schedule_id user_id week_start suggestions
      (Some suggestion_id) "approved" created_at in
  approve_suggestion schedule_id suggestion_id (doc :: rest)
  = (Raised (HTTPException 404 "Schedule not found"), doc :: rest).
Proof.
  intros doc. unfold approve_suggestion. cbn [update_one].
  unfold doc at 1. cbn [WeeklySchedule.id]. rewrite String.eqb_refl.
  unfold changed_by_set, doc.
  cbn [WeeklySchedule.approved_suggestion_id WeeklySchedule.status option_string_eqb].
  rewrite String.eqb_refl. reflexivity.
Qed.

(** * Further properties of the generator *)

Lemma for_each_unchanged {A S : Type} (body : S -> A -> outcome S) (l : list A) (s : S) :
  (forall x, In x l -> body s x = Done s) -> for_each body l s = Done s.
Proof.
  induction l as [| x l IH]; intros H; simpl; [reflexivity |].
  rewrite (H x (or_introl eq_refl)). cbn [bind].
  apply IH. intros y Hy. apply H. right; exact Hy.
Qed.

Lemma for_each_ext {A S : Type} (body1 body2 : S -> A -> outcome S) (l : list A) :
  (forall s x, In x l -> body1 s x = body2 s x) ->
  forall s, for_each body1 l s = for_each body2 l s.
Proof.
  induction l as [| x l IH]; intros H s; simpl; [reflexivity |].
  rewrite (H s x (or_introl eq_refl)).
  destruct (body2 s x) as [s' | e |]; cbn [bind]; try reflexivity.
  apply IH. intros s0 y Hy. apply H. right; exact Hy.
Qed.

(** X1: with no preferred window at all the generator returns the empty
    list, whatever the calendar and the fuel, as long as the week ends
    within the calendar. *)
Theorem X1_no_window_no_suggestion (uuid4 : nat -> string) (fuel : nat)
    (calendar : list CalendarEvent.t) (preferences : UserPreferences.t)
    (week_start : datetime) :
  UserPreferences.preferred_hours preferences = [] ->
  0 <= week_start /\ week_start + 7 * us_per_day < MAXORDINAL * us_per_day ->
  generate_schedule_suggestions uuid4 fuel calendar preferences week_start = Done [].
Proof.
  intros Hw Hr. unfold generate_schedule_suggestions, collect_suggestions.
  rewrite timedelta_days_small by lia. cbn [bind].
  rewrite datetime_add_in_range by (unfold us_per_day in *; zlia). cbn [bind].
  rewrite for_each_unchanged; [reflexivity |].
  intros day_offset Hd. apply in_week in Hd.
  rewrite day_body_eq, timedelta_days_small by lia. cbn [bind].
  rewrite datetime_add_in_range by (unfold us_per_day in *; zlia). cbn [bind].
  unfold matching_windows. rewrite Hw. reflexivity.
Qed.

Lemma X1_no_window_no_suggestion_witness :
  generate_schedule_suggestions sample_uuid4 0 [event_until_10 monday_2024_01_01]
    (sample_preferences 60 []) monday_2024_01_01 = Done [].
Proof.
  apply X1_no_window_no_suggestion.
  - reflexivity.
  - vm_compute. split; [discriminate | reflexivity].
Defined.

(** X2: with a duration that is not negative, windows whose times are all
    readable and a week that ends more than a day and the duration before
    the end of the calendar, the generator raises nothing: it returns a
    list. *)
Theorem X2_valid_input_returns (uuid4 : nat -> string) (fuel : nat)
    (calendar : list CalendarEvent.t) (preferences : UserPreferences.t)
    (week_start : datetime) :
  0 <= UserPreferences.shopping_duration_minutes preferences ->
  Forall readable (UserPreferences.preferred_hours preferences) ->
  0 <= week_start
  /\ week_start + 8 * us_per_day
     + minutes (UserPreferences.shopping_duration_minutes preferences)
     <= MAXORDINAL * us_per_day ->
  (enough_fuel preferences <= fuel)%nat ->
  exists l,
    generate_schedule_suggestions uuid4 fuel calendar preferences week_start = Done l
    /\ (List.length l <= 5)%nat.
Proof.
  intros Hd Hr Hw Hf.
  destruct (generate_returns uuid4 fuel calendar preferences week_start Hd Hr Hw Hf) as (l & H).
  exists l. split; [exact H |].
  apply generate_Done in H as (suggestions & _ & ->). apply firstn_le_length.
Qed.

Lemma X2_valid_input_returns_witness :
  exists l,
    generate_schedule_suggestions sample_uuid4 30 (MOCK_CALENDAR_EVENTS monday_2024_01_01)
      (sample_preferences 45 [saturday_morning; PreferredHours.mk "7:5" "23:59" [MONDAY]])
      monday_2024_01_01 = Done l
    /\ (List.length l <= 5)%nat.
Proof.
  apply X2_valid_input_returns.
  - simpl. lia.
  - repeat constructor; eexists; vm_compute; reflexivity.
  - vm_compute. split; discriminate.
  - vm_compute. lia.
Defined.

Lemma emitted_two_keys (uuid4 : nat -> string) (calendar : list CalendarEvent.t)
    (preferences : UserPreferences.t) (week_start : datetime) (s : ScheduleSuggestion.t) :
  emitted uuid4 calendar preferences week_start s ->
  ScheduleSuggestion.confidence_score s
  = if of_weekend s then confidence_weekend else confidence_weekday.
Proof.
  intros H. destruct (emitted_same_day _ _ _ _ _ H) as (day_offset & _ & Hc & _).
  unfold of_weekend. rewrite Hc. unfold confidence_of.
  destruct (is_weekend _); reflexivity.
Qed.

(** X3: the list returned is the first five of the suggestions of the
    weekend, in the order of their discovery, followed by the suggestions
    of the weekdays, in the order of their discovery. *)
Theorem X3_weekend_then_weekdays (uuid4 : nat -> string) (fuel : nat)
    (calendar : list CalendarEvent.t) (preferences : UserPreferences.t)
    (week_start : datetime) (l : list ScheduleSuggestion.t) :
  generate_schedule_suggestions uuid4 fuel calendar preferences week_start = Done l ->
  exists suggestions,
    collect_suggestions uuid4 calendar preferences fuel week_start = Done suggestions
    /\ map slot_of suggestions = discovery_order calendar preferences week_start
    /\ l = firstn 5 (filter of_weekend suggestions
                     ++ filter (fun s => negb (of_weekend s)) suggestions).
Proof.
  intros H. apply generate_Done in H as (suggestions & C & ->).
  exists suggestions. split; [exact C |].
  split; [exact (collect_suggestions_slots _ _ _ _ _ _ C) |].
  f_equal. apply (sorted_reverse_two_keys _ confidence_weekend confidence_weekday).
  - reflexivity.
  - eapply Forall_impl; [| exact (collect_suggestions_emitted _ _ _ _ _ _ C)].
    intros s. apply emitted_two_keys.
Qed.

Lemma X3_weekend_then_weekdays_witness :
  let preferences :=
    sample_preferences 60 [PreferredHours.mk "09:00" "11:00" [FRIDAY; SUNDAY]] in
  exists suggestions,
    collect_suggestions sample_uuid4 [] preferences 30 monday_2024_01_01 = Done suggestions
    /\ map slot_of suggestions = discovery_order [] preferences monday_2024_01_01
    /\ result_of (generate_schedule_suggestions sample_uuid4 30 [] preferences
                    monday_2024_01_01)
       = firstn 5 (filter of_weekend suggestions
                   ++ filter (fun s => negb (of_weekend s)) suggestions).
Proof.
  intros preferences.
  apply (X3_weekend_then_weekdays sample_uuid4 30 [] preferences monday_2024_01_01).
  vm_compute. reflexivity.
Defined.

(** X4: on a slot that does not end before it starts and an event that
    does not end before it starts, the three clauses of the conflict test
    say that the two closed intervals meet; an event that ends at the very
    instant the slot starts, or starts at the instant it ends, conflicts. *)
Theorem X4_conflict_is_closed_overlap (slot_start slot_end_time : datetime)
    (e : CalendarEvent.t) :
  slot_start <= slot_end_time ->
  CalendarEvent.start_time e <= CalendarEvent.end_time e ->
  conflict slot_start slot_end_time e = true <-> intersects slot_start slot_end_time e.
Proof.
  intros Hs He. unfold conflict, intersects.
  rewrite !orb_true_iff, !andb_true_iff, Z.geb_leb, !Z.leb_le. zlia.
Qed.

Lemma X4_conflict_is_closed_overlap_witness :
  conflict (instant monday_2024_01_01 5 10 0) (instant monday_2024_01_01 5 11 0)
    (event_until_10 monday_2024_01_01) = true
  <-> intersects (instant monday_2024_01_01 5 10 0) (instant monday_2024_01_01 5 11 0)
        (event_until_10 monday_2024_01_01).
Proof.
  apply X4_conflict_is_closed_overlap; vm_compute; discriminate.
Defined.

(** X5: an event whose start is outside the seven days from [week_start]
    blocks nothing, even if it is still running on the Monday: with it or
    without it in the calendar the generator gives the same. *)
Theorem X5_event_started_outside_week_ignored (uuid4 : nat -> string) (fuel : nat)
    (calendar : list CalendarEvent.t) (e : CalendarEvent.t)
    (preferences : UserPreferences.t) (week_start : datetime) :
  CalendarEvent.start_time e < week_start
  \/ week_start + 7 * us_per_day < CalendarEvent.start_time e ->
  generate_schedule_suggestions uuid4 fuel (e :: calendar) preferences week_start
  = generate_schedule_suggestions uuid4 fuel calendar preferences week_start.
Proof.
  intros Hout. unfold generate_schedule_suggestions, collect_suggestions.
  rewrite timedelta_days_small by lia. cbn [bind].
  destruct (datetime_add week_start (7 * us_per_day)) as [week_end | |] eqn:Hwe;
    cbn [bind]; try reflexivity.
  apply datetime_add_Done in Hwe as [-> _].
  assert (E : get_calendar_events (e :: calendar) (UserPreferences.user_id preferences)
                week_start (week_start + 7 * us_per_day)
              = get_calendar_events calendar (UserPreferences.user_id preferences)
                  week_start (week_start + 7 * us_per_day)).
  { unfold get_calendar_events. cbn [filter].
    destruct (Z.leb_spec week_start (CalendarEvent.start_time e));
      destruct (Z.leb_spec (CalendarEvent.start_time e) (week_start + 7 * us_per_day));
      cbn [andb]; try reflexivity. zlia. }
  rewrite E. reflexivity.
Qed.

Lemma X5_event_started_outside_week_ignored_witness :
  let preferences := sample_preferences 60 [PreferredHours.mk "08:00" "10:00" [MONDAY]] in
  let running :=
    sample_event (monday_2024_01_01 - us_per_hour) (instant monday_2024_01_01 0 12 0) in
  intersects (instant monday_2024_01_01 0 8 0) (instant monday_2024_01_01 0 9 0) running
  /\ List.length (result_of (generate_schedule_suggestions sample_uuid4 30 [] preferences
                               monday_2024_01_01)) = 4%nat
  /\ generate_schedule_suggestions sample_uuid4 30 [running] preferences monday_2024_01_01
     = generate_schedule_suggestions sample_uuid4 30 [] preferences monday_2024_01_01.
Proof.
  intros preferences running.
  split; [vm_compute; split; discriminate |]. split; [vm_compute; reflexivity |].
  apply X5_event_started_outside_week_ignored.
  left. vm_compute. reflexivity.
Defined.

(** ** What the generator reads of the preferences *)

Section SameDuration.

Variable uuid4 : nat -> string.
Variables p1 p2 : UserPreferences.t.
Hypothesis same_duration :
  UserPreferences.shopping_duration_minutes p1 = UserPreferences.shopping_duration_minutes p2.

Lemma suggest_same_duration (current_date : datetime) (day_name : string)
    (slot_start : datetime) (n : nat) (store : GroceryStore.t) :
  suggest uuid4 p1 current_date day_name slot_start n store
  = suggest uuid4 p2 current_date day_name slot_start n store.
Proof. unfold suggest, calculate_travel_time. rewrite same_duration. reflexivity. Qed.

Lemma slot_turn_same_duration (events : list CalendarEvent.t) (current_date : datetime)
    (day_name : string) (t t' : datetime) (acc : list ScheduleSuggestion.t) :
  slot_turn uuid4 p1 events current_date day_name t t' acc
  = slot_turn uuid4 p2 events current_date day_name t t' acc.
Proof.
  unfold slot_turn, find_nearby_stores.
  destruct (filter (conflict t t') events); [| reflexivity].
  generalize (firstn 2 MOCK_GROCERY_STORES). intros stores. revert acc.
  induction stores as [| store stores IH]; intros acc; simpl; [reflexivity |].
  rewrite suggest_same_duration. apply IH.
Qed.

Lemma slot_loop_same_duration (fuel : nat) (events : list CalendarEvent.t)
    (current_date : datetime) (day_name : string) (slot_end : datetime) :
  forall (cur : datetime) (acc : list ScheduleSuggestion.t),
    slot_loop uuid4 p1 fuel events current_date day_name slot_end cur acc
    = slot_loop uuid4 p2 fuel events current_date day_name slot_end cur acc.
Proof.
  induction fuel as [| fuel IH]; intros cur acc; [reflexivity |].
  rewrite !slot_loop_step, same_duration.
  destruct (timedelta_minutes _) as [d | |]; cbn [bind]; try reflexivity.
  destruct (datetime_add cur d) as [t' | |]; cbn [bind]; try reflexivity.
  destruct (t' <=? slot_end); [| reflexivity].
  destruct (datetime_add cur us_per_hour) as [cur' | |]; cbn [bind]; try reflexivity.
  rewrite slot_turn_same_duration. apply IH.
Qed.

Lemma window_body_same_duration (fuel : nat) (events : list CalendarEvent.t)
    (current_date : datetime) (day_name : string) (acc : list ScheduleSuggestion.t)
    (ph : PreferredHours.t) :
  window_body uuid4 p1 fuel events current_date day_name acc ph
  = window_body uuid4 p2 fuel events current_date day_name acc ph.
Proof.
  unfold window_body.
  destruct (strptime_HM (PreferredHours.start_time ph)); cbn [bind]; try reflexivity.
  destruct (strptime_HM (PreferredHours.end_time ph)); cbn [bind]; try reflexivity.
  apply slot_loop_same_duration.
Qed.

Hypothesis same_matching :
  forall current_date, matching_windows p1 current_date = matching_windows p2 current_date.

(** The generator reads the duration of the preferences and the windows
    that match a day, and nothing else of them. *)
Lemma generate_same_duration_and_windows (fuel : nat) (calendar : list CalendarEvent.t)
    (week_start : datetime) :
  generate_schedule_suggestions uuid4 fuel calendar p1 week_start
  = generate_schedule_suggestions uuid4 fuel calendar p2 week_start.
Proof.
  unfold generate_schedule_suggestions, collect_suggestions.
  destruct (timedelta_days 7) as [d | |]; cbn [bind]; try reflexivity.
  destruct (datetime_add week_start d) as [week_end | |]; cbn [bind]; try reflexivity.
  change (get_calendar_events calendar (UserPreferences.user_id p1) week_start week_end)
    with (get_calendar_events calendar (UserPreferences.user_id p2) week_start week_end).
  set (events := get_calendar_events calendar (UserPreferences.user_id p2) week_start week_end).
  rewrite (for_each_ext (day_body uuid4 p1 fuel events week_start)
                        (day_body uuid4 p2 fuel events week_start));
    [reflexivity |].
  intros acc day_offset _. rewrite !day_body_eq.
  destruct (timedelta_days day_offset) as [d0 | |]; cbn [bind]; try reflexivity.
  destruct (datetime_add week_start d0) as [cd | |]; cbn [bind]; try reflexivity.
  rewrite same_matching. apply for_each_ext.
  intros s ph _. apply window_body_same_duration.
Qed.

End SameDuration.

(** X6: the generator reads the shopping duration and the preferred hours
    of the preferences and nothing else: two preferences that agree on
    these give the same result, whatever their user, home address and
    preferred stores. *)
Theorem X6_only_duration_and_hours_matter (uuid4 : nat -> string) (fuel : nat)
    (calendar : list CalendarEvent.t) (p1 p2 : UserPreferences.t) (week_start : datetime) :
  UserPreferences.shopping_duration_minutes p1 = UserPreferences.shopping_duration_minutes p2 ->
  UserPreferences.preferred_hours p1 = UserPreferences.preferred_hours p2 ->
  generate_schedule_suggestions uuid4 fuel calendar p1 week_start
  = generate_schedule_suggestions uuid4 fuel calendar p2 week_start.
Proof.
  intros Hd Hw. apply generate_same_duration_and_windows; [exact Hd |].
  intros cd. unfold matching_windows. rewrite Hw. reflexivity.
Qed.

Lemma X6_only_duration_and_hours_matter_witness :
  let p1 := sample_preferences 60 [saturday_morning] in
  let p2 :=
    UserPreferences.mk "p2" "u2" "9 Far Away Rd" ["4"; "3"] 60 [saturday_morning]
      (instant monday_2024_01_01 1 0 0) (instant monday_2024_01_01 2 0 0) in
  List.length (result_of (generate_schedule_suggestions sample_uuid4 30 [] p1
                            monday_2024_01_01)) = 4%nat
  /\ generate_schedule_suggestions sample_uuid4 30 [] p1 monday_2024_01_01
     = generate_schedule_suggestions sample_uuid4 30 [] p2 monday_2024_01_01.
Proof.
  intros p1 p2. split; [vm_compute; reflexivity |].
  apply X6_only_duration_and_hours_matter; reflexivity.
Defined.

(** X7: a window that names no day is never looked at, not even to read
    its times: with it or without it among the preferred hours the
    generator gives the same, also when its times are unreadable. *)
Theorem X7_window_without_days_ignored (uuid4 : nat -> string) (fuel : nat)
    (calendar : list CalendarEvent.t) (p1 p2 : UserPreferences.t) (week_start : datetime)
    (before after : list PreferredHours.t) (ph : PreferredHours.t) :
  UserPreferences.shopping_duration_minutes p1 = UserPreferences.shopping_duration_minutes p2 ->
  UserPreferences.preferred_hours p1 = before ++ ph :: after ->
  UserPreferences.preferred_hours p2 = before ++ after ->
  PreferredHours.days ph = [] ->
  generate_schedule_suggestions uuid4 fuel calendar p1 week_start
  = generate_schedule_suggestions uuid4 fuel calendar p2 week_start.
Proof.
  intros Hd H1 H2 Hph. apply generate_same_duration_and_windows; [exact Hd |].
  intros cd. unfold matching_windows. rewrite H1, H2, !filter_app. cbn [filter].
  rewrite Hph. reflexivity.
Qed.

Lemma X7_window_without_days_ignored_witness :
  let unreadable := PreferredHours.mk "morning" "25:00" [] in
  strptime_HM "morning" = Raised ValueError
  /\ List.length (result_of (generate_schedule_suggestions sample_uuid4 30 []
                               (sample_preferences 60 [saturday_morning])
                               monday_2024_01_01)) = 4%nat
  /\ generate_schedule_suggestions sample_uuid4 30 []
       (sample_preferences 60 [unreadable; saturday_morning]) monday_2024_01_01
     = generate_schedule_suggestions sample_uuid4 30 []
         (sample_preferences 60 [saturday_morning]) monday_2024_01_01.
Proof.
  intros unreadable. split; [reflexivity |]. split; [vm_compute; reflexivity |].
  apply (X7_window_without_days_ignored _ _ _ _ _ _ [] [saturday_morning] unreadable);
    reflexivity.
Defined.

(** ** Where the suggestions lie *)

(** X8: every suggestion returned is for one of the nearby stores, with the
    travel time of 15 minutes and the duration of the preferences, and
    lies in a window of the preferences on a day of the scanned week that
    the window names: it starts a whole number of hours after the window's
    start and ends no later than the window's end.  With a duration that
    is not negative it starts within the seven days from the day of
    [week_start]. *)
Theorem X8_suggestions_lie_in_windows (uuid4 : nat -> string) (fuel : nat)
    (calendar : list CalendarEvent.t) (preferences : UserPreferences.t)
    (week_start : datetime) (l : list ScheduleSuggestion.t) :
  generate_schedule_suggestions uuid4 fuel calendar preferences week_start = Done l ->
  Forall (fun s =>
            let t := ScheduleSuggestion.suggested_time s in
            let duration := UserPreferences.shopping_duration_minutes preferences in
            In (ScheduleSuggestion.store s)
               (find_nearby_stores (UserPreferences.home_address preferences))
            /\ ScheduleSuggestion.travel_time_minutes s = 15
            /\ ScheduleSuggestion.duration_minutes s = duration
            /\ (exists day_offset ph start_time end_time k,
                   let current_date := week_start + day_offset * us_per_day in
                   0 <= day_offset <= 6
                   /\ In ph (UserPreferences.preferred_hours preferences)
                   /\ names_day ph current_date
                   /\ strptime_HM (PreferredHours.start_time ph) = Done start_time
                   /\ strptime_HM (PreferredHours.end_time ph) = Done end_time
                   /\ 0 <= k
                   /\ t = combine (date current_date) start_time + k * us_per_hour
                   /\ t + minutes duration <= combine (date current_date) end_time)
            /\ (0 <= duration ->
                date week_start * us_per_day <= t
                < date week_start * us_per_day + 7 * us_per_day)) l.
Proof.
  intros H. apply generate_emitted in H.
  eapply Forall_impl; [| exact H]. clear H l. intros s Hs. cbv zeta.
  pose proof (emitted_same_day _ _ _ _ _ Hs) as Day.
  destruct Hs as [day_offset ph st et k n store cd events d t Hd Hph Hst Het Hk Hle _ Hstore].
  cbn [suggest ScheduleSuggestion.store ScheduleSuggestion.travel_time_minutes
       ScheduleSuggestion.duration_minutes ScheduleSuggestion.suggested_time].
  split; [exact Hstore |]. split; [reflexivity |]. split; [reflexivity |]. split.
  - exists day_offset, ph, st, et, k. cbv zeta. fold cd.
    apply matching_windows_spec in Hph as [Hin Hname].
    repeat (split; [assumption |]). split; [reflexivity | exact Hle].
  - intros Dn.
    destruct (strptime_HM_bounds _ _ Hst) as [Bs1 Bs2].
    destruct (strptime_HM_bounds _ _ Het) as [Be1 Be2].
    pose proof (combine_within_day (date cd) st Bs1 Bs2).
    pose proof (combine_within_day (date cd) et Be1 Be2).
    assert (Dcd : date cd = date week_start + day_offset) by (apply date_add_days).
    unfold t, d in *. clear t d. rewrite Dcd in *.
    unfold minutes, us_per_minute, us_per_hour, us_per_day in *. zlia.
Qed.

Lemma X8_suggestions_lie_in_windows_witness :
  let preferences := sample_preferences 60 [saturday_morning] in
  let l := result_of (generate_schedule_suggestions sample_uuid4 30
                        [event_until_0959 monday_2024_01_01] preferences
                        monday_2024_01_01) in
  List.length l = 2%nat
  /\ Forall (fun s =>
            let t := ScheduleSuggestion.suggested_time s in
            let duration := UserPreferences.shopping_duration_minutes preferences in
            In (ScheduleSuggestion.store s)
               (find_nearby_stores (UserPreferences.home_address preferences))
            /\ ScheduleSuggestion.travel_time_minutes s = 15
            /\ ScheduleSuggestion.duration_minutes s = duration
            /\ (exists day_offset ph start_time end_time k,
                   let current_date := monday_2024_01_01 + day_offset * us_per_day in
                   0 <= day_offset <= 6
                   /\ In ph (UserPreferences.preferred_hours preferences)
                   /\ names_day ph current_date
                   /\ strptime_HM (PreferredHours.start_time ph) = Done start_time
                   /\ strptime_HM (PreferredHours.end_time ph) = Done end_time
                   /\ 0 <= k
                   /\ t = combine (date current_date) start_time + k * us_per_hour
                   /\ t + minutes duration <= combine (date current_date) end_time)
            /\ (0 <= duration ->
                date monday_2024_01_01 * us_per_day <= t
                < date monday_2024_01_01 * us_per_day + 7 * us_per_day)) l.
Proof.
  intros preferences l. split; [vm_compute; reflexivity |].
  apply (X8_suggestions_lie_in_windows sample_uuid4 30 [event_until_0959 monday_2024_01_01]
           preferences monday_2024_01_01 l).
  vm_compute. reflexivity.
Defined.

(** A run that returns has read the times of every window that matches
    one of the seven days. *)
Lemma collect_suggestions_readable (uuid4 : nat -> string) (calendar : list CalendarEvent.t)
    (preferences : UserPreferences.t) (fuel : nat) (week_start : datetime)
    (suggestions : list ScheduleSuggestion.t) (day_offset : Z) (ph : PreferredHours.t) :
  collect_suggestions uuid4 calendar preferences fuel week_start = Done suggestions ->
  0 <= day_offset <= 6 ->
  In ph (matching_windows preferences (week_start + day_offset * us_per_day)) ->
  readable ph.
Proof.
  intros C Hd Hph. apply collect_suggestions_Done in C as [_ C].
  assert (Hin : In day_offset [0; 1; 2; 3; 4; 5; 6]) by (simpl; lia).
  destruct (for_each_Done_each _ _ _ _ C day_offset Hin) as (s1 & s2 & Hday).
  apply day_body_Done in Hday as [_ Hday]; [| exact Hd].
  destruct (for_each_Done_each _ _ _ _ Hday ph Hph) as (a1 & a2 & Hw).
  apply window_body_Done in Hw as (st & et & Hst & Het & _).
  split; [exists st | exists et]; assumption.
Qed.

(** X9: a window with an unreadable time that names one of the seven days
    scanned is not skipped: the generator then returns nothing and
    raises, the [ValueError] of the time or an [OverflowError] of the date
    arithmetic met before it. *)
Theorem X9_unreadable_window_raises (uuid4 : nat -> string) (fuel : nat)
    (calendar : list CalendarEvent.t) (preferences : UserPreferences.t)
    (week_start : datetime) (ph : PreferredHours.t) (day_offset : Z) :
  In ph (UserPreferences.preferred_hours preferences) ->
  ~ readable ph ->
  0 <= day_offset <= 6 ->
  names_day ph (week_start + day_offset * us_per_day) ->
  (enough_fuel preferences <= fuel)%nat ->
  exists e,
    generate_schedule_suggestions uuid4 fuel calendar preferences week_start = Raised e
    /\ value_or_overflow e.
Proof.
  intros Hin Hun Hd Hname Hf.
  destruct (generate_schedule_suggestions uuid4 fuel calendar preferences week_start)
    as [l | e |] eqn:G.
  - exfalso. apply Hun. apply generate_Done in G as (suggestions & C & _).
    apply (collect_suggestions_readable _ _ _ _ _ _ day_offset ph C Hd).
    apply matching_windows_spec. split; assumption.
  - exists e. split; [reflexivity | exact (generate_raises _ _ _ _ _ _ G)].
  - exfalso.
    exact (proj2 (generate_enough uuid4 calendar preferences week_start fuel fuel Hf Hf) G).
Qed.

Lemma X9_unreadable_window_raises_witness :
  exists e,
    generate_schedule_suggestions sample_uuid4 30 []
      (sample_preferences 60 [saturday_morning; PreferredHours.mk "9am" "11:00" [SUNDAY]])
      monday_2024_01_01 = Raised e
    /\ value_or_overflow e.
Proof.
  apply (X9_unreadable_window_raises sample_uuid4 30 []
           (sample_preferences 60 [saturday_morning; PreferredHours.mk "9am" "11:00" [SUNDAY]])
           monday_2024_01_01 (PreferredHours.mk "9am" "11:00" [SUNDAY]) 6).
  - right. left. reflexivity.
  - intros [[t Ht] _]. vm_compute in Ht. discriminate.
  - lia.
  - exists SUNDAY. split; [left; reflexivity | vm_compute; reflexivity].
  - vm_compute. lia.
Defined.

(** X10: a week that does not end within the calendar, the seventh day
    after [week_start] being past 9999-12-31, makes the generator raise
    [OverflowError] before it looks at anything else. *)
Theorem X10_week_past_the_calendar_overflows (uuid4 : nat -> string) (fuel : nat)
    (calendar : list CalendarEvent.t) (preferences : UserPreferences.t)
    (week_start : datetime) :
  MAXORDINAL * us_per_day <= week_start + 7 * us_per_day ->
  generate_schedule_suggestions uuid4 fuel calendar preferences week_start
  = Raised OverflowError.
Proof.
  intros H. unfold generate_schedule_suggestions, collect_suggestions.
  rewrite timedelta_days_small by lia. cbn [bind].
  unfold datetime_add, datetime_in_range.
  destruct (Z.ltb_spec (week_start + 7 * us_per_day) (MAXORDINAL * us_per_day)); [zlia |].
  rewrite andb_false_r. reflexivity.
Qed.

Lemma X10_week_past_the_calendar_overflows_witness :
  datetime_in_range ((MAXORDINAL - 4) * us_per_day) = true
  /\ generate_schedule_suggestions sample_uuid4 30 []
       (sample_preferences 60 [saturday_morning]) ((MAXORDINAL - 4) * us_per_day)
     = Raised OverflowError.
Proof.
  split; [reflexivity |].
  apply X10_week_past_the_calendar_overflows. vm_compute. discriminate.
Defined.

(** * The week of the routes *)

(** X11: for every instant [today] of the calendar the routes' start of
    week is computed without error; it is a Monday at 00:00:00, [today]
    lies in the seven days that start there, and the day at offset [k] of
    the generator's scan is the [k]-th day of the week, Monday to Sunday. *)
Theorem X11_week_starts_on_monday_midnight (today : datetime) :
  0 <= today < MAXORDINAL * us_per_day ->
  exists week_start,
    current_week_start today = Done week_start
    /\ weekday week_start = 0
    /\ week_start mod us_per_day = 0
    /\ week_start <= today < week_start + 7 * us_per_day
    /\ (forall k, 0 <= k <= 6 -> weekday (week_start + k * us_per_day) = k).
Proof.
  intros Ht. unfold current_week_start. cbv zeta.
  pose proof (weekday_range today) as Hw.
  rewrite timedelta_days_small by lia. cbn [bind].
  pose proof (date_lower today) as Dl.
  assert (Hq : 0 <= date today) by (apply Z.div_pos; [lia | reflexivity]).
  pose proof (Z.div_mod (date today) 7 ltac:(discriminate)) as E7.
  fold (weekday today) in E7.
  assert (Hq7 : 0 <= date today / 7) by (apply Z.div_pos; lia).
  assert (Hge : weekday today * us_per_day <= date today * us_per_day)
    by (unfold us_per_day; lia).
  rewrite datetime_add_in_range by (unfold us_per_day in *; zlia). cbn [bind].
  assert (Dws : date (today + - (weekday today * us_per_day)) = date today - weekday today).
  { replace (today + - (weekday today * us_per_day))
      with (today + (- weekday today) * us_per_day) by lia.
    rewrite date_add_days. lia. }
  rewrite Dws.
  assert (W0 : weekday ((date today - weekday today) * us_per_day) = 0).
  { unfold weekday at 1, date at 1. rewrite Z.div_mul by discriminate.
    replace (date today - weekday today) with (date today / 7 * 7) by lia.
    apply Z.mod_mul. discriminate. }
  eexists. split; [reflexivity |]. split; [exact W0 |].
  split; [apply Z.mod_mul; discriminate |].
  split; [unfold us_per_day in *; zlia |].
  intros k Hk. rewrite weekday_add_days, W0. apply Z.mod_small. lia.
Qed.

Lemma X11_week_starts_on_monday_midnight_witness :
  exists week_start,
    current_week_start (instant monday_2024_01_01 3 16 45) = Done week_start
    /\ weekday week_start = 0
    /\ week_start mod us_per_day = 0
    /\ week_start <= instant monday_2024_01_01 3 16 45 < week_start + 7 * us_per_day
    /\ (forall k, 0 <= k <= 6 -> weekday (week_start + k * us_per_day) = k).
Proof.
  apply X11_week_starts_on_monday_midnight. vm_compute. split; [discriminate | reflexivity].
Defined.

(** * Further properties of the converters *)

(** Induction on a dictionary and on the dictionaries that are items of
    its lists, the ones the converters go into. *)
Lemma dict_induction (P : dict -> Prop) :
  P DNil ->
  (forall key v rest,
      match v with
      | VList l => Forall (fun item => match item with VDict d => P d | _ => True end) l
      | _ => True
      end ->
      P rest -> P (DCons key v rest)) ->
  forall data, P data.
Proof.
  intros P_nil P_cons.
  exact (fix go (data : dict) : P data :=
           match data with
           | DNil => P_nil
           | DCons key v rest =>
               P_cons key v rest
                 match v as v0
                       return match v0 with
                              | VList l =>
                                  Forall (fun item =>
                                            match item with VDict d => P d | _ => True end) l
                              | _ => True
                              end
                 with
                 | VList l =>
                     (fix items (l : list value)
                        : Forall (fun item => match item with VDict d => P d | _ => True end) l :=
                        match l with
                        | [] => Forall_nil _
                        | item :: l' =>
                            Forall_cons item
                              match item as i
                                    return match i with VDict d => P d | _ => True end
                              with
                              | VDict d => go d
                              | _ => I
                              end
                              (items l')
                        end) l
                 | _ => I
                 end
                 (go rest)
           end).
Qed.

Lemma map_items_ext (f g : dict -> dict) (P : dict -> Prop) (l : list value) :
  Forall (fun item => match item with VDict d => P d | _ => True end) l ->
  (forall d, P d -> f d = g d) ->
  map (fun item => match item with VDict d => VDict (f d) | _ => item end) l
  = map (fun item => match item with VDict d => VDict (g d) | _ => item end) l.
Proof.
  intros F H. induction F as [| item l Hi _ IH]; simpl; [reflexivity |].
  rewrite IH. destruct item; try reflexivity. rewrite (H _ Hi). reflexivity.
Qed.

(** X12: after [prepare_for_mongo] no datetime is left at the top level of
    the dictionary or of a dictionary that is an item of one of its lists,
    and converting a second time changes nothing. *)
Theorem X12_prepare_for_mongo_idempotent (data : dict) :
  has_datetime (prepare_for_mongo data) = false
  /\ prepare_for_mongo (prepare_for_mongo data) = prepare_for_mongo data.
Proof.
  induction data as [| key v rest Hv [IH1 IH2]] using dict_induction.
  - split; reflexivity.
  - cbn [prepare_for_mongo has_datetime]. rewrite IH1, IH2.
    destruct v; cbn [has_datetime prepare_for_mongo]; try (split; reflexivity).
    split.
    + rewrite orb_false_r. induction Hv as [| item l Hi _ IHl]; [reflexivity |].
      cbn [map existsb]. rewrite IHl, orb_false_r.
      destruct item; try reflexivity. exact (proj1 Hi).
    + do 2 f_equal. rewrite map_map.
      induction Hv as [| item l Hi _ IHl]; [reflexivity |].
      cbn [map]. rewrite IHl. destruct item; try reflexivity.
      rewrite (proj2 Hi). reflexivity.
Qed.

(** X13: [parse_from_mongo] applied twice is [parse_from_mongo] applied
    once: a text it could not read stays the text it was, and what it read
    is a datetime that it leaves alone. *)
Theorem X13_parse_from_mongo_idempotent (data : dict) :
  parse_from_mongo (parse_from_mongo data) = parse_from_mongo data.
Proof.
  induction data as [| key v rest Hv IH] using dict_induction.
  - reflexivity.
  - cbn [parse_from_mongo]. rewrite IH.
    destruct v; cbn [parse_from_mongo]; try reflexivity.
    + destruct (endswith key "_at" || endswith key "_time"); [| reflexivity].
      destruct (fromisoformat s) eqn:F; [reflexivity |]. rewrite F. reflexivity.
    + do 2 f_equal. rewrite map_map.
      induction Hv as [| item l Hi _ IHl]; [reflexivity |].
      cbn [map]. rewrite IHl. destruct item; try reflexivity.
      rewrite Hi. reflexivity.
Qed.

(** X14: both converters keep the keys of a dictionary, in their order:
    they add no field, drop none and rename none. *)
Theorem X14_converters_keep_the_keys (data : dict) :
  dict_keys (prepare_for_mongo data) = dict_keys data
  /\ dict_keys (parse_from_mongo data) = dict_keys data.
Proof.
  induction data as [| key v rest [IH1 IH2]]; [split; reflexivity |].
  cbn [prepare_for_mongo parse_from_mongo dict_keys]. rewrite IH1, IH2. split; reflexivity.
Qed.

(** A text that [strptime] reads as a time of day is no ISO datetime: the
    colon comes before four digits are read. *)
Lemma strptime_HM_not_iso (s : string) (t : time) :
  strptime_HM s = Done t -> fromisoformat s = None.
Proof.
  unfold strptime_HM, match_H. intros H.
  assert (R : read_digits 4 0 s = None); [| unfold fromisoformat; rewrite R; reflexivity].
  destruct s as [| c1 [| c2 r]]; [discriminate | |].
  - destruct (is_digit c1); discriminate.
  - destruct ((Ascii.eqb c1 "2" && in_range_ascii "0" "3" c2)
              || (in_range_ascii "0" "1" c1 && is_digit c2)).
    + destruct r as [| c r]; [discriminate |].
      destruct (Ascii.eqb_spec c ":") as [-> | _]; [| discriminate].
      cbn [read_digits]. destruct (is_digit c1); [| reflexivity].
      destruct (is_digit c2); reflexivity.
    + destruct (is_digit c1) eqn:D1; [| discriminate].
      destruct (Ascii.eqb_spec c2 ":") as [-> | _]; [| discriminate].
      cbn [read_digits]. rewrite D1. reflexivity.
Qed.

Lemma map_plain_items (f : dict -> dict) {A : Type} (inj : A -> value) (l : list A) :
  (forall a, match inj a with VDict _ => False | _ => True end) ->
  map (fun item => match item with VDict d => VDict (f d) | _ => item end) (map inj l)
  = map inj l.
Proof.
  intros H. rewrite map_map. apply map_ext. intros a. specialize (H a).
  destruct (inj a); try reflexivity. destruct H.
Qed.

Lemma window_round_trip (ph : PreferredHours.t) :
  readable ph ->
  parse_from_mongo (prepare_for_mongo (PreferredHours_dict ph)) = PreferredHours_dict ph.
Proof.
  intros [[st Hst] [et Het]]. unfold PreferredHours_dict.
  cbn [dict_of_items prepare_for_mongo parse_from_mongo]. decide_keys.
  rewrite (strptime_HM_not_iso _ _ Hst), (strptime_HM_not_iso _ _ Het).
  rewrite !(map_plain_items _ (fun d => VStr (DayOfWeek_.value d))) by (intros a; exact I).
  reflexivity.
Qed.

Lemma in_range_round_trip (t : datetime) :
  datetime_in_range t = true -> fromisoformat (isoformat t) = Some t.
Proof.
  unfold datetime_in_range. intros R. apply andb_true_iff in R as [R0 R1].
  apply Z.leb_le in R0. apply Z.ltb_lt in R1.
  apply fromisoformat_isoformat. split; assumption.
Qed.

Lemma map_dicts_round_trip {A : Type} (to_dict : A -> dict) (l : list A) :
  (forall a, In a l -> parse_from_mongo (prepare_for_mongo (to_dict a)) = to_dict a) ->
  map (fun item => match item with VDict d => VDict (parse_from_mongo d) | _ => item end)
      (map (fun item => match item with VDict d => VDict (prepare_for_mongo d) | _ => item end)
           (map (fun a => VDict (to_dict a)) l))
  = map (fun a => VDict (to_dict a)) l.
Proof.
  intros H. rewrite !map_map. apply map_ext_in. intros a Ha. rewrite (H a Ha). reflexivity.
Qed.

(** X15: the preferences that [create_preferences] stores come back from
    [parse_from_mongo] as the dictionary they were, when the window times
    are readable times of day: the two timestamps are restored, and the
    times of the windows, though under keys that end in [_time], are no
    ISO datetimes and stay the texts they are. *)
Theorem X15_preferences_round_trip (p : UserPreferences.t) :
  datetime_in_range (UserPreferences.created_at p) = true ->
  datetime_in_range (UserPreferences.updated_at p) = true ->
  Forall readable (UserPreferences.preferred_hours p) ->
  parse_from_mongo (prepare_for_mongo (UserPreferences_dict p)) = UserPreferences_dict p.
Proof.
  intros Rc Ru Rw. unfold UserPreferences_dict.
  cbn [dict_of_items prepare_for_mongo parse_from_mongo]. decide_keys.
  rewrite (in_range_round_trip _ Rc), (in_range_round_trip _ Ru).
  rewrite !(map_plain_items _ VStr) by (intros a; exact I).
  rewrite (map_dicts_round_trip PreferredHours_dict).
  - reflexivity.
  - intros ph Hph. apply window_round_trip. rewrite Forall_forall in Rw. exact (Rw ph Hph).
Qed.

Lemma X15_preferences_round_trip_witness :
  let p := sample_preferences 60 [saturday_morning; PreferredHours.mk "7:5" "23:59" [MONDAY]] in
  parse_from_mongo (prepare_for_mongo (UserPreferences_dict p)) = UserPreferences_dict p.
Proof.
  apply X15_preferences_round_trip.
  - vm_compute. reflexivity.
  - vm_compute. reflexivity.
  - repeat constructor; eexists; vm_compute; reflexivity.
Defined.

Lemma item_round_trip (i : GroceryItem.t) :
  parse_from_mongo (prepare_for_mongo (GroceryItem_dict i)) = GroceryItem_dict i.
Proof.
  unfold GroceryItem_dict.
  destruct (GroceryItem.quantity i), (GroceryItem.category i);
    cbn [dict_of_items prepare_for_mongo parse_from_mongo VOptional]; decide_keys;
    reflexivity.
Qed.

(** X16: a grocery list stored with [prepare_for_mongo] comes back from
    [parse_from_mongo] as the dictionary it was, items and their order
    included. *)
Theorem X16_grocery_list_round_trip (g : GroceryList.t) :
  datetime_in_range (GroceryList.created_at g) = true ->
  datetime_in_range (GroceryList.updated_at g) = true ->
  parse_from_mongo (prepare_for_mongo (GroceryList_dict g)) = GroceryList_dict g.
Proof.
  intros Rc Ru. unfold GroceryList_dict.
  cbn [dict_of_items prepare_for_mongo parse_from_mongo]. decide_keys.
  rewrite (in_range_round_trip _ Rc), (in_range_round_trip _ Ru).
  rewrite (map_dicts_round_trip GroceryItem_dict).
  - reflexivity.
  - intros i _. apply item_round_trip.
Qed.

Lemma X16_grocery_list_round_trip_witness :
  parse_from_mongo (prepare_for_mongo (GroceryList_dict sample_grocery_list))
  = GroceryList_dict sample_grocery_list.
Proof.
  apply X16_grocery_list_round_trip; vm_compute; reflexivity.
Defined.

(** * Further properties of the approval *)

Lemma update_one_no_match (schedule_id suggestion_id : string)
    (weekly_schedules : list WeeklySchedule.t) :
  Forall (fun doc => WeeklySchedule.id doc <> schedule_id) weekly_schedules ->
  update_one schedule_id suggestion_id weekly_schedules
  = (mk_UpdateResult 0 0, weekly_schedules).
Proof.
  induction 1 as [| doc rest Hdoc _ IH]; [reflexivity |].
  cbn [update_one]. apply String.eqb_neq in Hdoc. rewrite Hdoc, IH. reflexivity.
Qed.

(** X17: when no stored schedule has the identifier, the approval raises
    the 404 and the collection is what it was. *)
Theorem X17_approval_of_unknown_schedule (schedule_id suggestion_id : string)
    (weekly_schedules : list WeeklySchedule.t) :
  Forall (fun doc => WeeklySchedule.id doc <> schedule_id) weekly_schedules ->
  approve_suggestion schedule_id suggestion_id weekly_schedules
  = (Raised (HTTPException 404 "Schedule not found"), weekly_schedules).
Proof.
  intros H. unfold approve_suggestion. rewrite (update_one_no_match _ _ _ H). reflexivity.
Qed.

Lemma X17_approval_of_unknown_schedule_witness :
  approve_suggestion "w2" "a" [sample_schedule None "pending"]
  = (Raised (HTTPException 404 "Schedule not found"), [sample_schedule None "pending"]).
Proof.
  apply X17_approval_of_unknown_schedule.
  repeat constructor. intros H. vm_compute in H. discriminate.
Defined.

(** X18: the approval changes the first schedule that has the identifier
    and no other: unless that schedule is already approved with this very
    suggestion, the route answers with success and the schedule then holds
    the suggestion identifier and the status [approved], everything else
    being as it was.  The identifier is taken as given: it is not looked
    up among the suggestions of the schedule. *)
Theorem X18_approval_updates_first_match (schedule_id suggestion_id : string)
    (before after : list WeeklySchedule.t) (doc : WeeklySchedule.t) :
  Forall (fun d => WeeklySchedule.id d <> schedule_id) before ->
  WeeklySchedule.id doc = schedule_id ->
  WeeklySchedule.approved_suggestion_id doc <> Some suggestion_id
  \/ WeeklySchedule.status doc <> "approved" ->
  approve_suggestion schedule_id suggestion_id (before ++ doc :: after)
  = (Done "Suggestion approved successfully",
     before
     ++ WeeklySchedule.mk (WeeklySchedule.id doc) (WeeklySchedule.user_id doc)
          (WeeklySchedule.week_start doc) (WeeklySchedule.suggestions doc)
          (Some suggestion_id) "approved" (WeeklySchedule.created_at doc)
     :: after).
Proof.
  intros Hb Hid Hnew. unfold approve_suggestion.
  assert (U : update_one schedule_id suggestion_id (before ++ doc :: after)
              = (mk_UpdateResult 1 1, before ++ set_approved suggestion_id doc :: after)).
  { induction Hb as [| d before Hd _ IH]; cbn [app update_one].
    - rewrite Hid, String.eqb_refl.
      assert (C : changed_by_set suggestion_id doc = true).
      { unfold changed_by_set. apply negb_true_iff. apply andb_false_iff.
        destruct Hnew as [Hn | Hn].
        - left. destruct (WeeklySchedule.approved_suggestion_id doc) as [a |];
            [| reflexivity].
          cbn [option_string_eqb]. apply String.eqb_neq. congruence.
        - right. apply String.eqb_neq. exact Hn. }
      rewrite C. reflexivity.
    - apply String.eqb_neq in Hd. rewrite Hd, IH. reflexivity. }
  rewrite U. reflexivity.
Qed.

Lemma X18_approval_updates_first_match_witness :
  ~ In "no such suggestion"
      (map ScheduleSuggestion.id (WeeklySchedule.suggestions (sample_schedule None "pending")))
  /\ approve_suggestion "w1" "no such suggestion"
       ([] ++ sample_schedule None "pending" :: [sample_schedule None "pending"])
     = (Done "Suggestion approved successfully",
        [sample_schedule (Some "no such suggestion") "approved";
         sample_schedule None "pending"]).
Proof.
  split.
  - vm_compute. intros H. repeat (destruct H as [H | H]; [discriminate |]). exact H.
  - apply (X18_approval_updates_first_match "w1" "no such suggestion" []
             [sample_schedule None "pending"] (sample_schedule None "pending")).
    + constructor.
    + reflexivity.
    + left. discriminate.
Defined.

(** X19: whatever it answers, the approval adds no schedule and removes
    none, and leaves the identifier, the user, the week, the suggestions
    and the creation time of every schedule as they were. *)
Theorem X19_approval_keeps_the_schedules (schedule_id suggestion_id : string)
    (weekly_schedules : list WeeklySchedule.t) :
  map schedule_content (snd (approve_suggestion schedule_id suggestion_id weekly_schedules))
  = map schedule_content weekly_schedules.
Proof.
  unfold approve_suggestion.
  assert (U : map schedule_content
                (snd (update_one schedule_id suggestion_id weekly_schedules))
              = map schedule_content weekly_schedules).
  { induction weekly_schedules as [| doc rest IH]; [reflexivity |].
    cbn [update_one]. destruct (String.eqb (WeeklySchedule.id doc) schedule_id).
    - reflexivity.
    - destruct (update_one schedule_id suggestion_id rest) as [result rest'].
      cbn [snd map] in *. rewrite IH. reflexivity. }
  destruct (update_one schedule_id suggestion_id weekly_schedules) as [result coll'].
  destruct (modified_count result =? 0); exact U.
Qed.

(** * The collections *)

Lemma dict_get_dict_set (key k : string) (v : value) (d : dict) :
  dict_get k (dict_set key v d) = if String.eqb key k then Some v else dict_get k d.
Proof.
  induction d as [| k0 x rest IH]; cbn [dict_set dict_get]; [reflexivity |].
  destruct (String.eqb_spec k0 key) as [-> | N]; cbn [dict_get].
  - destruct (String.eqb key k); reflexivity.
  - rewrite IH. destruct (String.eqb_spec k0 k) as [-> | N']; [| reflexivity].
    apply String.eqb_neq in N. rewrite String.eqb_sym in N. rewrite N. reflexivity.
Qed.

Lemma dict_get_set_fields_other (k : string) (fields doc : dict) :
  ~ In k (dict_keys fields) -> dict_get k (set_fields fields doc) = dict_get k doc.
Proof.
  revert doc. induction fields as [| key v rest IH]; intros doc N; [reflexivity |].
  cbn [set_fields dict_keys] in *. rewrite IH by (intros H; apply N; right; exact H).
  rewrite dict_get_dict_set.
  destruct (String.eqb_spec key k) as [-> | _]; [| reflexivity].
  exfalso. apply N. left. reflexivity.
Qed.

(** [$set] gives a document the value of every field it names. *)
Lemma dict_get_set_fields (k : string) (v : value) (fields doc : dict) :
  NoDup (dict_keys fields) ->
  dict_get k fields = Some v ->
  dict_get k (set_fields fields doc) = Some v.
Proof.
  revert doc. induction fields as [| key x rest IH]; intros doc D G; [discriminate |].
  cbn [set_fields dict_keys dict_get] in *. inversion D as [| ? ? Hn Hd]; subst.
  destruct (String.eqb_spec key k) as [-> | _].
  - injection G as ->. rewrite dict_get_set_fields_other by exact Hn.
    rewrite dict_get_dict_set, String.eqb_refl. reflexivity.
  - apply IH; assumption.
Qed.

Lemma dict_keys_cons (d : dict) (k : string) (ks : list string) :
  dict_keys d = k :: ks -> exists v rest, d = DCons k v rest /\ dict_keys rest = ks.
Proof.
  destruct d as [| key v rest]; [discriminate |]. cbn [dict_keys]. intros [= -> <-].
  exists v, rest. split; reflexivity.
Qed.

Lemma dict_keys_nil (d : dict) : dict_keys d = [] -> d = DNil.
Proof. destruct d; [reflexivity | discriminate]. Qed.

(** A document whose keys are known, as its items. *)
Ltac items_of H :=
  repeat (apply dict_keys_cons in H as (? & ? & -> & H));
  apply dict_keys_nil in H as ->.

Lemma find_one_none (query : list (string * string)) (collection : list dict) :
  find_one query collection = None <-> filter (matches query) collection = [].
Proof.
  unfold find_one. induction collection as [| doc rest IH]; cbn [find filter];
    [split; reflexivity |].
  destruct (matches query doc); [split; discriminate | exact IH].
Qed.

Lemma find_one_insert_one (query : list (string * string)) (doc : dict)
    (collection : list dict) :
  find_one query collection = None ->
  matches query doc = true ->
  find_one query (insert_one doc collection) = Some doc.
Proof.
  unfold find_one, insert_one. intros N M.
  induction collection as [| d rest IH]; cbn [find app] in *; [rewrite M; reflexivity |].
  destruct (matches query d); [discriminate | exact (IH N)].
Qed.

Lemma find_one_update_one_set (query : list (string * string)) (fields doc : dict)
    (collection : list dict) :
  find_one query collection = Some doc ->
  matches query (set_fields fields doc) = true ->
  find_one query (update_one_set query fields collection) = Some (set_fields fields doc).
Proof.
  unfold find_one. intros F M.
  induction collection as [| d rest IH]; cbn [find update_one_set] in *; [discriminate |].
  destruct (matches query d) eqn:Md; cbn [find].
  - injection F as ->. rewrite M. reflexivity.
  - rewrite Md. exact (IH F).
Qed.

Lemma find_one_In (query : list (string * string)) (doc : dict) (collection : list dict) :
  find_one query collection = Some doc -> In doc collection /\ matches query doc = true.
Proof. apply find_some. Qed.

(** An update whose fields keep a document under the query moves no
    document into or out of the answers of the query. *)
Lemma update_one_set_filter (query : list (string * string)) (fields : dict)
    (collection : list dict) :
  (forall doc, matches query (set_fields fields doc) = true) ->
  filter (fun doc => negb (matches query doc)) (update_one_set query fields collection)
  = filter (fun doc => negb (matches query doc)) collection
  /\ List.length (filter (matches query) (update_one_set query fields collection))
     = List.length (filter (matches query) collection).
Proof.
  intros M. induction collection as [| d rest [IH1 IH2]]; [split; reflexivity |].
  cbn [update_one_set]. destruct (matches query d) eqn:Md; cbn [filter].
  - rewrite M, Md. cbn [negb length]. split; reflexivity.
  - rewrite Md, IH1, IH2. cbn [negb]. split; reflexivity.
Qed.

Lemma insert_one_filter (f : dict -> bool) (doc : dict) (collection : list dict) :
  filter f (insert_one doc collection)
  = filter f collection ++ (if f doc then [doc] else []).
Proof.
  unfold insert_one. rewrite filter_app. cbn [filter]. reflexivity.
Qed.

Lemma has_fields_update_one_set (query : list (string * string)) (fields : dict)
    (keys : list string) (collection : list dict) :
  (forall doc, dict_keys doc = keys -> dict_keys (set_fields fields doc) = keys) ->
  has_fields keys collection ->
  has_fields keys (update_one_set query fields collection).
Proof.
  intros K. unfold has_fields. induction 1 as [| d rest Hd Hrest IH]; cbn [update_one_set];
    [constructor |].
  destruct (matches query d); constructor; try assumption.
  apply K. exact Hd.
Qed.
(** * The preferences routes *)

Lemma readable_plain_times (ph : PreferredHours.t) : readable ph -> plain_times ph.
Proof.
  intros [[st Hst] [et Het]].
  split; [exact (strptime_HM_not_iso _ _ Hst) | exact (strptime_HM_not_iso _ _ Het)].
Qed.

Lemma plain_window_round_trip (ph : PreferredHours.t) :
  plain_times ph ->
  parse_from_mongo (prepare_for_mongo (PreferredHours_dict ph)) = PreferredHours_dict ph.
Proof.
  intros [Hst Het]. unfold PreferredHours_dict.
  cbn [dict_of_items prepare_for_mongo parse_from_mongo]. decide_keys.
  rewrite Hst, Het.
  rewrite !(map_plain_items _ (fun d => VStr (DayOfWeek_.value d))) by (intros a; exact I).
  reflexivity.
Qed.

(** What the two preferences routes store and load. *)
Lemma preferences_dict_round_trip (p : UserPreferences.t) :
  datetime_in_range (UserPreferences.created_at p) = true ->
  datetime_in_range (UserPreferences.updated_at p) = true ->
  Forall plain_times (UserPreferences.preferred_hours p) ->
  parse_from_mongo (prepare_for_mongo (UserPreferences_dict p)) = UserPreferences_dict p.
Proof.
  intros Rc Ru Rw. unfold UserPreferences_dict.
  cbn [dict_of_items prepare_for_mongo parse_from_mongo]. decide_keys.
  rewrite (in_range_round_trip _ Rc), (in_range_round_trip _ Ru).
  rewrite !(map_plain_items _ VStr) by (intros a; exact I).
  rewrite (map_dicts_round_trip PreferredHours_dict).
  - reflexivity.
  - intros ph Hph. apply plain_window_round_trip. rewrite Forall_forall in Rw.
    exact (Rw ph Hph).
Qed.

(** The dictionary of an update is the dictionary of the preferences
    posted, with the clock in [updated_at]. *)
Lemma updated_preferences_dict (now : datetime) (p : UserPreferences.t) :
  dict_set "updated_at" (VStr (isoformat now)) (prepare_for_mongo (UserPreferences_dict p))
  = prepare_for_mongo (UserPreferences_dict (updated_preferences now p)).
Proof. reflexivity. Qed.

Lemma UserPreferences_fields_NoDup : NoDup UserPreferences_fields.
Proof.
  unfold UserPreferences_fields.
  repeat (constructor; [cbn [In]; intuition discriminate |]). constructor.
Qed.

Lemma preferences_dict_matches (q : UserPreferences.t) (doc : dict) :
  matches [("user_id", UserPreferences.user_id q)]
    (set_fields (prepare_for_mongo (UserPreferences_dict q)) doc) = true.
Proof.
  cbn [matches forallb]. unfold field_equals.
  rewrite (dict_get_set_fields "user_id" (VStr (UserPreferences.user_id q))).
  - rewrite String.eqb_refl. reflexivity.
  - exact UserPreferences_fields_NoDup.
  - reflexivity.
Qed.

Lemma set_preferences_fields (q : UserPreferences.t) (doc : dict) :
  dict_keys doc = UserPreferences_fields ->
  set_fields (prepare_for_mongo (UserPreferences_dict q)) doc
  = prepare_for_mongo (UserPreferences_dict q).
Proof.
  unfold UserPreferences_fields. intros H. items_of H. reflexivity.
Qed.

Lemma create_preferences_finds (now : datetime) (p : UserPreferences.t) (db : Db.t) :
  has_fields UserPreferences_fields (Db.preferences db) ->
  find_one [("user_id", UserPreferences.user_id p)]
    (Db.preferences (snd (create_preferences now p db)))
  = Some (prepare_for_mongo
            (UserPreferences_dict
               match find_one [("user_id", UserPreferences.user_id p)] (Db.preferences db) with
               | Some _ => updated_preferences now p
               | None => p
               end)).
Proof.
  intros W. unfold create_preferences. cbv zeta.
  destruct (find_one _ (Db.preferences db)) as [doc |] eqn:F; cbn [snd Db.preferences].
  - rewrite updated_preferences_dict.
    rewrite (find_one_update_one_set _ _ doc _ F)
      by exact (preferences_dict_matches (updated_preferences now p) doc).
    rewrite set_preferences_fields; [reflexivity |].
    apply find_one_In in F as [Hin _]. unfold has_fields in W. rewrite Forall_forall in W.
    exact (W doc Hin).
  - apply find_one_insert_one; [exact F |].
    cbn [matches forallb]. unfold field_equals. cbn [UserPreferences_dict dict_of_items prepare_for_mongo dict_get String.eqb Ascii.eqb Bool.eqb andb].
    rewrite String.eqb_refl. reflexivity.
Qed.

Lemma create_preferences_has_fields (now : datetime) (p : UserPreferences.t) (db : Db.t) :
  has_fields UserPreferences_fields (Db.preferences db) ->
  has_fields UserPreferences_fields (Db.preferences (snd (create_preferences now p db))).
Proof.
  intros W. unfold create_preferences. cbv zeta.
  destruct (find_one _ (Db.preferences db)) as [doc |]; cbn [snd Db.preferences].
  - rewrite updated_preferences_dict. apply has_fields_update_one_set; [| exact W].
    intros d Hd. rewrite set_preferences_fields by exact Hd. reflexivity.
  - unfold insert_one, has_fields. apply Forall_app. split; [exact W |].
    constructor; [reflexivity | constructor].
Qed.

(** X20: [get_preferences] after [create_preferences] gives what was
    posted, down to the order of the windows and of their days, when the
    user had no preferences; when the user had some it gives the
    preferences posted with the clock of the update in [updated_at], the
    identifier and the creation date of the earlier document being
    replaced by the posted ones, while the route itself has answered with
    the preferences as they were posted.  The collection is assumed to
    hold documents with the fields of [UserPreferences], which the route
    then maintains, the window times to be readable, and pydantic to
    build from the dictionary of a model that model. *)
Theorem X20_preferences_created_then_read
    (UserPreferences_from : dict -> outcome UserPreferences.t)
    (now : datetime) (p : UserPreferences.t) (db : Db.t) :
  has_fields UserPreferences_fields (Db.preferences db) ->
  datetime_in_range (UserPreferences.created_at p) = true ->
  datetime_in_range (UserPreferences.updated_at p) = true ->
  datetime_in_range now = true ->
  Forall readable (UserPreferences.preferred_hours p) ->
  UserPreferences_from (UserPreferences_dict p) = Done p ->
  UserPreferences_from (UserPreferences_dict (updated_preferences now p))
  = Done (updated_preferences now p) ->
  let user_id := UserPreferences.user_id p in
  let after := snd (create_preferences now p db) in
  fst (create_preferences now p db) = p
  /\ has_fields UserPreferences_fields (Db.preferences after)
  /\ (of_user user_id (Db.preferences db) = [] ->
      get_preferences UserPreferences_from user_id after = Done p)
  /\ (of_user user_id (Db.preferences db) <> [] ->
      get_preferences UserPreferences_from user_id after = Done (updated_preferences now p)).
Proof.
  intros W Rc Ru Rn Rw Lp Lu user_id after.
  assert (Pw : Forall plain_times (UserPreferences.preferred_hours p)).
  { eapply Forall_impl; [| exact Rw]. exact readable_plain_times. }
  split.
  { unfold create_preferences. cbv zeta. destruct (find_one _ _); reflexivity. }
  split; [exact (create_preferences_has_fields now p db W) |].
  pose proof (create_preferences_finds now p db W) as F.
  subst user_id after. unfold get_preferences. rewrite F. unfold of_user.
  destruct (find_one _ (Db.preferences db)) as [doc |] eqn:E.
  - split; intros K.
    + apply find_one_none in K. congruence.
    + rewrite preferences_dict_round_trip by assumption. exact Lu.
  - split; intros K.
    + rewrite preferences_dict_round_trip by assumption. exact Lp.
    + exfalso. apply K. apply find_one_none. exact E.
Qed.

Lemma X20_preferences_created_then_read_witness :
  let first := sample_preferences 60 [saturday_morning] in
  let second :=
    UserPreferences.mk "p2" "u1" "2 New Rd" ["3"] 45
      [PreferredHours.mk "18:00" "20:30" [TUESDAY; THURSDAY]]
      (instant monday_2024_01_01 1 9 0) (instant monday_2024_01_01 1 9 0) in
  let now := instant monday_2024_01_01 1 9 1 in
  let db := snd (create_preferences monday_2024_01_01 first sample_db) in
  get_preferences UserPreferences_of_dict "u1" db = Done first
  /\ get_preferences UserPreferences_of_dict "u1" (snd (create_preferences now second db))
     = Done (updated_preferences now second).
Proof.
  intros first second now db. split.
  - refine (proj1 (proj2 (proj2
      (X20_preferences_created_then_read UserPreferences_of_dict monday_2024_01_01
         first sample_db _ _ _ _ _ _ _))) _).
    + constructor.
    + vm_compute. reflexivity.
    + vm_compute. reflexivity.
    + vm_compute. reflexivity.
    + repeat constructor; eexists; vm_compute; reflexivity.
    + vm_compute. reflexivity.
    + vm_compute. reflexivity.
    + vm_compute. reflexivity.
  - refine (proj2 (proj2 (proj2
      (X20_preferences_created_then_read UserPreferences_of_dict now second db
         _ _ _ _ _ _ _))) _).
    + repeat constructor.
    + vm_compute. reflexivity.
    + vm_compute. reflexivity.
    + vm_compute. reflexivity.
    + repeat constructor; eexists; vm_compute; reflexivity.
    + vm_compute. reflexivity.
    + vm_compute. reflexivity.
    + vm_compute. discriminate.
Defined.

(** X21: [create_preferences] writes one document of one collection: the
    grocery lists, the schedules and the preferences of every other user
    are what they were, in their order; a user without preferences has
    one document afterwards, and a user with some has as many as before,
    so that the route never adds a second document for a user. *)
Theorem X21_create_preferences_writes_one_document (now : datetime)
    (p : UserPreferences.t) (db : Db.t) :
  let user_id := UserPreferences.user_id p in
  let after := snd (create_preferences now p db) in
  Db.grocery_lists after = Db.grocery_lists db
  /\ Db.weekly_schedules after = Db.weekly_schedules db
  /\ of_others user_id (Db.preferences after) = of_others user_id (Db.preferences db)
  /\ List.length (of_user user_id (Db.preferences after))
     = Nat.max 1 (List.length (of_user user_id (Db.preferences db))).
Proof.
  intros user_id after. unfold after, create_preferences. cbv zeta. fold user_id.
  destruct (find_one [("user_id", user_id)] (Db.preferences db)) as [doc |] eqn:F;
    cbn [snd Db.preferences Db.grocery_lists Db.weekly_schedules];
    (split; [reflexivity |]); (split; [reflexivity |]).
  - rewrite updated_preferences_dict. unfold of_others, of_user.
    destruct (update_one_set_filter [("user_id", user_id)]
                (prepare_for_mongo (UserPreferences_dict (updated_preferences now p)))
                (Db.preferences db)
                (preferences_dict_matches (updated_preferences now p))) as [E1 E2].
    split; [exact E1 |]. rewrite E2.
    apply find_one_In in F as [Hin Hm].
    assert (Hf : In doc (filter (matches [("user_id", user_id)]) (Db.preferences db))).
    { apply filter_In. split; assumption. }
    destruct (filter (matches [("user_id", user_id)]) (Db.preferences db));
      [destruct Hf | reflexivity].
  - unfold of_others, of_user. rewrite !insert_one_filter.
    assert (M : matches [("user_id", user_id)] (prepare_for_mongo (UserPreferences_dict p))
                = true).
    { cbn [matches forallb]. unfold field_equals.
      cbn [UserPreferences_dict dict_of_items prepare_for_mongo dict_get String.eqb Ascii.eqb
           Bool.eqb andb].
      unfold user_id. rewrite String.eqb_refl. reflexivity. }
    rewrite M. cbn [negb]. rewrite app_nil_r. split; [reflexivity |].
    apply find_one_none in F. rewrite F. reflexivity.
Qed.

(** * The grocery list routes *)

Lemma grocery_list_dict_round_trip (g : GroceryList.t) :
  datetime_in_range (GroceryList.created_at g) = true ->
  datetime_in_range (GroceryList.updated_at g) = true ->
  parse_from_mongo (prepare_for_mongo (GroceryList_dict g)) = GroceryList_dict g.
Proof.
  intros Rc Ru. unfold GroceryList_dict.
  cbn [dict_of_items prepare_for_mongo parse_from_mongo]. decide_keys.
  rewrite (in_range_round_trip _ Rc), (in_range_round_trip _ Ru).
  rewrite (map_dicts_round_trip GroceryItem_dict).
  - reflexivity.
  - intros i _. apply item_round_trip.
Qed.

Lemma updated_grocery_list_dict (now : datetime) (g : GroceryList.t) :
  dict_set "updated_at" (VStr (isoformat now)) (prepare_for_mongo (GroceryList_dict g))
  = prepare_for_mongo (GroceryList_dict (updated_grocery_list now g)).
Proof. reflexivity. Qed.

Lemma GroceryList_fields_NoDup : NoDup GroceryList_fields.
Proof.
  unfold GroceryList_fields.
  repeat (constructor; [cbn [In]; intuition discriminate |]). constructor.
Qed.

Lemma grocery_list_dict_matches (g : GroceryList.t) (doc : dict) :
  matches [("user_id", GroceryList.user_id g)]
    (set_fields (prepare_for_mongo (GroceryList_dict g)) doc) = true.
Proof.
  cbn [matches forallb]. unfold field_equals.
  rewrite (dict_get_set_fields "user_id" (VStr (GroceryList.user_id g))).
  - rewrite String.eqb_refl. reflexivity.
  - exact GroceryList_fields_NoDup.
  - reflexivity.
Qed.

Lemma set_grocery_list_fields (g : GroceryList.t) (doc : dict) :
  dict_keys doc = GroceryList_fields ->
  set_fields (prepare_for_mongo (GroceryList_dict g)) doc
  = prepare_for_mongo (GroceryList_dict g).
Proof.
  unfold GroceryList_fields. intros H. items_of H. reflexivity.
Qed.

Lemma grocery_list_dict_matches_itself (g : GroceryList.t) :
  matches [("user_id", GroceryList.user_id g)] (prepare_for_mongo (GroceryList_dict g))
  = true.
Proof.
  cbn [matches forallb]. unfold field_equals.
  cbn [GroceryList_dict dict_of_items prepare_for_mongo dict_get String.eqb Ascii.eqb
       Bool.eqb andb].
  rewrite String.eqb_refl. reflexivity.
Qed.

(** X22: [create_grocery_list] and [get_grocery_list] are the preferences
    routes again, on their own collection: the list posted is what the
    user then gets, items in their order, with the clock of the update in
    [updated_at] when the user had a list; the route writes one document,
    and no second one for a user; the preferences, the schedules and the
    lists of the other users are what they were. *)
Theorem X22_grocery_list_created_then_read
    (GroceryList_from : dict -> outcome GroceryList.t)
    (fresh_id : string) (created_at updated_at : datetime)
    (now : datetime) (g : GroceryList.t) (db : Db.t) :
  has_fields GroceryList_fields (Db.grocery_lists db) ->
  datetime_in_range (GroceryList.created_at g) = true ->
  datetime_in_range (GroceryList.updated_at g) = true ->
  datetime_in_range now = true ->
  GroceryList_from (GroceryList_dict g) = Done g ->
  GroceryList_from (GroceryList_dict (updated_grocery_list now g))
  = Done (updated_grocery_list now g) ->
  let user_id := GroceryList.user_id g in
  let after := snd (create_grocery_list now g db) in
  let read := get_grocery_list GroceryList_from fresh_id created_at updated_at user_id after in
  fst (create_grocery_list now g db) = g
  /\ has_fields GroceryList_fields (Db.grocery_lists after)
  /\ (of_user user_id (Db.grocery_lists db) = [] -> read = Done g)
  /\ (of_user user_id (Db.grocery_lists db) <> [] -> read = Done (updated_grocery_list now g))
  /\ Db.preferences after = Db.preferences db
  /\ Db.weekly_schedules after = Db.weekly_schedules db
  /\ of_others user_id (Db.grocery_lists after) = of_others user_id (Db.grocery_lists db)
  /\ List.length (of_user user_id (Db.grocery_lists after))
     = Nat.max 1 (List.length (of_user user_id (Db.grocery_lists db))).
Proof.
  intros W Rc Ru Rn Lg Lu user_id after read. subst read after user_id.
  unfold get_grocery_list, create_grocery_list, of_user, of_others. cbv zeta.
  destruct (find_one [("user_id", GroceryList.user_id g)] (Db.grocery_lists db))
    as [doc |] eqn:F;
    cbn [fst snd Db.preferences Db.grocery_lists Db.weekly_schedules];
    (split; [reflexivity |]).
  - rewrite updated_grocery_list_dict.
    destruct (find_one_In _ _ _ F) as [Hin Hm].
    assert (Hd : dict_keys doc = GroceryList_fields).
    { unfold has_fields in W. rewrite Forall_forall in W. exact (W doc Hin). }
    assert (Hf : In doc (filter (matches [("user_id", GroceryList.user_id g)])
                           (Db.grocery_lists db))).
    { apply filter_In. split; assumption. }
    destruct (update_one_set_filter [("user_id", GroceryList.user_id g)]
                (prepare_for_mongo (GroceryList_dict (updated_grocery_list now g)))
                (Db.grocery_lists db)
                (grocery_list_dict_matches (updated_grocery_list now g))) as [E1 E2].
    rewrite (find_one_update_one_set _ _ doc _ F)
      by exact (grocery_list_dict_matches (updated_grocery_list now g) doc).
    rewrite set_grocery_list_fields by exact Hd.
    rewrite grocery_list_dict_round_trip by assumption.
    split.
    { apply has_fields_update_one_set; [| exact W].
      intros d K. rewrite set_grocery_list_fields by exact K. reflexivity. }
    split; [intros K; rewrite K in Hf; destruct Hf |].
    split; [intros _; exact Lu |].
    split; [reflexivity |]. split; [reflexivity |]. split; [exact E1 |].
    rewrite E2.
    destruct (filter (matches [("user_id", GroceryList.user_id g)]) (Db.grocery_lists db));
      [destruct Hf | reflexivity].
  - rewrite (find_one_insert_one _ _ _ F (grocery_list_dict_matches_itself g)).
    rewrite grocery_list_dict_round_trip by assumption.
    rewrite !insert_one_filter, (grocery_list_dict_matches_itself g).
    cbn [negb]. rewrite app_nil_r. apply find_one_none in F. rewrite F.
    split.
    { unfold insert_one, has_fields. apply Forall_app. split; [exact W |].
      constructor; [reflexivity | constructor]. }
    split; [intros _; exact Lg |].
    split; [intros K; exfalso; apply K; reflexivity |].
    repeat split.
Qed.

Lemma X22_grocery_list_created_then_read_witness :
  let now := instant monday_2024_01_01 4 12 0 in
  let shorter :=
    GroceryList.mk "g2" "u1" [sample_item]
      (instant monday_2024_01_01 4 11 59) (instant monday_2024_01_01 4 11 59) in
  let db := snd (create_grocery_list monday_2024_01_01 sample_grocery_list sample_db) in
  get_grocery_list GroceryList_of_dict "g0" now now "u1" db = Done sample_grocery_list
  /\ get_grocery_list GroceryList_of_dict "g0" now now "u1"
       (snd (create_grocery_list now shorter db))
     = Done (updated_grocery_list now shorter).
Proof.
  intros now shorter db. split.
  - refine (proj1 (proj2 (proj2
      (X22_grocery_list_created_then_read GroceryList_of_dict "g0" now now
         monday_2024_01_01 sample_grocery_list sample_db _ _ _ _ _ _))) _);
      try (vm_compute; reflexivity).
    constructor.
  - refine (proj1 (proj2 (proj2 (proj2
      (X22_grocery_list_created_then_read GroceryList_of_dict "g0" now now
         now shorter db _ _ _ _ _ _)))) _);
      try (vm_compute; reflexivity).
    + repeat constructor.
    + vm_compute. discriminate.
Defined.

(** * The schedule routes *)

(** The start of the week of an instant of the calendar: a Monday at
    00:00:00 of the calendar, no later than the instant. *)
Lemma current_week_start_spec (today : datetime) :
  0 <= today < MAXORDINAL * us_per_day ->
  exists week_start,
    current_week_start today = Done week_start
    /\ weekday week_start = 0
    /\ week_start mod us_per_day = 0
    /\ week_start <= today < week_start + 7 * us_per_day
    /\ (forall k, 0 <= k <= 6 -> weekday (week_start + k * us_per_day) = k)
    /\ 0 <= week_start.
Proof.
  intros Ht. unfold current_week_start. cbv zeta.
  pose proof (weekday_range today) as Hw.
  rewrite timedelta_days_small by lia. cbn [bind].
  pose proof (date_lower today) as Dl.
  assert (Hq : 0 <= date today) by (apply Z.div_pos; [lia | reflexivity]).
  pose proof (Z.div_mod (date today) 7 ltac:(discriminate)) as E7.
  fold (weekday today) in E7.
  assert (Hq7 : 0 <= date today / 7) by (apply Z.div_pos; lia).
  assert (Hge : weekday today * us_per_day <= date today * us_per_day)
    by (unfold us_per_day; lia).
  rewrite datetime_add_in_range by (unfold us_per_day in *; zlia). cbn [bind].
  assert (Dws : date (today + - (weekday today * us_per_day)) = date today - weekday today).
  { replace (today + - (weekday today * us_per_day))
      with (today + (- weekday today) * us_per_day) by lia.
    rewrite date_add_days. lia. }
  rewrite Dws.
  assert (W0 : weekday ((date today - weekday today) * us_per_day) = 0).
  { unfold weekday at 1, date at 1. rewrite Z.div_mul by discriminate.
    replace (date today - weekday today) with (date today / 7 * 7) by lia.
    apply Z.mod_mul. discriminate. }
  eexists. split; [reflexivity |]. split; [exact W0 |].
  split; [apply Z.mod_mul; discriminate |].
  split; [unfold us_per_day in *; zlia |].
  split; [intros k Hk; rewrite weekday_add_days, W0; apply Z.mod_small; lia |].
  apply Z.mul_nonneg_nonneg; [lia | discriminate].
Qed.

Lemma week_start_in_range (today week_start : datetime) :
  0 <= today < MAXORDINAL * us_per_day ->
  current_week_start today = Done week_start ->
  0 <= week_start <= today.
Proof.
  intros Ht E. destruct (current_week_start_spec today Ht) as (ws & E' & _ & _ & R & _ & P).
  rewrite E in E'. injection E' as <-. split; [exact P | zlia].
Qed.

Lemma isoformat_injective (a b : datetime) :
  0 <= a < MAXORDINAL * us_per_day ->
  0 <= b < MAXORDINAL * us_per_day ->
  isoformat a = isoformat b -> a = b.
Proof.
  intros Ha Hb E. apply fromisoformat_isoformat in Ha, Hb. rewrite E in Ha. congruence.
Qed.

(** The suggestions of a week of the calendar are instants of the calendar. *)
Lemma generated_in_range (uuid4 : nat -> string) (fuel : nat)
    (calendar : list CalendarEvent.t) (preferences : UserPreferences.t)
    (week_start : datetime) (l : list ScheduleSuggestion.t) :
  generate_schedule_suggestions uuid4 fuel calendar preferences week_start = Done l ->
  0 <= UserPreferences.shopping_duration_minutes preferences ->
  0 <= week_start ->
  week_start + 7 * us_per_day <= MAXORDINAL * us_per_day ->
  Forall (fun s => datetime_in_range (ScheduleSuggestion.suggested_time s) = true) l.
Proof.
  intros G Hd H0 H7. apply generate_emitted in G. eapply Forall_impl; [| exact G].
  intros s E. destruct E as [day_offset ph st et k n store cd events d t Ho _ Hst Het Hk Hend _ _].
  cbn [suggest ScheduleSuggestion.suggested_time].
  apply strptime_HM_bounds in Hst as [Sh Sm]. apply strptime_HM_bounds in Het as [Eh Em].
  pose proof (combine_within_day (date cd) st Sh Sm) as Cs.
  pose proof (combine_within_day (date cd) et Eh Em) as Ce.
  assert (Dcd : date cd = date week_start + day_offset) by apply date_add_days.
  pose proof (date_lower week_start) as Dl.
  assert (Hq : 0 <= date week_start) by (apply Z.div_pos; [lia | reflexivity]).
  unfold datetime_in_range. apply andb_true_iff.
  subst t d. unfold minutes in *. rewrite Dcd in *.
  unfold us_per_day, us_per_hour, us_per_minute in *.
  split; [apply Z.leb_le | apply Z.ltb_lt]; zlia.
Qed.

Lemma generated_at_most_five (uuid4 : nat -> string) (fuel : nat)
    (calendar : list CalendarEvent.t) (preferences : UserPreferences.t)
    (week_start : datetime) (l : list ScheduleSuggestion.t) :
  generate_schedule_suggestions uuid4 fuel calendar preferences week_start = Done l ->
  (List.length l <= 5)%nat.
Proof.
  intros G. apply generate_Done in G as (suggestions & _ & ->). apply firstn_le_length.
Qed.

(** What [get_weekly_schedule] loads of a schedule stored. *)
Lemma schedule_dict_round_trip (w : WeeklySchedule.t) :
  datetime_in_range (WeeklySchedule.created_at w) = true ->
  Forall (fun s => datetime_in_range (ScheduleSuggestion.suggested_time s) = true)
         (WeeklySchedule.suggestions w) ->
  parse_from_mongo (prepare_for_mongo (WeeklySchedule_dict w)) = WeeklySchedule_reloaded w.
Proof.
  intros Rc Rs. unfold WeeklySchedule_dict, WeeklySchedule_reloaded.
  destruct (WeeklySchedule.approved_suggestion_id w) as [a |];
    cbn [dict_of_items prepare_for_mongo parse_from_mongo VOptional]; decide_keys;
    rewrite (in_range_round_trip _ Rc);
    rewrite (map_dicts_round_trip ScheduleSuggestion_dict);
    try reflexivity;
    intros s Hs; rewrite Forall_forall in Rs; exact (suggestion_round_trip s (Rs s Hs)).
Qed.

Lemma schedule_dict_matches (w : WeeklySchedule.t) (user_id : string)
    (week_start : datetime) :
  matches (schedule_query user_id week_start) (prepare_for_mongo (WeeklySchedule_dict w))
  = String.eqb (WeeklySchedule.user_id w) user_id
    && String.eqb (isoformat (WeeklySchedule.week_start w)) (isoformat week_start).
Proof.
  unfold schedule_query. cbn [matches forallb]. unfold field_equals.
  cbn [WeeklySchedule_dict dict_of_items prepare_for_mongo dict_get String.eqb Ascii.eqb
       Bool.eqb andb].
  rewrite andb_true_r. reflexivity.
Qed.

Lemma delete_many_filter (query : list (string * string)) (collection : list dict) :
  filter (matches query) (delete_many query collection) = []
  /\ filter (fun doc => negb (matches query doc)) (delete_many query collection)
     = filter (fun doc => negb (matches query doc)) collection.
Proof.
  unfold delete_many. induction collection as [| d rest [IH1 IH2]]; [split; reflexivity |].
  cbn [filter]. destruct (matches query d) eqn:M; cbn [negb filter]; [split; assumption |].
  rewrite M. cbn [negb]. rewrite IH2. split; [exact IH1 | reflexivity].
Qed.

(** The route on a user with preferences, once the parts have returned. *)
Lemma generate_weekly_schedule_Done
    (UserPreferences_from : dict -> outcome UserPreferences.t)
    (uuid4 : nat -> string) (fuel : nat) (calendar : list CalendarEvent.t)
    (today : datetime) (schedule_id : string) (created_at : datetime) (user_id : string)
    (db : Db.t) (doc : dict) (user_prefs : UserPreferences.t) (week_start : datetime)
    (suggestions : list ScheduleSuggestion.t) :
  find_one [("user_id", user_id)] (Db.preferences db) = Some doc ->
  UserPreferences_from (parse_from_mongo doc) = Done user_prefs ->
  current_week_start today = Done week_start ->
  generate_schedule_suggestions uuid4 fuel calendar user_prefs week_start = Done suggestions ->
  generate_weekly_schedule UserPreferences_from uuid4 fuel calendar today schedule_id
    created_at user_id db
  = (Done (mk_Generated "Schedule generated successfully"
             (Z.of_nat (List.length suggestions))),
     Db.mk (Db.preferences db) (Db.grocery_lists db)
       (insert_one
          (prepare_for_mongo
             (WeeklySchedule_dict
                (pending_schedule schedule_id user_id week_start suggestions created_at)))
          (delete_many (schedule_query user_id week_start) (Db.weekly_schedules db)))).
Proof.
  intros F P W G. unfold generate_weekly_schedule. rewrite F, P. cbn [bind].
  rewrite W. cbn [bind]. rewrite G. reflexivity.
Qed.

Lemma generate_weekly_schedule_Raised
    (UserPreferences_from : dict -> outcome UserPreferences.t)
    (uuid4 : nat -> string) (fuel : nat) (calendar : list CalendarEvent.t)
    (today : datetime) (schedule_id : string) (created_at : datetime) (user_id : string)
    (db : Db.t) (doc : dict) (user_prefs : UserPreferences.t) (week_start : datetime)
    (e : exn) :
  find_one [("user_id", user_id)] (Db.preferences db) = Some doc ->
  UserPreferences_from (parse_from_mongo doc) = Done user_prefs ->
  current_week_start today = Done week_start ->
  generate_schedule_suggestions uuid4 fuel calendar user_prefs week_start = Raised e ->
  generate_weekly_schedule UserPreferences_from uuid4 fuel calendar today schedule_id
    created_at user_id db
  = (Raised e, db).
Proof.
  intros F P W G. unfold generate_weekly_schedule. rewrite F, P. cbn [bind].
  rewrite W. cbn [bind]. rewrite G. reflexivity.
Qed.

(** A user and a week for which the route can generate. *)
Lemma generate_weekly_schedule_returns
    (UserPreferences_from : dict -> outcome UserPreferences.t)
    (uuid4 : nat -> string) (fuel : nat) (calendar : list CalendarEvent.t)
    (today : datetime) (schedule_id : string) (created_at : datetime) (user_id : string)
    (db : Db.t) (doc : dict) (user_prefs : UserPreferences.t) :
  find_one [("user_id", user_id)] (Db.preferences db) = Some doc ->
  UserPreferences_from (parse_from_mongo doc) = Done user_prefs ->
  0 <= today
  /\ today + 8 * us_per_day + minutes (UserPreferences.shopping_duration_minutes user_prefs)
     <= MAXORDINAL * us_per_day ->
  0 <= UserPreferences.shopping_duration_minutes user_prefs ->
  Forall readable (UserPreferences.preferred_hours user_prefs) ->
  (enough_fuel user_prefs <= fuel)%nat ->
  exists week_start suggestions,
    current_week_start today = Done week_start
    /\ generate_schedule_suggestions uuid4 fuel calendar user_prefs week_start
       = Done suggestions
    /\ 0 <= week_start < MAXORDINAL * us_per_day
    /\ Forall (fun s => datetime_in_range (ScheduleSuggestion.suggested_time s) = true)
              suggestions
    /\ generate_weekly_schedule UserPreferences_from uuid4 fuel calendar today schedule_id
         created_at user_id db
       = (Done (mk_Generated "Schedule generated successfully"
                  (Z.of_nat (List.length suggestions))),
          Db.mk (Db.preferences db) (Db.grocery_lists db)
            (insert_one
               (prepare_for_mongo
                  (WeeklySchedule_dict
                     (pending_schedule schedule_id user_id week_start suggestions
                        created_at)))
               (delete_many (schedule_query user_id week_start) (Db.weekly_schedules db)))).
Proof.
  intros F P [T0 T1] Hd Hr Hf.
  assert (Hm : 0 <= minutes (UserPreferences.shopping_duration_minutes user_prefs))
    by (unfold minutes, us_per_minute; lia).
  assert (Ht : 0 <= today < MAXORDINAL * us_per_day) by (unfold us_per_day in *; zlia).
  destruct (current_week_start_spec today Ht) as (ws & W & _).
  pose proof (week_start_in_range today ws Ht W) as Rw.
  destruct (generate_returns uuid4 fuel calendar user_prefs ws Hd Hr) as (l & G);
    [split; zlia | exact Hf |].
  exists ws, l. split; [exact W |]. split; [exact G |]. split; [zlia |].
  split.
  { apply (generated_in_range _ _ _ _ _ _ G Hd); unfold us_per_day in *; zlia. }
  exact (generate_weekly_schedule_Done _ _ _ _ _ _ _ _ _ _ _ _ _ F P W G).
Qed.

Lemma of_user_schedule_query (user_id : string) (week_start : datetime)
    (collection : list dict) :
  of_user user_id collection = [] ->
  find_one (schedule_query user_id week_start) collection = None.
Proof.
  unfold of_user. intros H. apply find_one_none.
  induction collection as [| d rest IH]; [reflexivity |].
  cbn [filter] in *. unfold schedule_query in *. cbn [matches forallb] in *.
  destruct (field_equals "user_id" user_id d); cbn [andb] in *; [discriminate |].
  exact (IH H).
Qed.

(** X23: a user of whom the database holds nothing.  [get_preferences]
    raises the 404 [Preferences not found] and [get_weekly_schedule] the
    404 [No schedule found for current week]; [get_grocery_list] raises
    nothing and answers with a new, empty list of that user;
    [generate_weekly_schedule] raises the 404 [User preferences not found]
    before it computes anything, and leaves the three collections as they
    were. *)
Theorem X23_routes_on_an_unknown_user
    (UserPreferences_from : dict -> outcome UserPreferences.t)
    (GroceryList_from : dict -> outcome GroceryList.t)
    (WeeklySchedule_from : dict -> outcome WeeklySchedule.t)
    (uuid4 : nat -> string) (fuel : nat) (calendar : list CalendarEvent.t)
    (today : datetime) (fresh_id : string) (created_at updated_at : datetime)
    (user_id : string) (db : Db.t) :
  0 <= today < MAXORDINAL * us_per_day ->
  of_user user_id (Db.preferences db) = [] ->
  of_user user_id (Db.grocery_lists db) = [] ->
  of_user user_id (Db.weekly_schedules db) = [] ->
  get_preferences UserPreferences_from user_id db
  = Raised (HTTPException 404 "Preferences not found")
  /\ get_grocery_list GroceryList_from fresh_id created_at updated_at user_id db
     = Done (GroceryList.mk fresh_id user_id [] created_at updated_at)
  /\ generate_weekly_schedule UserPreferences_from uuid4 fuel calendar today fresh_id
       created_at user_id db
     = (Raised (HTTPException 404 "User preferences not found"), db)
  /\ get_weekly_schedule WeeklySchedule_from today user_id db
     = Raised (HTTPException 404 "No schedule found for current week").
Proof.
  intros Ht Hp Hg Hs. apply find_one_none in Hp, Hg.
  unfold get_preferences, get_grocery_list, generate_weekly_schedule, get_weekly_schedule.
  rewrite Hp, Hg. repeat (split; [reflexivity |]).
  destruct (current_week_start_spec today Ht) as (ws & W & _). rewrite W. cbn [bind].
  pose proof (of_user_schedule_query user_id ws _ Hs) as Q. unfold schedule_query in Q.
  rewrite Q. reflexivity.
Qed.

Lemma X23_routes_on_an_unknown_user_witness :
  let today := instant monday_2024_01_01 2 10 30 in
  let db := snd (create_preferences monday_2024_01_01
                   (sample_preferences 60 [saturday_morning]) sample_db) in
  get_preferences UserPreferences_of_dict "u2" db
  = Raised (HTTPException 404 "Preferences not found")
  /\ get_grocery_list GroceryList_of_dict "g0" today today "u2" db
     = Done (GroceryList.mk "g0" "u2" [] today today)
  /\ generate_weekly_schedule UserPreferences_of_dict sample_uuid4 30 [] today "g0"
       today "u2" db
     = (Raised (HTTPException 404 "User preferences not found"), db)
  /\ get_weekly_schedule WeeklySchedule_of_dict today "u2" db
     = Raised (HTTPException 404 "No schedule found for current week").
Proof.
  intros today db.
  apply (X23_routes_on_an_unknown_user UserPreferences_of_dict GroceryList_of_dict
           WeeklySchedule_of_dict sample_uuid4 30 [] today "g0" today today "u2" db);
    try (vm_compute; reflexivity).
  vm_compute. split; [discriminate | reflexivity].
Defined.

(** X24: for a user whose stored preferences pydantic accepts, with a
    duration that is not negative and readable window times, on a day at
    least eight days and the duration before the end of the calendar, the
    route generates: it answers with the number of the suggestions the
    generator returns for the Monday of [today]'s week, at most five;
    afterwards the schedules hold exactly one document of this user for
    this week, the pending schedule built from those suggestions, whatever
    schedules the user had for the week before; every other schedule, the
    preferences and the grocery lists are what they were. *)
Theorem X24_generate_replaces_the_schedule_of_the_week
    (UserPreferences_from : dict -> outcome UserPreferences.t)
    (uuid4 : nat -> string) (fuel : nat) (calendar : list CalendarEvent.t)
    (today : datetime) (schedule_id : string) (created_at : datetime) (user_id : string)
    (db : Db.t) (doc : dict) (user_prefs : UserPreferences.t) :
  find_one [("user_id", user_id)] (Db.preferences db) = Some doc ->
  UserPreferences_from (parse_from_mongo doc) = Done user_prefs ->
  0 <= today
  /\ today + 8 * us_per_day + minutes (UserPreferences.shopping_duration_minutes user_prefs)
     <= MAXORDINAL * us_per_day ->
  0 <= UserPreferences.shopping_duration_minutes user_prefs ->
  Forall readable (UserPreferences.preferred_hours user_prefs) ->
  (enough_fuel user_prefs <= fuel)%nat ->
  exists week_start suggestions,
    current_week_start today = Done week_start
    /\ generate_schedule_suggestions uuid4 fuel calendar user_prefs week_start
       = Done suggestions
    /\ let result :=
         generate_weekly_schedule UserPreferences_from uuid4 fuel calendar today
           schedule_id created_at user_id db in
       let this_week := matches (schedule_query user_id week_start) in
       fst result
       = Done (mk_Generated "Schedule generated successfully"
                 (Z.of_nat (List.length suggestions)))
       /\ (List.length suggestions <= 5)%nat
       /\ Db.preferences (snd result) = Db.preferences db
       /\ Db.grocery_lists (snd result) = Db.grocery_lists db
       /\ filter this_week (Db.weekly_schedules (snd result))
          = [prepare_for_mongo
               (WeeklySchedule_dict
                  (pending_schedule schedule_id user_id week_start suggestions
                     created_at))]
       /\ filter (fun d => negb (this_week d)) (Db.weekly_schedules (snd result))
          = filter (fun d => negb (this_week d)) (Db.weekly_schedules db).
Proof.
  intros F P Ht Hd Hr Hf.
  destruct (generate_weekly_schedule_returns UserPreferences_from uuid4 fuel calendar today
              schedule_id created_at user_id db doc user_prefs F P Ht Hd Hr Hf)
    as (ws & l & W & G & _ & _ & E).
  exists ws, l. split; [exact W |]. split; [exact G |]. cbv zeta. rewrite E.
  cbn [fst snd Db.preferences Db.grocery_lists Db.weekly_schedules].
  split; [reflexivity |]. split; [exact (generated_at_most_five _ _ _ _ _ _ G) |].
  split; [reflexivity |]. split; [reflexivity |].
  rewrite !insert_one_filter, schedule_dict_matches.
  cbn [pending_schedule WeeklySchedule.user_id WeeklySchedule.week_start].
  rewrite !String.eqb_refl. cbn [andb negb]. rewrite app_nil_r.
  destruct (delete_many_filter (schedule_query user_id ws) (Db.weekly_schedules db))
    as [D1 D2].
  rewrite D1, D2. split; reflexivity.
Qed.

Lemma X24_generate_replaces_the_schedule_of_the_week_witness :
  let preferences := sample_preferences 60 [saturday_morning] in
  let db := snd (create_preferences monday_2024_01_01 preferences sample_db) in
  let today := instant monday_2024_01_01 2 10 30 in
  let once :=
    snd (generate_weekly_schedule UserPreferences_of_dict sample_uuid4 30 [] today "w1"
           today "u1" db) in
  exists week_start suggestions,
    current_week_start (today + us_per_day) = Done week_start
    /\ generate_schedule_suggestions sample_uuid4 30 [] preferences week_start
       = Done suggestions
    /\ let result :=
         generate_weekly_schedule UserPreferences_of_dict sample_uuid4 30 []
           (today + us_per_day) "w2" (today + us_per_day) "u1" once in
       let this_week := matches (schedule_query "u1" week_start) in
       fst result
       = Done (mk_Generated "Schedule generated successfully"
                 (Z.of_nat (List.length suggestions)))
       /\ (List.length suggestions <= 5)%nat
       /\ Db.preferences (snd result) = Db.preferences once
       /\ Db.grocery_lists (snd result) = Db.grocery_lists once
       /\ filter this_week (Db.weekly_schedules (snd result))
          = [prepare_for_mongo
               (WeeklySchedule_dict
                  (pending_schedule "w2" "u1" week_start suggestions
                     (today + us_per_day)))]
       /\ filter (fun d => negb (this_week d)) (Db.weekly_schedules (snd result))
          = filter (fun d => negb (this_week d)) (Db.weekly_schedules once).
Proof.
  intros preferences db today once.
  apply (X24_generate_replaces_the_schedule_of_the_week UserPreferences_of_dict
           sample_uuid4 30 [] (today + us_per_day) "w2" (today + us_per_day) "u1" once
           (prepare_for_mongo (UserPreferences_dict preferences)) preferences).
  - vm_compute. reflexivity.
  - vm_compute. reflexivity.
  - vm_compute. split; discriminate.
  - vm_compute. discriminate.
  - repeat constructor; eexists; vm_compute; reflexivity.
  - vm_compute. lia.
Defined.

Lemma items_from_map {A : Type} (item : value -> outcome A) (inj : A -> value)
    (l : list A) :
  (forall a, item (inj a) = Done a) -> items_from item (map inj l) = Done l.
Proof.
  intros H. induction l as [| a l IH]; [reflexivity |].
  cbn [map items_from]. rewrite H. cbn [bind]. rewrite IH. reflexivity.
Qed.

Lemma ScheduleSuggestion_of_dict_dict (s : ScheduleSuggestion.t) :
  ScheduleSuggestion_of_dict (ScheduleSuggestion_dict s) = Done s.
Proof.
  destruct s as [id t duration [sid name address lat lng [km |]] reason travel score];
    reflexivity.
Qed.

(** The stand-in builds a schedule from what [parse_from_mongo] gives of
    it. *)
Lemma WeeklySchedule_of_dict_reloaded (w : WeeklySchedule.t) :
  datetime_in_range (WeeklySchedule.week_start w) = true ->
  WeeklySchedule_of_dict (WeeklySchedule_reloaded w) = Done w.
Proof.
  intros R. apply in_range_round_trip in R.
  destruct w as [id user_id week_start suggestions approved status created_at].
  cbn [WeeklySchedule.week_start] in R.
  unfold WeeklySchedule_of_dict, WeeklySchedule_reloaded, field_str, field_datetime,
    field_list, field_optional_str.
  cbn [dict_of_items dict_get String.eqb Ascii.eqb Bool.eqb bind
       WeeklySchedule.id WeeklySchedule.user_id WeeklySchedule.week_start
       WeeklySchedule.suggestions WeeklySchedule.approved_suggestion_id
       WeeklySchedule.status WeeklySchedule.created_at].
  rewrite R. cbn [bind].
  rewrite (items_from_map (dict_from ScheduleSuggestion_of_dict)
             (fun s => VDict (ScheduleSuggestion_dict s)))
    by exact ScheduleSuggestion_of_dict_dict.
  cbn [bind]. destruct approved; reflexivity.
Qed.

(** X25: [get_weekly_schedule] after [generate_weekly_schedule].  On any
    day of the week of the generation the user gets the schedule that was
    built: pending, without an approved suggestion, with the suggestions
    of the generator in their order.  On a day of another week for which
    the user had no schedule the route raises its 404: the schedule just
    stored is not found from there.  Pydantic is assumed to build a
    schedule from what [parse_from_mongo] gives of it, where [week_start]
    is still a text. *)
Theorem X25_generated_schedule_is_read_in_its_week
    (UserPreferences_from : dict -> outcome UserPreferences.t)
    (WeeklySchedule_from : dict -> outcome WeeklySchedule.t)
    (uuid4 : nat -> string) (fuel : nat) (calendar : list CalendarEvent.t)
    (today : datetime) (schedule_id : string) (created_at : datetime) (user_id : string)
    (db : Db.t) (doc : dict) (user_prefs : UserPreferences.t) :
  find_one [("user_id", user_id)] (Db.preferences db) = Some doc ->
  UserPreferences_from (parse_from_mongo doc) = Done user_prefs ->
  0 <= today
  /\ today + 8 * us_per_day + minutes (UserPreferences.shopping_duration_minutes user_prefs)
     <= MAXORDINAL * us_per_day ->
  0 <= UserPreferences.shopping_duration_minutes user_prefs ->
  Forall readable (UserPreferences.preferred_hours user_prefs) ->
  (enough_fuel user_prefs <= fuel)%nat ->
  datetime_in_range created_at = true ->
  (forall w, datetime_in_range (WeeklySchedule.week_start w) = true ->
             WeeklySchedule_from (WeeklySchedule_reloaded w) = Done w) ->
  exists week_start suggestions,
    current_week_start today = Done week_start
    /\ generate_schedule_suggestions uuid4 fuel calendar user_prefs week_start
       = Done suggestions
    /\ let after :=
         snd (generate_weekly_schedule UserPreferences_from uuid4 fuel calendar today
                schedule_id created_at user_id db) in
       (forall later,
           current_week_start later = Done week_start ->
           get_weekly_schedule WeeklySchedule_from later user_id after
           = Done (pending_schedule schedule_id user_id week_start suggestions created_at))
       /\ (forall later other_week,
              0 <= later < MAXORDINAL * us_per_day ->
              current_week_start later = Done other_week ->
              other_week <> week_start ->
              filter (matches (schedule_query user_id other_week)) (Db.weekly_schedules db)
              = [] ->
              get_weekly_schedule WeeklySchedule_from later user_id after
              = Raised (HTTPException 404 "No schedule found for current week")).
Proof.
  intros F P Ht Hd Hr Hf Rc Lw.
  destruct (generate_weekly_schedule_returns UserPreferences_from uuid4 fuel calendar today
              schedule_id created_at user_id db doc user_prefs F P Ht Hd Hr Hf)
    as (ws & l & W & G & Rws & Rl & E).
  exists ws, l. split; [exact W |]. split; [exact G |]. cbv zeta. rewrite E.
  cbn [snd]. unfold get_weekly_schedule. cbn [Db.weekly_schedules].
  set (w := pending_schedule schedule_id user_id ws l created_at).
  split.
  - intros later Wl. rewrite Wl. cbn [bind].
    change [("user_id", user_id); ("week_start", isoformat ws)]
      with (schedule_query user_id ws).
    rewrite find_one_insert_one.
    + rewrite schedule_dict_round_trip by assumption. apply Lw.
      change (WeeklySchedule.week_start w) with ws. unfold datetime_in_range. apply andb_true_iff.
      split; [apply Z.leb_le | apply Z.ltb_lt]; zlia.
    + apply find_one_none.
      exact (proj1 (delete_many_filter (schedule_query user_id ws) (Db.weekly_schedules db))).
    + rewrite schedule_dict_matches. cbn [w pending_schedule WeeklySchedule.user_id
                                          WeeklySchedule.week_start].
      rewrite !String.eqb_refl. reflexivity.
  - intros later other Rlater Wl Hne Hnone. rewrite Wl. cbn [bind].
    change [("user_id", user_id); ("week_start", isoformat other)]
      with (schedule_query user_id other).
    assert (N : find_one (schedule_query user_id other)
                  (insert_one (prepare_for_mongo (WeeklySchedule_dict w))
                     (delete_many (schedule_query user_id ws) (Db.weekly_schedules db)))
                = None); [| rewrite N; reflexivity].
    apply find_one_none. rewrite insert_one_filter, schedule_dict_matches.
    cbn [w pending_schedule WeeklySchedule.user_id WeeklySchedule.week_start].
    pose proof (week_start_in_range later other Rlater Wl) as Ro.
    destruct (String.eqb_spec (isoformat ws) (isoformat other)) as [I | _].
    + exfalso. apply Hne. symmetry. apply isoformat_injective; [exact Rws | zlia | exact I].
    + rewrite andb_false_r, app_nil_r. unfold delete_many.
      clear - Hnone. induction (Db.weekly_schedules db) as [| d rest IH]; [reflexivity |].
      cbn [filter] in *.
      destruct (matches (schedule_query user_id other) d) eqn:M; [discriminate |].
      destruct (negb (matches (schedule_query user_id ws) d)); cbn [filter];
        [rewrite M |]; exact (IH Hnone).
Qed.

Lemma X25_generated_schedule_is_read_in_its_week_witness :
  let preferences := sample_preferences 60 [saturday_morning] in
  let db := snd (create_preferences monday_2024_01_01 preferences sample_db) in
  let today := instant monday_2024_01_01 2 10 30 in
  exists week_start suggestions,
    current_week_start today = Done week_start
    /\ generate_schedule_suggestions sample_uuid4 30 [] preferences week_start
       = Done suggestions
    /\ let after :=
         snd (generate_weekly_schedule UserPreferences_of_dict sample_uuid4 30 [] today
                "w1" today "u1" db) in
       (forall later,
           current_week_start later = Done week_start ->
           get_weekly_schedule WeeklySchedule_of_dict later "u1" after
           = Done (pending_schedule "w1" "u1" week_start suggestions today))
       /\ (forall later other_week,
              0 <= later < MAXORDINAL * us_per_day ->
              current_week_start later = Done other_week ->
              other_week <> week_start ->
              filter (matches (schedule_query "u1" other_week)) (Db.weekly_schedules db)
              = [] ->
              get_weekly_schedule WeeklySchedule_of_dict later "u1" after
              = Raised (HTTPException 404 "No schedule found for current week")).
Proof.
  intros preferences db today.
  apply (X25_generated_schedule_is_read_in_its_week UserPreferences_of_dict
           WeeklySchedule_of_dict sample_uuid4 30 [] today "w1" today "u1" db
           (prepare_for_mongo (UserPreferences_dict preferences)) preferences).
  - vm_compute. reflexivity.
  - vm_compute. reflexivity.
  - vm_compute. split; discriminate.
  - vm_compute. discriminate.
  - repeat constructor; eexists; vm_compute; reflexivity.
  - vm_compute. lia.
  - vm_compute. reflexivity.
  - exact WeeklySchedule_of_dict_reloaded.
Defined.

Lemma weekday_of_range (day : DayOfWeek) : 0 <= weekday_of day <= 6.
Proof. destruct day; cbn [weekday_of]; lia. Qed.

(** X26: [create_preferences] takes the window times as they come.
    Preferences with a window that names a day and has a time that is no
    [HH:MM] are stored like any other; every later
    [generate_weekly_schedule] of the user then raises, with the
    [ValueError] of the time or an [OverflowError] met before it, neither
    of them an [HTTPException], and stores no schedule. *)
Theorem X26_unreadable_window_is_stored_and_breaks_generation
    (UserPreferences_from : dict -> outcome UserPreferences.t)
    (uuid4 : nat -> string) (fuel : nat) (calendar : list CalendarEvent.t)
    (now today : datetime) (schedule_id : string) (created_at : datetime)
    (p : UserPreferences.t) (db : Db.t) (ph : PreferredHours.t) :
  has_fields UserPreferences_fields (Db.preferences db) ->
  datetime_in_range (UserPreferences.created_at p) = true ->
  datetime_in_range (UserPreferences.updated_at p) = true ->
  datetime_in_range now = true ->
  Forall plain_times (UserPreferences.preferred_hours p) ->
  In ph (UserPreferences.preferred_hours p) ->
  ~ readable ph ->
  PreferredHours.days ph <> [] ->
  UserPreferences_from (UserPreferences_dict p) = Done p ->
  UserPreferences_from (UserPreferences_dict (updated_preferences now p))
  = Done (updated_preferences now p) ->
  0 <= today < MAXORDINAL * us_per_day ->
  (enough_fuel p <= fuel)%nat ->
  let after := snd (create_preferences now p db) in
  exists e,
    generate_weekly_schedule UserPreferences_from uuid4 fuel calendar today schedule_id
      created_at (UserPreferences.user_id p) after
    = (Raised e, after)
    /\ value_or_overflow e.
Proof.
  intros W Rc Ru Rn Pw Hin Hun Hdays Lp Lu Ht Hf after.
  pose proof (create_preferences_finds now p db W) as F. fold after in F.
  set (q := match find_one _ (Db.preferences db) with
            | Some _ => updated_preferences now p
            | None => p
            end) in F.
  assert (Hq : q = p \/ q = updated_preferences now p).
  { unfold q. destruct (find_one _ (Db.preferences db)); [right | left]; reflexivity. }
  assert (P : UserPreferences_from (parse_from_mongo (prepare_for_mongo (UserPreferences_dict q)))
              = Done q).
  { destruct Hq as [-> | ->]; rewrite preferences_dict_round_trip by assumption;
      assumption. }
  assert (Hw : UserPreferences.preferred_hours q = UserPreferences.preferred_hours p)
    by (destruct Hq as [-> | ->]; reflexivity).
  assert (He : enough_fuel q = enough_fuel p) by (destruct Hq as [-> | ->]; reflexivity).
  clearbody q.
  destruct (current_week_start_spec today Ht) as (ws & Ws & _ & _ & _ & Wk & _).
  destruct (generate_schedule_suggestions uuid4 fuel calendar q ws) as [l | e |] eqn:G.
  - exfalso. apply Hun. apply generate_Done in G as (suggestions & C & _).
    destruct (PreferredHours.days ph) as [| day days] eqn:D; [destruct (Hdays eq_refl) |].
    pose proof (weekday_of_range day) as Hd.
    apply (collect_suggestions_readable _ _ _ _ _ _ (weekday_of day) ph C Hd).
    apply matching_windows_spec. rewrite Hw. split; [exact Hin |].
    exists day. split; [rewrite D; left; reflexivity | exact (Wk _ Hd)].
  - exists e. split; [| exact (generate_raises _ _ _ _ _ _ G)].
    exact (generate_weekly_schedule_Raised _ _ _ _ _ _ _ _ _ _ _ _ _ F P Ws G).
  - exfalso. rewrite <- He in Hf.
    exact (proj2 (generate_enough uuid4 calendar q ws fuel fuel Hf Hf) G).
Qed.

Lemma X26_unreadable_window_is_stored_and_breaks_generation_witness :
  let afternoon := PreferredHours.mk "2pm" "16:00" [WEDNESDAY] in
  let preferences := sample_preferences 60 [saturday_morning; afternoon] in
  let after := snd (create_preferences monday_2024_01_01 preferences sample_db) in
  exists e,
    generate_weekly_schedule UserPreferences_of_dict sample_uuid4 30 []
      (instant monday_2024_01_01 2 10 30) "w1" (instant monday_2024_01_01 2 10 30)
      "u1" after
    = (Raised e, after)
    /\ value_or_overflow e.
Proof.
  intros afternoon preferences after.
  apply (X26_unreadable_window_is_stored_and_breaks_generation UserPreferences_of_dict
           sample_uuid4 30 [] monday_2024_01_01 (instant monday_2024_01_01 2 10 30) "w1"
           (instant monday_2024_01_01 2 10 30) preferences sample_db afternoon).
  - constructor.
  - vm_compute. reflexivity.
  - vm_compute. reflexivity.
  - vm_compute. reflexivity.
  - repeat constructor; vm_compute; reflexivity.
  - right. left. reflexivity.
  - intros [[t Ht] _]. vm_compute in Ht. discriminate.
  - discriminate.
  - vm_compute. reflexivity.
  - vm_compute. reflexivity.
  - vm_compute. split; [discriminate | reflexivity].
  - vm_compute. lia.
Defined.
